(** * pyclustering: the CCORE wrapper (pyclustering/core/wrapper.py)

    A shallow embedding of the marshaling layer between the Python side of
    pyclustering and the CCORE library: the point-set encoder
    [create_pointer_data], the result decoders [extract_clusters],
    [extract_dynamics] and [extract_pyclustering_package], and the
    entry points built from them.

    The Python code runs against memory it shares with the library and
    raises exceptions, so it is embedded in a state-and-exception monad
    over a [world]: a block-structured memory plus the trace of the
    memory accesses and foreign calls made so far. *)

From Stdlib Require Import ZArith PrimFloat.
From stdpp Require Import gmap strings list.

Set Warnings "-inexact-float,-register-all".
Open Scope Z_scope.

(** ** Python values *)

(** What [extract_pyclustering_package] puts in its result list: numbers
    read from memory, or the list another call returned. *)
Inductive pyvalue :=
  | PyInt (z : Z)
  | PyFloat (f : float)
  | PyList (l : list pyvalue).

(** The exceptions the wrapper can raise. [ValueError] is ctypes'
    "NULL pointer access"; [AssertionError] is the [assert(0)] of
    [extract_pyclustering_package]; [RecursionError] is the interpreter's
    recursion limit; [MemoryFault] stands for a read or write outside the
    memory the model describes (what ctypes does there is undefined). *)
Inductive exn :=
  | IndexError
  | TypeError
  | ValueError
  | AssertionError
  | RecursionError
  | MemoryFault.

Inductive outcome (A : Type) :=
  | Ok (a : A)
  | Raise (e : exn).
Arguments Ok {A} a.
Arguments Raise {A} e.

Definition raised {A} (r : outcome A) : bool :=
  match r with Ok _ => false | Raise _ => true end.

(** ** ctypes data *)

Inductive ctype := c_int | c_uint | c_float | c_double | c_long | c_ulong.

(** Modelled from the spec: the structure [data_representation] is
    declared in pyclustering.core.definitions, which is not among the
    sources; it has the fields wrapper.py writes: the two counts and the
    address of the array of row pointers. *)
Record data_representation := DataRepresentation {
  dr_number_objects : Z;
  dr_dimension : Z;
  dr_pointer_objects : Z }.

(** Modelled from the spec: the structure [clustering_result], declared
    in pyclustering.core.definitions; the fields wrapper.py reads: the
    group count and the address of the array of clusters. *)
Record clustering_result := ClusteringResult {
  cr_number_clusters : Z;
  cr_pointer_clusters : Z }.

(** Modelled from the spec: the structure [cluster_representation],
    declared in pyclustering.core.definitions; the fields wrapper.py
    reads: the object count and the address of the array of indices. *)
Record cluster_representation := ClusterRepresentation {
  cl_number_objects : Z;
  cl_pointer_objects : Z }.

(** Modelled from the spec: the structure [dynamic_result], declared in
    pyclustering.core.definitions; the fields wrapper.py reads: the step
    count, the network size, the address of the timestamps and the
    address of the array of row pointers. *)
Record dynamic_result := DynamicResult {
  dy_size_dynamic : Z;
  dy_size_network : Z;
  dy_times : Z;
  dy_dynamic : Z }.

(** Modelled from the spec: the structure [pyclustering_package],
    declared in pyclustering.core.definitions; the fields wrapper.py
    reads: the element count, the type tag and the data pointer. *)
Record pyclustering_package := Package {
  pkg_size : Z;
  pkg_type : Z;
  pkg_data : Z }.

(** The type codes of [pyclustering_type_data] are declared in
    pyclustering.core.definitions as well; the decoder is parametrised
    by them. *)
Record pyclustering_type_data := TypeData {
  PYCLUSTERING_TYPE_INT : Z;
  PYCLUSTERING_TYPE_UNSIGNED_INT : Z;
  PYCLUSTERING_TYPE_FLOAT : Z;
  PYCLUSTERING_TYPE_DOUBLE : Z;
  PYCLUSTERING_TYPE_LONG : Z;
  PYCLUSTERING_TYPE_UNSIGNED_LONG : Z;
  PYCLUSTERING_TYPE_LIST : Z }.

Definition recognized_codes (c : pyclustering_type_data) : list Z :=
  [ PYCLUSTERING_TYPE_INT c; PYCLUSTERING_TYPE_UNSIGNED_INT c;
    PYCLUSTERING_TYPE_FLOAT c; PYCLUSTERING_TYPE_DOUBLE c;
    PYCLUSTERING_TYPE_LONG c; PYCLUSTERING_TYPE_UNSIGNED_LONG c;
    PYCLUSTERING_TYPE_LIST c ].

(** ** Memory *)

(** Memory is a finite map from base addresses to blocks. A block is one
    structure, or one array whose cells hold the value a read through a
    pointer of the array's element type returns. An address is the base
    of a block; [p[i]] is cell [i] of the block at [p]. *)
Inductive block :=
  | BData (d : data_representation)
  | BClusteringResult (r : clustering_result)
  | BClusters (l : list cluster_representation)
  | BDynamicResult (r : dynamic_result)
  | BPackage (p : pyclustering_package)
  | BInts (ty : ctype) (l : list Z)
  | BFloats (ty : ctype) (l : list float)
  | BPointers (l : list Z).

(** An argument of a foreign call. *)
Inductive carg :=
  | ArgPointer (a : Z)
  | ArgInt (z : Z)
  | ArgUInt (z : Z)
  | ArgDouble (f : float)
  | ArgBool (b : bool).

Inductive event :=
  | EvAlloc (a : Z)
  | EvStore (a : Z)
  | EvLoad (a : Z)
  | EvCall (name : string) (args : list carg) (ret : Z).

Record world := World {
  heap : gmap Z block;
  trace : list event }.

Definition log (ev : event) (w : world) : world :=
  World (heap w) (trace w ++ [ev]).

(** ** The monad *)

(** A computation maps a world to an outcome and the world it leaves.
    An exception keeps what was done before it was raised. *)
Definition M (A : Type) : Type := world → outcome A * world.

Definition ret {A} (a : A) : M A := λ w, (Ok a, w).

Definition raise {A} (e : exn) : M A := λ w, (Raise e, w).

Definition bind {A B} (m : M A) (f : A → M B) : M B := λ w,
  match m w with
  | (Ok a, w') => f a w'
  | (Raise e, w') => (Raise e, w')
  end.

Notation "x ←' m ;; k" := (bind m (λ x, k))
  (at level 100, m at next level, right associativity,
   format "'[v' x  ←'  m  ;;  '/' k ']'").
Notation "m ;;' k" := (bind m (λ _, k))
  (at level 100, right associativity).

(** [for index in l: s = body(index, s)], with the variables the loop
    updates threaded as [s]. *)
Fixpoint for_each {S} (l : list Z) (body : Z → S → M S) (s : S) : M S :=
  match l with
  | [] => ret s
  | index :: l' => s' ←' body index s ;; for_each l' body s'
  end.

(** Python's [range(0, n)]. *)
Definition range0 (n : Z) : list Z := seqZ 0 n.

(** ** Memory operations *)

(** Indexing a ctypes pointer that holds [a]: a NULL pointer raises
    ValueError; the block at [a] is read otherwise. *)
Definition load (a : Z) : M block := λ w,
  if decide (a = 0) then (Raise ValueError, w)
  else match heap w !! a with
       | Some b => (Ok b, log (EvLoad a) w)
       | None => (Raise MemoryFault, w)
       end.

Definition cell {A} (l : list A) (i : Z) : M A :=
  if decide (0 ≤ i) then
    match l !! Z.to_nat i with
    | Some x => ret x
    | None => raise MemoryFault
    end
  else raise MemoryFault.

Definition load_clustering_result (a : Z) : M clustering_result :=
  b ←' load a ;;
  match b with BClusteringResult r => ret r | _ => raise MemoryFault end.

Definition load_cluster (a i : Z) : M cluster_representation :=
  b ←' load a ;;
  match b with BClusters l => cell l i | _ => raise MemoryFault end.

Definition load_dynamic_result (a : Z) : M dynamic_result :=
  b ←' load a ;;
  match b with BDynamicResult r => ret r | _ => raise MemoryFault end.

Definition load_package (a : Z) : M pyclustering_package :=
  b ←' load a ;;
  match b with BPackage p => ret p | _ => raise MemoryFault end.

Definition load_data (a : Z) : M data_representation :=
  b ←' load a ;;
  match b with BData d => ret d | _ => raise MemoryFault end.

Definition load_pointer (a i : Z) : M Z :=
  b ←' load a ;;
  match b with BPointers l => cell l i | _ => raise MemoryFault end.

Definition ctype_eqb (t1 t2 : ctype) : bool :=
  match t1, t2 with
  | c_int, c_int | c_uint, c_uint | c_float, c_float
  | c_double, c_double | c_long, c_long | c_ulong, c_ulong => true
  | _, _ => false
  end.

Definition load_int (ty : ctype) (a i : Z) : M Z :=
  b ←' load a ;;
  match b with
  | BInts ty' l => if ctype_eqb ty ty' then cell l i else raise MemoryFault
  | _ => raise MemoryFault
  end.

Definition load_float (ty : ctype) (a i : Z) : M float :=
  b ←' load a ;;
  match b with
  | BFloats ty' l => if ctype_eqb ty ty' then cell l i else raise MemoryFault
  | _ => raise MemoryFault
  end.

(** [p[i]] through a pointer to a scalar type, as the Python value ctypes
    returns. *)
Definition load_scalar (ty : ctype) (a i : Z) : M pyvalue :=
  match ty with
  | c_float | c_double => f ←' load_float ty a i ;; ret (PyFloat f)
  | _ => z ←' load_int ty a i ;; ret (PyInt z)
  end.

(** Python's [l[i]] on a list, negative indices counting from the end. *)
Definition getitem {A} (l : list A) (i : Z) : M A :=
  let j := if decide (i < 0) then i + Z.of_nat (length l) else i in
  if decide (0 ≤ j) then
    match l !! Z.to_nat j with
    | Some x => ret x
    | None => raise IndexError
    end
  else raise IndexError.

Definition len {A} (l : list A) : Z := Z.of_nat (length l).

(** ** The decoders *)

(** [extract_clusters]. [list_of_clusters] is the loop variable;
    [pointer_container] aliases its entry [index_cluster], so the inner
    [append] is an update of that entry. *)
Definition extract_clusters (ccore_result : Z) : M (list (list Z)) :=
  let pointer_clustering_result := ccore_result in
  r ←' load_clustering_result pointer_clustering_result ;;
  let number_clusters := cr_number_clusters r in
  for_each (range0 number_clusters) (λ index_cluster list_of_clusters,
    r ←' load_clustering_result pointer_clustering_result ;;
    let clusters := cr_pointer_clusters r in
    c ←' load_cluster clusters index_cluster ;;
    let objects := cl_pointer_objects c in
    let list_of_clusters := list_of_clusters ++ [[]] in
    _ ←' getitem list_of_clusters index_cluster ;;
    c ←' load_cluster clusters index_cluster ;;
    for_each (range0 (cl_number_objects c)) (λ index_object list_of_clusters,
      o ←' load_int c_uint objects index_object ;;
      ret (alter (λ pointer_container, pointer_container ++ [o])
                 (Z.to_nat index_cluster) list_of_clusters))
      list_of_clusters) [].

(** [extract_dynamics]. The loop variable is the pair (times, dynamic). *)
Definition extract_dynamics (ccore_result : Z)
    : M (list float * list (list float)) :=
  let pointer_dynamic_result := ccore_result in
  r ←' load_dynamic_result pointer_dynamic_result ;;
  let size_dynamic := dy_size_dynamic r in
  r ←' load_dynamic_result pointer_dynamic_result ;;
  let size_network := dy_size_network r in
  r ←' load_dynamic_result pointer_dynamic_result ;;
  let pointer_time := dy_times r in
  r ←' load_dynamic_result pointer_dynamic_result ;;
  let pointer_pointer_dynamic := dy_dynamic r in
  for_each (range0 size_dynamic) (λ index '(times, dynamic),
    t ←' load_float c_double pointer_time index ;;
    let times := times ++ [t] in
    let dynamic := dynamic ++ [[]] in
    pointer_dynamic ←' load_pointer pointer_pointer_dynamic index ;;
    dynamic ←' for_each (range0 size_network) (λ object_dynamic dynamic,
       _ ←' getitem dynamic index ;;
       v ←' load_float c_double pointer_dynamic object_dynamic ;;
       ret (alter (λ row, row ++ [v]) (Z.to_nat index) dynamic)) dynamic ;;
    ret (times, dynamic)) ([], []).

(** What reaches [extract_pyclustering_package]: the Python int a foreign
    call returned, or the ctypes pointer instance read out of an array of
    pointers. *)
Inductive handle :=
  | HInt (z : Z)
  | HPointer (a : Z).

(** [h == 0]: true of the int 0; a ctypes pointer instance is never equal
    to an int. *)
Definition handle_eq_zero (h : handle) : bool :=
  match h with
  | HInt z => bool_decide (z = 0)
  | HPointer _ => false
  end.

(** [cast(h, POINTER(...))]: the address the handle holds. *)
Definition cast (h : handle) : Z :=
  match h with HInt z => z | HPointer a => a end.

(** The variable [pointer_data] of [extract_pyclustering_package]. *)
Inductive typed_pointer :=
  | NonePointer
  | ScalarPointer (ty : ctype) (a : Z)
  | PackagePointers (a : Z).

Section Package.

Context (codes : pyclustering_type_data).

(** [extract_pyclustering_package]; [depth] is the number of nested calls
    the interpreter still allows. *)
Fixpoint extract_pyclustering_package (depth : nat)
    (ccore_package_pointer : handle) : M (list pyvalue) :=
  if handle_eq_zero ccore_package_pointer then ret []
  else match depth with
  | O => raise RecursionError
  | S depth' =>
    let pointer_package := cast ccore_package_pointer in
    p ←' load_package pointer_package ;;
    let size := pkg_size p in
    p ←' load_package pointer_package ;;
    let type_package := pkg_type p in
    let result : list pyvalue := [] in
    let scalar (ty : ctype) : M (list pyvalue * typed_pointer) :=
      p ←' load_package pointer_package ;;
      ret (result, ScalarPointer ty (pkg_data p)) in
    rp ←'
      (if decide (type_package = PYCLUSTERING_TYPE_INT codes) then
         scalar c_int
       else if decide (type_package = PYCLUSTERING_TYPE_UNSIGNED_INT codes) then
         scalar c_uint
       else if decide (type_package = PYCLUSTERING_TYPE_FLOAT codes) then
         scalar c_float
       else if decide (type_package = PYCLUSTERING_TYPE_DOUBLE codes) then
         scalar c_double
       else if decide (type_package = PYCLUSTERING_TYPE_LONG codes) then
         scalar c_long
       else if decide (type_package = PYCLUSTERING_TYPE_UNSIGNED_LONG codes) then
         scalar c_ulong
       else if decide (type_package = PYCLUSTERING_TYPE_LIST codes) then
         p ←' load_package pointer_package ;;
         let pointer_data := pkg_data p in
         result ←' for_each (range0 size) (λ index result,
           sub ←' load_pointer pointer_data index ;;
           l ←' extract_pyclustering_package depth' (HPointer sub) ;;
           ret (result ++ [PyList l])) result ;;
         ret (result, PackagePointers pointer_data)
       else raise AssertionError) ;;
    let '(result, pointer_data) := rp in
    if decide (type_package ≠ PYCLUSTERING_TYPE_LIST codes) then
      for_each (range0 size) (λ index result,
        match pointer_data with
        | ScalarPointer ty a =>
            v ←' load_scalar ty a index ;; ret (result ++ [v])
        | _ => raise TypeError
        end) result
    else ret result
  end.

End Package.

(** ** The point-set encoder *)

(** A ctypes object is created at an address no block occupies, never
    the NULL address. *)
Definition fresh_address (h : gmap Z block) : Z := fresh ({[0]} ∪ dom h).

Definition alloc (b : block) : M Z := λ w,
  let a := fresh_address (heap w) in
  (Ok a, World (<[a := b]> (heap w)) (trace w ++ [EvAlloc a])).

(** A write into the block at [a]; [f] is the new content, or the
    exception the write raises. *)
Definition update (a : Z) (f : block → outcome block) : M unit := λ w,
  match heap w !! a with
  | Some b =>
      match f b with
      | Ok b' => (Ok (), World (<[a := b']> (heap w)) (trace w ++ [EvStore a]))
      | Raise e => (Raise e, w)
      end
  | None => (Raise MemoryFault, w)
  end.

(** [array[i] = x] on a ctypes array: IndexError outside the array. *)
Definition set_cell {A} (l : list A) (i : Z) (x : A) : outcome (list A) :=
  if decide (0 ≤ i < len l) then Ok (<[Z.to_nat i := x]> l)
  else Raise IndexError.

Definition store_data (a : Z) (f : data_representation → data_representation)
    : M unit :=
  update a (λ b, match b with BData d => Ok (BData (f d)) | _ => Raise MemoryFault end).

Definition store_float (a i : Z) (v : float) : M unit :=
  update a (λ b,
    match b with
    | BFloats ty l =>
        match set_cell l i v with
        | Ok l' => Ok (BFloats ty l')
        | Raise e => Raise e
        end
    | _ => Raise MemoryFault
    end).

Definition store_pointer (a i : Z) (p : Z) : M unit :=
  update a (λ b,
    match b with
    | BPointers l =>
        match set_cell l i p with
        | Ok l' => Ok (BPointers l')
        | Raise e => Raise e
        end
    | _ => Raise MemoryFault
    end).

(** [create_pointer_data]. The result is the address of the
    [data_representation] structure. *)
Definition create_pointer_data (sample : list (list float)) : M Z :=
  input_data ←' alloc (BData (DataRepresentation 0 0 0)) ;;
  (store_data input_data (λ d,
     DataRepresentation (len sample) (dr_dimension d) (dr_pointer_objects d)) ;;'
  first ←' getitem sample 0 ;;
  (store_data input_data (λ d,
     DataRepresentation (dr_number_objects d) (len first) (dr_pointer_objects d)) ;;'
  d ←' load_data input_data ;;
  pointer_objects ←'
    alloc (BPointers (replicate (Z.to_nat (dr_number_objects d)) 0)) ;;
  d ←' load_data input_data ;;
  (for_each (range0 (dr_number_objects d)) (λ index _,
     d ←' load_data input_data ;;
     point ←' alloc (BFloats c_double
                       (replicate (Z.to_nat (dr_dimension d)) 0%float)) ;;
     d ←' load_data input_data ;;
     (for_each (range0 (dr_dimension d)) (λ dimension _,
        row ←' getitem sample index ;;
        v ←' getitem row dimension ;;
        store_float point dimension v) () ;;'
     store_pointer pointer_objects index point)) () ;;'
  (store_data input_data (λ d,
     DataRepresentation (dr_number_objects d) (dr_dimension d) pointer_objects) ;;'
  ret input_data)))).

(** Reading an encoded point set back, the way the library reads it:
    row [i] is [dimension] doubles at [pointer_objects[i]]. *)
Definition read_pointer_data (pointer_data : Z) : M (list (list float)) :=
  d ←' load_data pointer_data ;;
  for_each (range0 (dr_number_objects d)) (λ index rows,
    p ←' load_pointer (dr_pointer_objects d) index ;;
    row ←' for_each (range0 (dr_dimension d)) (λ dimension row,
      v ←' load_float c_double p dimension ;;
      ret (row ++ [v])) [] ;;
    ret (rows ++ [row])) [].

(** ** The entry points *)

(** What an entry point returns to its caller. *)
Inductive pyresult :=
  | RClusters (list_of_clusters : list (list Z))
  | RClustersNoise (list_of_clusters : list (list Z)) (noise : list Z)
  | RDynamics (times : list float) (dynamic : list (list float))
  | RPackage (result : list pyvalue).

(** Python's [l.remove(x)]: the first entry equal to [x] goes. *)
Fixpoint remove (l : list (list Z)) (x : list Z) : M (list (list Z)) :=
  match l with
  | [] => raise ValueError
  | y :: l' =>
      if decide (y = x) then ret l'
      else l'' ←' remove l' x ;; ret (y :: l'')
  end.

(** [c_uint(n)] *)
Definition c_uint_value (n : Z) : carg := ArgUInt (n mod 2 ^ 32).

Section EntryPoints.

(** The library: what a call to one of its functions returns and how it
    changes memory. *)
Context (ccore : string → list carg → gmap Z block → Z * gmap Z block).
Context (codes : pyclustering_type_data).
(** The interpreter's recursion limit. *)
Context (recursion_limit : nat).

Definition ccall (name : string) (args : list carg) : M Z := λ w,
  let '(r, h') := ccore name args (heap w) in
  (Ok r, World h' (trace w ++ [EvCall name args r])).

Definition dbscan (sample : list (list float)) (eps : float)
    (min_neighbors : Z) (return_noise : bool) : M pyresult :=
  pointer_data ←' create_pointer_data sample ;;
  result ←' ccall "dbscan_algorithm"
    [ArgPointer pointer_data; ArgDouble eps; c_uint_value min_neighbors] ;;
  list_of_clusters ←' extract_clusters result ;;
  (ccall "free_clustering_result" [ArgInt result] ;;'
  noise ←' getitem list_of_clusters (len list_of_clusters - 1) ;;
  list_of_clusters ←' remove list_of_clusters noise ;;
  if return_noise then ret (RClustersNoise list_of_clusters noise)
  else ret (RClusters list_of_clusters)).

Definition cure (sample : list (list float)) (number_clusters : Z)
    (number_represent_points : Z) (compression : float) : M pyresult :=
  pointer_data ←' create_pointer_data sample ;;
  result ←' ccall "cure_algorithm"
    [ArgPointer pointer_data; c_uint_value number_clusters;
     c_uint_value number_represent_points; ArgDouble compression] ;;
  list_of_clusters ←' extract_clusters result ;;
  (ccall "free_clustering_result" [ArgInt result] ;;'
  ret (RClusters list_of_clusters)).

Definition hierarchical (sample : list (list float)) (number_clusters : Z)
    : M pyresult :=
  pointer_data ←' create_pointer_data sample ;;
  result ←' ccall "hierarchical_algorithm"
    [ArgPointer pointer_data; c_uint_value number_clusters] ;;
  list_of_clusters ←' extract_clusters result ;;
  (ccall "free_clustering_result" [ArgInt result] ;;'
  ret (RClusters list_of_clusters)).

Definition kmeans (sample centers : list (list float)) (tolerance : float)
    : M pyresult :=
  pointer_data ←' create_pointer_data sample ;;
  pointer_centers ←' create_pointer_data centers ;;
  result ←' ccall "kmeans_algorithm"
    [ArgPointer pointer_data; ArgPointer pointer_centers; ArgDouble tolerance] ;;
  list_of_clusters ←' extract_clusters result ;;
  (ccall "free_clustering_result" [ArgInt result] ;;'
  ret (RClusters list_of_clusters)).

Definition rock (sample : list (list float)) (eps : float)
    (number_clusters : Z) (threshold : float) : M pyresult :=
  pointer_data ←' create_pointer_data sample ;;
  result ←' ccall "rock_algorithm"
    [ArgPointer pointer_data; ArgDouble eps; c_uint_value number_clusters;
     ArgDouble threshold] ;;
  list_of_clusters ←' extract_clusters result ;;
  (ccall "free_clustering_result" [ArgInt result] ;;'
  ret (RClusters list_of_clusters)).

Definition xmeans (sample centers : list (list float)) (kmax : Z)
    (tolerance : float) : M pyresult :=
  pointer_data ←' create_pointer_data sample ;;
  pointer_centers ←' create_pointer_data centers ;;
  result ←' ccall "xmeans_algorithm"
    [ArgPointer pointer_data; ArgPointer pointer_centers; c_uint_value kmax;
     ArgDouble tolerance] ;;
  list_of_clusters ←' extract_clusters result ;;
  (ccall "free_clustering_result" [ArgInt result] ;;'
  ret (RClusters list_of_clusters)).

Definition simulate_sync_network (pointer_network : Z) (steps : Z)
    (time : float) (solution : Z) (collect_dynamic : bool) : M pyresult :=
  ccore_dynamic_result ←' ccall "simulate_sync_network"
    [ArgInt pointer_network; c_uint_value steps; ArgDouble time;
     c_uint_value solution; ArgBool collect_dynamic] ;;
  python_dynamic_result ←' extract_dynamics ccore_dynamic_result ;;
  (ccall "free_dynamic_result" [ArgInt ccore_dynamic_result] ;;'
  ret (RDynamics python_dynamic_result.1 python_dynamic_result.2)).

Definition simulate_dynamic_sync_network (pointer_network : Z) (order : float)
    (solution : Z) (collect_dynamic : bool) (step int_step : float)
    (threshold_changes : float) : M pyresult :=
  ccore_dynamic_result ←' ccall "simulate_dynamic_sync_network"
    [ArgInt pointer_network; ArgDouble order; c_uint_value solution;
     ArgBool collect_dynamic; ArgDouble step; ArgDouble int_step;
     ArgDouble threshold_changes] ;;
  python_dynamic_result ←' extract_dynamics ccore_dynamic_result ;;
  (ccall "free_dynamic_result" [ArgInt ccore_dynamic_result] ;;'
  ret (RDynamics python_dynamic_result.1 python_dynamic_result.2)).

Definition allocate_sync_ensembles_sync_network (pointer_network : Z)
    (tolerance : float) : M pyresult :=
  ccore_cluster_result ←' ccall "allocate_sync_ensembles_sync_network"
    [ArgInt pointer_network; ArgDouble tolerance] ;;
  list_of_clusters ←' extract_clusters ccore_cluster_result ;;
  (ccall "free_clustering_result" [ArgInt ccore_cluster_result] ;;'
  ret (RClusters list_of_clusters)).

Definition process_syncnet (network_pointer : Z) (order : float)
    (solution : Z) (collect_dynamic : bool) : M pyresult :=
  ccore_dynamic_result ←' ccall "process_syncnet"
    [ArgInt network_pointer; ArgDouble order; c_uint_value solution;
     ArgBool collect_dynamic] ;;
  python_dynamic_result ←' extract_dynamics ccore_dynamic_result ;;
  (ccall "free_dynamic_result" [ArgInt ccore_dynamic_result] ;;'
  ret (RDynamics python_dynamic_result.1 python_dynamic_result.2)).

Definition get_clusters_syncnet (pointer_network : Z) (tolerance : float)
    : M pyresult :=
  ccore_cluster_result ←' ccall "get_clusters_syncnet"
    [ArgInt pointer_network; ArgDouble tolerance] ;;
  list_of_clusters ←' extract_clusters ccore_cluster_result ;;
  (ccall "free_clustering_result" [ArgInt ccore_cluster_result] ;;'
  ret (RClusters list_of_clusters)).

Definition process_hsyncnet (network_pointer : Z) (order : float)
    (solution : Z) (collect_dynamic : bool) : M pyresult :=
  ccore_dynamic_result ←' ccall "process_hsyncnet"
    [ArgInt network_pointer; ArgDouble order; c_uint_value solution;
     ArgBool collect_dynamic] ;;
  python_dynamic_result ←' extract_dynamics ccore_dynamic_result ;;
  (ccall "free_dynamic_result" [ArgInt ccore_dynamic_result] ;;'
  ret (RDynamics python_dynamic_result.1 python_dynamic_result.2)).

(** The four accessors of a self-organized map that return a package
    ([som_get_capture_objects], [som_get_weights], [som_get_awards],
    [som_get_neighbors]) differ in the name of the library function only. *)
Definition som_get (name : string) (som_pointer : Z) : M pyresult :=
  package ←' ccall name [ArgInt som_pointer] ;;
  result ←' extract_pyclustering_package codes recursion_limit (HInt package) ;;
  ret (RPackage result).

Definition som_get_capture_objects := som_get "som_get_capture_objects".
Definition som_get_weights := som_get "som_get_weights".
Definition som_get_awards := som_get "som_get_awards".
Definition som_get_neighbors := som_get "som_get_neighbors".

End EntryPoints.

(** ** The entry points that decode a result and release it *)

Inductive invocation :=
  | CallDbscan (sample : list (list float)) (eps : float) (min_neighbors : Z)
      (return_noise : bool)
  | CallCure (sample : list (list float)) (number_clusters : Z)
      (number_represent_points : Z) (compression : float)
  | CallHierarchical (sample : list (list float)) (number_clusters : Z)
  | CallKmeans (sample centers : list (list float)) (tolerance : float)
  | CallRock (sample : list (list float)) (eps : float) (number_clusters : Z)
      (threshold : float)
  | CallXmeans (sample centers : list (list float)) (kmax : Z)
      (tolerance : float)
  | CallSimulateSyncNetwork (pointer_network : Z) (steps : Z) (time : float)
      (solution : Z) (collect_dynamic : bool)
  | CallSimulateDynamicSyncNetwork (pointer_network : Z) (order : float)
      (solution : Z) (collect_dynamic : bool) (step int_step : float)
      (threshold_changes : float)
  | CallAllocateSyncEnsemblesSyncNetwork (pointer_network : Z)
      (tolerance : float)
  | CallProcessSyncnet (network_pointer : Z) (order : float) (solution : Z)
      (collect_dynamic : bool)
  | CallGetClustersSyncnet (pointer_network : Z) (tolerance : float)
  | CallProcessHsyncnet (network_pointer : Z) (order : float) (solution : Z)
      (collect_dynamic : bool).

(** The two kinds of result with a release function of their own. *)
Inductive family := FClusters | FDynamics.

Inductive decoded :=
  | DClusters (list_of_clusters : list (list Z))
  | DDynamics (python_dynamic_result : list float * list (list float)).

Definition result_family (i : invocation) : family :=
  match i with
  | CallDbscan _ _ _ _ | CallCure _ _ _ _ | CallHierarchical _ _
  | CallKmeans _ _ _ | CallRock _ _ _ _ | CallXmeans _ _ _ _
  | CallAllocateSyncEnsemblesSyncNetwork _ _ | CallGetClustersSyncnet _ _ =>
      FClusters
  | _ => FDynamics
  end.

Definition entry_point (i : invocation) : string :=
  match i with
  | CallDbscan _ _ _ _ => "dbscan_algorithm"
  | CallCure _ _ _ _ => "cure_algorithm"
  | CallHierarchical _ _ => "hierarchical_algorithm"
  | CallKmeans _ _ _ => "kmeans_algorithm"
  | CallRock _ _ _ _ => "rock_algorithm"
  | CallXmeans _ _ _ _ => "xmeans_algorithm"
  | CallSimulateSyncNetwork _ _ _ _ _ => "simulate_sync_network"
  | CallSimulateDynamicSyncNetwork _ _ _ _ _ _ _ =>
      "simulate_dynamic_sync_network"
  | CallAllocateSyncEnsemblesSyncNetwork _ _ =>
      "allocate_sync_ensembles_sync_network"
  | CallProcessSyncnet _ _ _ _ => "process_syncnet"
  | CallGetClustersSyncnet _ _ => "get_clusters_syncnet"
  | CallProcessHsyncnet _ _ _ _ => "process_hsyncnet"
  end.

Definition release_point (f : family) : string :=
  match f with
  | FClusters => "free_clustering_result"
  | FDynamics => "free_dynamic_result"
  end.

(** What an entry point does before it calls the library: it encodes its
    point sets and converts its scalars. *)
Definition arguments (i : invocation) : M (list carg) :=
  match i with
  | CallDbscan sample eps min_neighbors _ =>
      pointer_data ←' create_pointer_data sample ;;
      ret [ArgPointer pointer_data; ArgDouble eps; c_uint_value min_neighbors]
  | CallCure sample number_clusters number_represent_points compression =>
      pointer_data ←' create_pointer_data sample ;;
      ret [ArgPointer pointer_data; c_uint_value number_clusters;
           c_uint_value number_represent_points; ArgDouble compression]
  | CallHierarchical sample number_clusters =>
      pointer_data ←' create_pointer_data sample ;;
      ret [ArgPointer pointer_data; c_uint_value number_clusters]
  | CallKmeans sample centers tolerance =>
      pointer_data ←' create_pointer_data sample ;;
      pointer_centers ←' create_pointer_data centers ;;
      ret [ArgPointer pointer_data; ArgPointer pointer_centers;
           ArgDouble tolerance]
  | CallRock sample eps number_clusters threshold =>
      pointer_data ←' create_pointer_data sample ;;
      ret [ArgPointer pointer_data; ArgDouble eps; c_uint_value number_clusters;
           ArgDouble threshold]
  | CallXmeans sample centers kmax tolerance =>
      pointer_data ←' create_pointer_data sample ;;
      pointer_centers ←' create_pointer_data centers ;;
      ret [ArgPointer pointer_data; ArgPointer pointer_centers;
           c_uint_value kmax; ArgDouble tolerance]
  | CallSimulateSyncNetwork pointer_network steps time solution collect_dynamic =>
      ret [ArgInt pointer_network; c_uint_value steps; ArgDouble time;
           c_uint_value solution; ArgBool collect_dynamic]
  | CallSimulateDynamicSyncNetwork pointer_network order solution
      collect_dynamic step int_step threshold_changes =>
      ret [ArgInt pointer_network; ArgDouble order; c_uint_value solution;
           ArgBool collect_dynamic; ArgDouble step; ArgDouble int_step;
           ArgDouble threshold_changes]
  | CallAllocateSyncEnsemblesSyncNetwork pointer_network tolerance =>
      ret [ArgInt pointer_network; ArgDouble tolerance]
  | CallProcessSyncnet network_pointer order solution collect_dynamic =>
      ret [ArgInt network_pointer; ArgDouble order; c_uint_value solution;
           ArgBool collect_dynamic]
  | CallGetClustersSyncnet pointer_network tolerance =>
      ret [ArgInt pointer_network; ArgDouble tolerance]
  | CallProcessHsyncnet network_pointer order solution collect_dynamic =>
      ret [ArgInt network_pointer; ArgDouble order; c_uint_value solution;
           ArgBool collect_dynamic]
  end.

Definition decoder (f : family) (result : Z) : M decoded :=
  match f with
  | FClusters => l ←' extract_clusters result ;; ret (DClusters l)
  | FDynamics => d ←' extract_dynamics result ;; ret (DDynamics d)
  end.

Definition run
    (ccore : string → list carg → gmap Z block → Z * gmap Z block)
    (i : invocation) : M pyresult :=
  match i with
  | CallDbscan sample eps min_neighbors return_noise =>
      dbscan ccore sample eps min_neighbors return_noise
  | CallCure sample number_clusters number_represent_points compression =>
      cure ccore sample number_clusters number_represent_points compression
  | CallHierarchical sample number_clusters =>
      hierarchical ccore sample number_clusters
  | CallKmeans sample centers tolerance =>
      kmeans ccore sample centers tolerance
  | CallRock sample eps number_clusters threshold =>
      rock ccore sample eps number_clusters threshold
  | CallXmeans sample centers kmax tolerance =>
      xmeans ccore sample centers kmax tolerance
  | CallSimulateSyncNetwork pointer_network steps time solution collect_dynamic =>
      simulate_sync_network ccore pointer_network steps time solution
        collect_dynamic
  | CallSimulateDynamicSyncNetwork pointer_network order solution
      collect_dynamic step int_step threshold_changes =>
      simulate_dynamic_sync_network ccore pointer_network order solution
        collect_dynamic step int_step threshold_changes
  | CallAllocateSyncEnsemblesSyncNetwork pointer_network tolerance =>
      allocate_sync_ensembles_sync_network ccore pointer_network tolerance
  | CallProcessSyncnet network_pointer order solution collect_dynamic =>
      process_syncnet ccore network_pointer order solution collect_dynamic
  | CallGetClustersSyncnet pointer_network tolerance =>
      get_clusters_syncnet ccore pointer_network tolerance
  | CallProcessHsyncnet network_pointer order solution collect_dynamic =>
      process_hsyncnet ccore network_pointer order solution collect_dynamic
  end.

(** ** Properties of computations *)

Definition is_load (ev : event) : Prop :=
  match ev with EvLoad _ => True | _ => False end.

Definition is_call (ev : event) : Prop :=
  match ev with EvCall _ _ _ => True | _ => False end.

(** [is_release result ev]: [ev] is a call of a release function on
    [result]. *)
Definition is_release (result : Z) (ev : event) : bool :=
  match ev with
  | EvCall name [ArgInt a] _ =>
      bool_decide (a = result) &&
      (bool_decide (name = "free_clustering_result") ||
       bool_decide (name = "free_dynamic_result"))
  | _ => false
  end.

(** The events [w'] has recorded since [w]. *)
Definition events_since (w w' : world) : list event :=
  drop (length (trace w)) (trace w').

(** [w'] is [w] after reads: the same memory, and loads only added to the
    trace. *)
Definition loads_only (w w' : world) : Prop :=
  heap w' = heap w ∧
  ∃ evs, trace w' = trace w ++ evs ∧ Forall is_load evs.

(** A computation that, whatever the world and whatever its outcome,
    leaves memory as it found it and does nothing but read. *)
Definition read_only {A} (m : M A) : Prop :=
  ∀ w, loads_only w (m w).2.

(** A computation that calls no library function. *)
Definition call_free {A} (m : M A) : Prop :=
  ∀ w, ∃ evs, trace (m w).2 = trace w ++ evs ∧ Forall (λ ev, ¬ is_call ev) evs.

(** On every world whose memory is [h], [m] has outcome [r], and only
    reads. *)
Definition yields {A} (h : gmap Z block) (m : M A) (r : outcome A) : Prop :=
  ∀ w, heap w = h → (m w).1 = r ∧ loads_only w (m w).2.

(** ** Results laid out in memory *)

(** The block at [a] starts with the cells [l]. *)
Definition ints_at (h : gmap Z block) (ty : ctype) (a : Z) (l : list Z) : Prop :=
  a ≠ 0 ∧ ∃ rest, h !! a = Some (BInts ty (l ++ rest)).

Definition floats_at (h : gmap Z block) (ty : ctype) (a : Z) (l : list float)
    : Prop :=
  a ≠ 0 ∧ ∃ rest, h !! a = Some (BFloats ty (l ++ rest)).

Definition pointers_at (h : gmap Z block) (a : Z) (l : list Z) : Prop :=
  a ≠ 0 ∧ ∃ rest, h !! a = Some (BPointers (l ++ rest)).

(** [group] is what the cluster [c] declares: [number_objects] indices,
    the first cells at [pointer_objects]. *)
Definition group_stored (h : gmap Z block) (c : cluster_representation)
    (group : list Z) : Prop :=
  len group = Z.max 0 (cl_number_objects c) ∧
  (group ≠ [] → ints_at h c_uint (cl_pointer_objects c) group).

(** The clustering result at [a] declares [g] groups, and [groups] are
    the groups it declares, in the order of its array of clusters. *)
Definition clusters_stored (h : gmap Z block) (a : Z) (g : Z)
    (groups : list (list Z)) : Prop :=
  a ≠ 0 ∧
  ∃ pc cs,
    h !! a = Some (BClusteringResult (ClusteringResult g pc)) ∧
    len groups = Z.max 0 g ∧
    Forall2 (group_stored h) cs groups ∧
    (groups ≠ [] → pc ≠ 0 ∧ ∃ rest, h !! pc = Some (BClusters (cs ++ rest))).

(** The dynamic result at [a] declares [n] steps of a network of [m]
    nodes; [times] are its first [n] timestamps and [dynamic] the first
    [m] values of each of its first [n] rows. *)
Definition dynamics_stored (h : gmap Z block) (a : Z) (n m : Z)
    (times : list float) (dynamic : list (list float)) : Prop :=
  a ≠ 0 ∧
  ∃ pt pd ptrs,
    h !! a = Some (BDynamicResult (DynamicResult n m pt pd)) ∧
    len times = Z.max 0 n ∧
    Forall2 (λ p row, len row = Z.max 0 m ∧
                      (row ≠ [] → floats_at h c_double p row)) ptrs dynamic ∧
    length ptrs = length times ∧
    (times ≠ [] → floats_at h c_double pt times ∧ pointers_at h pd ptrs).

(** A package as the library builds it: a run of scalars of one C type,
    or a list of packages. *)
Inductive package :=
  | PInts (ty : ctype) (l : list Z)
  | PFloats (ty : ctype) (l : list float)
  | PList (subs : list package).

Definition is_int_type (ty : ctype) : bool :=
  match ty with c_float | c_double => false | _ => true end.

(** The value the package stands for. *)
Fixpoint decoded_package (p : package) : list pyvalue :=
  match p with
  | PInts _ l => PyInt <$> l
  | PFloats _ l => PyFloat <$> l
  | PList subs => (λ sub, PyList (decoded_package sub)) <$> subs
  end.

(** The number of nested calls decoding the package takes. *)
Fixpoint package_depth (p : package) : nat :=
  match p with
  | PList subs => S (max_list (package_depth <$> subs))
  | _ => 1%nat
  end.

Section PackageLayout.

Context (codes : pyclustering_type_data).

Definition code_of (ty : ctype) : Z :=
  match ty with
  | c_int => PYCLUSTERING_TYPE_INT codes
  | c_uint => PYCLUSTERING_TYPE_UNSIGNED_INT codes
  | c_float => PYCLUSTERING_TYPE_FLOAT codes
  | c_double => PYCLUSTERING_TYPE_DOUBLE codes
  | c_long => PYCLUSTERING_TYPE_LONG codes
  | c_ulong => PYCLUSTERING_TYPE_UNSIGNED_LONG codes
  end.

(** [package_stored h p a]: the package [p] is laid out in [h] with its
    header at [a]: the header carries the tag of [p] and its number of
    elements, and its data pointer leads to the scalars, or to the
    pointers to the headers of the sub-packages, in order. *)
Fixpoint package_stored (h : gmap Z block) (p : package) (a : Z) : Prop :=
  a ≠ 0 ∧
  match p with
  | PInts ty l =>
      is_int_type ty = true ∧
      ∃ d, h !! a = Some (BPackage (Package (len l) (code_of ty) d)) ∧
           (l ≠ [] → ints_at h ty d l)
  | PFloats ty l =>
      is_int_type ty = false ∧
      ∃ d, h !! a = Some (BPackage (Package (len l) (code_of ty) d)) ∧
           (l ≠ [] → floats_at h ty d l)
  | PList subs =>
      ∃ d ptrs,
        h !! a = Some (BPackage
                   (Package (len subs) (PYCLUSTERING_TYPE_LIST codes) d)) ∧
        (subs ≠ [] → pointers_at h d ptrs) ∧
        (fix all (subs : list package) (ptrs : list Z) : Prop :=
           match subs, ptrs with
           | [], [] => True
           | sub :: subs, q :: ptrs => package_stored h sub q ∧ all subs ptrs
           | _, _ => False
           end) subs ptrs
  end.

End PackageLayout.

(** The point set [rows] is laid out at [a]: the structure carries the
    two counts and leads to one pointer per row, each to a buffer that
    holds exactly the row. *)
Definition point_set_stored (h : gmap Z block) (a : Z) (n dim : Z)
    (rows : list (list float)) : Prop :=
  ∃ po ptrs,
    h !! a = Some (BData (DataRepresentation n dim po)) ∧
    a ≠ 0 ∧ po ≠ 0 ∧
    h !! po = Some (BPointers ptrs) ∧
    Forall2 (λ p row, p ≠ 0 ∧ h !! p = Some (BFloats c_double row)) ptrs rows.

(** ** Example worlds *)

(** The type codes the examples use. *)
Definition example_codes : pyclustering_type_data := TypeData 0 1 2 3 4 5 6.

Definition empty_world : world := World ∅ [].

(** The package [[1,2,3], [[4],[5,6]]]: a list package at 100 of the
    scalar package at 110 and the list package at 120. *)
Definition nested_heap : gmap Z block :=
  list_to_map
    [ (100, BPackage (Package 2 6 101)); (101, BPointers [110; 120]);
      (110, BPackage (Package 3 0 111)); (111, BInts c_int [1; 2; 3]);
      (120, BPackage (Package 2 6 121)); (121, BPointers [130; 140]);
      (130, BPackage (Package 1 0 131)); (131, BInts c_int [4]);
      (140, BPackage (Package 2 0 141)); (141, BInts c_int [5; 6]) ].

Definition nested_package : package :=
  PList [PInts c_int [1; 2; 3]; PList [PInts c_int [4]; PInts c_int [5; 6]]].

(** A package whose tag is none of the codes. *)
Definition unknown_tag_heap : gmap Z block :=
  list_to_map
    [ (100, BPackage (Package 2 9 101)); (101, BInts c_int [7; 8]) ].

(** A list package whose second sub-package has an unknown tag. *)
Definition nested_unknown_tag_heap : gmap Z block :=
  list_to_map
    [ (100, BPackage (Package 2 6 101)); (101, BPointers [110; 120]);
      (110, BPackage (Package 1 0 111)); (111, BInts c_int [1]);
      (120, BPackage (Package 1 9 121)); (121, BInts c_int [2]) ].

(** A clustering result of two groups, [0,2,4] and [1,3]. *)
Definition two_groups_heap : gmap Z block :=
  list_to_map
    [ (200, BClusteringResult (ClusteringResult 2 201));
      (201, BClusters [ClusterRepresentation 3 210; ClusterRepresentation 2 220]);
      (210, BInts c_uint [0; 2; 4]);
      (220, BInts c_uint [1; 3]) ].

(** A dynamic result of three steps of a network of two nodes. *)
Definition three_steps_heap : gmap Z block :=
  list_to_map
    [ (300, BDynamicResult (DynamicResult 3 2 301 302));
      (301, BFloats c_double [0.0; 0.1; 0.2]%float);
      (302, BPointers [310; 320; 330]);
      (310, BFloats c_double [0.5; 0.5]%float);
      (320, BFloats c_double [0.6; 0.4]%float);
      (330, BFloats c_double [0.7; 0.3]%float) ].

(** A dynamic result that declares no step. *)
Definition zero_steps_heap : gmap Z block :=
  list_to_map [ (300, BDynamicResult (DynamicResult 0 2 0 0)) ].

(** A library for the examples. Every clustering function answers with
    the two groups above, every simulation with the three steps above and
    every accessor of a map with the nested package above, each put in
    memory at the addresses of the example; a release function removes
    the header it is given. *)
Definition example_ccore (name : string) (args : list carg)
    (h : gmap Z block) : Z * gmap Z block :=
  if bool_decide (name ∈ ["free_clustering_result"; "free_dynamic_result"]) then
    match args with
    | [ArgInt a] => (0, delete a h)
    | _ => (0, h)
    end
  else if bool_decide (name ∈ ["simulate_sync_network";
                               "simulate_dynamic_sync_network";
                               "process_syncnet"; "process_hsyncnet"]) then
    (300, three_steps_heap ∪ h)
  else if bool_decide (name ∈ ["som_get_capture_objects"; "som_get_weights";
                               "som_get_awards"; "som_get_neighbors"]) then
    (100, nested_heap ∪ h)
  else (200, two_groups_heap ∪ h).

Definition example_sample : list (list float) :=
  [[1.0; 2.0]; [3.0; 4.0]; [5.0; 6.0]]%float.

(** Rows of differing lengths, none shorter than the first. *)
Definition ragged_sample : list (list float) :=
  [[1.0; 2.0]; [3.0; 4.0; 5.0]]%float.

(** A row shorter than the first. *)
Definition short_row_sample : list (list float) :=
  [[1.0; 2.0]; [3.0]]%float.

(** The invariant of the outer loop of [create_pointer_data] after [k]
    rows: the structure at [a0] has its two counts, the array at [a1]
    holds the addresses of [k] row buffers, each with the first [dim]
    values of its row, and what was in memory before ([h0]) is as it
    was. *)
Definition rows_encoded (h0 : gmap Z block) (a0 a1 : Z)
    (sample : list (list float)) (dim : nat) (k : nat) (w : world) : Prop :=
  heap w !! a0
  = Some (BData (DataRepresentation (len sample) (Z.of_nat dim) 0)) ∧
  (∀ x, is_Some (h0 !! x) → heap w !! x = h0 !! x) ∧
  ∃ ptrs,
    length ptrs = k ∧
    heap w !! a1 = Some (BPointers (ptrs ++ replicate (length sample - k) 0)) ∧
    Forall2 (λ p row, p ≠ 0 ∧ h0 !! p = None ∧
                      heap w !! p = Some (BFloats c_double (take dim row)))
      ptrs (take k sample).

(** A computation that never raises [e]. *)
Definition never_raises {A} (e : exn) (m : M A) : Prop :=
  ∀ w, (m w).1 ≠ Raise e.

(** ** The constructors that take a data set *)

Section Constructors.

Context (ccore : string → list carg → gmap Z block → Z * gmap Z block).

Definition create_syncnet_network (sample : list (list float)) (radius : float)
    (initial_phases : Z) (enable_conn_weight : bool) : M Z :=
  pointer_data ←' create_pointer_data sample ;;
  pointer_network ←' ccall ccore "create_syncnet_network"
    [ArgPointer pointer_data; ArgDouble radius; c_uint_value initial_phases;
     ArgBool enable_conn_weight] ;;
  ret pointer_network.

Definition create_hsyncnet (sample : list (list float)) (number_clusters : Z)
    (initial_phases : Z) : M Z :=
  pointer_data ←' create_pointer_data sample ;;
  pointer_network ←' ccall ccore "create_hsyncnet"
    [ArgPointer pointer_data; c_uint_value number_clusters;
     c_uint_value initial_phases] ;;
  ret pointer_network.

Definition som_create (data : list (list float)) (rows cols epochs : Z)
    (conn_type init_type : Z) : M Z :=
  pointer_data ←' create_pointer_data data ;;
  som_pointer ←' ccall ccore "som_create"
    [ArgPointer pointer_data; c_uint_value rows; c_uint_value cols;
     c_uint_value epochs; c_uint_value conn_type; c_uint_value init_type] ;;
  ret som_pointer.

End Constructors.

(** The three constructors, for statements about all of them. *)
Inductive construction :=
  | CallCreateSyncnetNetwork (sample : list (list float)) (radius : float)
      (initial_phases : Z) (enable_conn_weight : bool)
  | CallCreateHsyncnet (sample : list (list float)) (number_clusters : Z)
      (initial_phases : Z)
  | CallSomCreate (data : list (list float)) (rows cols epochs : Z)
      (conn_type init_type : Z).

Definition construct
    (ccore : string → list carg → gmap Z block → Z * gmap Z block)
    (c : construction) : M Z :=
  match c with
  | CallCreateSyncnetNetwork sample radius initial_phases enable_conn_weight =>
      create_syncnet_network ccore sample radius initial_phases
        enable_conn_weight
  | CallCreateHsyncnet sample number_clusters initial_phases =>
      create_hsyncnet ccore sample number_clusters initial_phases
  | CallSomCreate data rows cols epochs conn_type init_type =>
      som_create ccore data rows cols epochs conn_type init_type
  end.

Definition constructed_from (c : construction) : list (list float) :=
  match c with
  | CallCreateSyncnetNetwork sample _ _ _ => sample
  | CallCreateHsyncnet sample _ _ => sample
  | CallSomCreate data _ _ _ _ _ => data
  end.

Definition constructor_name (c : construction) : string :=
  match c with
  | CallCreateSyncnetNetwork _ _ _ _ => "create_syncnet_network"
  | CallCreateHsyncnet _ _ _ => "create_hsyncnet"
  | CallSomCreate _ _ _ _ _ _ => "som_create"
  end.

(** The arguments of the constructor's call after the pointer to the
    encoded data set. *)
Definition constructor_scalars (c : construction) : list carg :=
  match c with
  | CallCreateSyncnetNetwork _ radius initial_phases enable_conn_weight =>
      [ArgDouble radius; c_uint_value initial_phases; ArgBool enable_conn_weight]
  | CallCreateHsyncnet _ number_clusters initial_phases =>
      [c_uint_value number_clusters; c_uint_value initial_phases]
  | CallSomCreate _ rows cols epochs conn_type init_type =>
      [c_uint_value rows; c_uint_value cols; c_uint_value epochs;
       c_uint_value conn_type; c_uint_value init_type]
  end.

(** ** More example worlds *)

(** A library that answers every call but a release with [result], after
    putting [answer] in memory; a release changes nothing. *)
Definition answering_ccore (result : Z) (answer : gmap Z block)
    (name : string) (args : list carg) (h : gmap Z block)
    : Z * gmap Z block :=
  if bool_decide (name ∈ ["free_clustering_result"; "free_dynamic_result"])
  then (0, h)
  else (result, answer ∪ h).

(** A clustering result that declares no group. *)
Definition no_group_heap : gmap Z block :=
  list_to_map [ (200, BClusteringResult (ClusteringResult 0 0)) ].

(** A clustering result whose first and last groups are both empty. *)
Definition repeated_group_heap : gmap Z block :=
  list_to_map
    [ (200, BClusteringResult (ClusteringResult 3 201));
      (201, BClusters [ClusterRepresentation 0 0; ClusterRepresentation 3 210;
                       ClusterRepresentation 0 0]);
      (210, BInts c_uint [0; 1; 2]) ].

(** A list package whose second pointer is NULL. *)
Definition null_sub_package_heap : gmap Z block :=
  list_to_map
    [ (100, BPackage (Package 2 6 101)); (101, BPointers [110; 0]);
      (110, BPackage (Package 1 0 111)); (111, BInts c_int [1]) ].

(** A package of doubles that declares no element and has no data. *)
Definition no_element_heap : gmap Z block :=
  list_to_map [ (100, BPackage (Package 0 3 0)) ].

(** [w] has every block of [w0], unchanged. *)
Definition keeps (w0 w : world) : Prop :=
  ∀ x, is_Some (heap w0 !! x) → heap w !! x = heap w0 !! x.

(** The invariant of the outer loop of [create_pointer_data] with the
    addresses in view: after [k] rows the array at [a1] holds [k]
    pairwise distinct addresses, all free in [h0] and none of them NULL,
    [a0] or [a1], each of a buffer with the first [dim] values of its
    row. *)
Definition rows_laid_out (h0 : gmap Z block) (a0 a1 : Z)
    (sample : list (list float)) (dim : nat) (k : nat) (w : world) : Prop :=
  heap w !! a0
  = Some (BData (DataRepresentation (len sample) (Z.of_nat dim) 0)) ∧
  (∀ x, is_Some (h0 !! x) → heap w !! x = h0 !! x) ∧
  ∃ ptrs,
    length ptrs = k ∧
    heap w !! a1 = Some (BPointers (ptrs ++ replicate (length sample - k) 0)) ∧
    NoDup ptrs ∧
    Forall2 (λ p row, p ≠ 0 ∧ p ≠ a0 ∧ p ≠ a1 ∧ h0 !! p = None ∧
                      heap w !! p = Some (BFloats c_double (take dim row)))
      ptrs (take k sample).

(** * The cluster visualizer *)

(** An element of a cluster: the index of an object of the data, or the
    object itself. *)
Inductive cluster_item :=
  | ItemIndex (index : Z)
  | ItemObject (object : list float).

(** [canvas_cluster_descr]. [markersize] is [None] until a size is given
    or a default applies. *)
Record canvas_cluster_descr := CanvasClusterDescr {
  descr_cluster : list cluster_item;
  descr_data : option (list (list float));
  descr_marker : string;
  descr_markersize : option Z;
}.

(** What the visualizer raises: the NameError of its own [raise]
    statements, with the message, or an exception of the interpreter. *)
Inductive canvas_exn :=
  | NameError (message : string)
  | Builtin (e : exn).

Inductive completion :=
  | Returned
  | Thrown (e : canvas_exn).

(** [cluster_visualizer]: the fields [__init__] sets. *)
Record cluster_visualizer := ClusterVisualizer {
  number_canvases : Z;
  size_row : Z;
  canvas_clusters : list (list canvas_cluster_descr);
  canvas_dimensions : list (option Z);
  canvas_titles : list (option string);
  default_2d_marker_size : Z;
  default_3d_marker_size : Z;
}.

Definition colors : list string :=
  [ "red"; "blue"; "darkgreen"; "brown"; "violet";
    "deepskyblue"; "darkgrey"; "lightsalmon"; "deeppink"; "yellow";
    "black"; "mediumspringgreen"; "orange"; "darkviolet"; "darkblue";
    "silver"; "lime"; "pink"; "gold"; "bisque" ].

(** [__init__]: [range(number_canvases)] is empty for a number that is
    not positive. *)
Definition cluster_visualizer_init (number_canvases size_row : Z)
    : cluster_visualizer :=
  ClusterVisualizer number_canvases size_row
    (replicate (Z.to_nat number_canvases) [])
    (replicate (Z.to_nat number_canvases) None)
    (replicate (Z.to_nat number_canvases) None)
    5 30.

Definition with_canvas_clusters (self : cluster_visualizer)
    (v : list (list canvas_cluster_descr)) : cluster_visualizer :=
  ClusterVisualizer (number_canvases self) (size_row self) v
    (canvas_dimensions self) (canvas_titles self)
    (default_2d_marker_size self) (default_3d_marker_size self).

Definition with_canvas_dimensions (self : cluster_visualizer)
    (v : list (option Z)) : cluster_visualizer :=
  ClusterVisualizer (number_canvases self) (size_row self)
    (canvas_clusters self) v (canvas_titles self)
    (default_2d_marker_size self) (default_3d_marker_size self).

Definition with_canvas_titles (self : cluster_visualizer)
    (v : list (option string)) : cluster_visualizer :=
  ClusterVisualizer (number_canvases self) (size_row self)
    (canvas_clusters self) (canvas_dimensions self) v
    (default_2d_marker_size self) (default_3d_marker_size self).

(** Python's [l[i]], negative indices counting from the end: the
    position it reads and the value there, or [None] for IndexError. *)
Definition py_lookup {A} (l : list A) (i : Z) : option (nat * A) :=
  let j := if decide (i < 0) then i + len l else i in
  if decide (0 ≤ j) then
    match l !! Z.to_nat j with
    | Some x => Some (Z.to_nat j, x)
    | None => None
    end
  else None.

(** [len(cluster[0])] when there is no data, [len(data[0])] when there
    is: the length of an index is a TypeError. *)
Definition dimension_of (cluster : list cluster_item)
    (data : option (list (list float))) : outcome Z :=
  match data with
  | None =>
      match cluster with
      | [] => Raise IndexError
      | ItemObject object :: _ => Ok (len object)
      | ItemIndex _ :: _ => Raise TypeError
      end
  | Some data =>
      match data with
      | [] => Raise IndexError
      | first :: _ => Ok (len first)
      end
  end.

Definition set_markersize (size : Z) (d : canvas_cluster_descr)
    : canvas_cluster_descr :=
  CanvasClusterDescr (descr_cluster d) (descr_data d) (descr_marker d)
    (Some size).

(** The end of [append_cluster], from the check of the dimension's
    range on. The descriptor whose [markersize] is set is the object
    appended to canvas [c], the last of its list. *)
Definition append_cluster_end (dimension : Z) (c : nat)
    (markersize : option Z) (self : cluster_visualizer)
    : completion * cluster_visualizer :=
  if decide (dimension < 1 ∧ dimension > 3) then
    (Thrown (NameError "Only objects with size dimension 1 (1D plot), 2 (2D plot) or 3 (3D plot) can be displayed."),
     self)
  else
    match markersize with
    | None =>
        let set_last size :=
          with_canvas_clusters self
            (alter (λ l, alter (set_markersize size) (length l - 1)%nat l) c
               (canvas_clusters self)) in
        if decide (dimension = 2) then
          (Returned, set_last (default_2d_marker_size self))
        else if decide (dimension = 3) then
          (Returned, set_last (default_3d_marker_size self))
        else (Returned, self)
    | Some _ => (Returned, self)
    end.

(** [append_cluster]. [canvas] is an integer, so the message of the
    first [raise] cannot be built: ['Canvas does ' + canvas] is a
    TypeError. *)
Definition append_cluster (cluster : list cluster_item)
    (data : option (list (list float))) (canvas : Z) (marker : string)
    (markersize : option Z) (self : cluster_visualizer)
    : completion * cluster_visualizer :=
  if decide (len cluster = 0) then (Returned, self)
  else if decide (canvas > number_canvases self) then
    (Thrown (Builtin TypeError), self)
  else
    let added_canvas_descriptor :=
      CanvasClusterDescr cluster data marker markersize in
    match py_lookup (canvas_clusters self) canvas with
    | None => (Thrown (Builtin IndexError), self)
    | Some (c, on_canvas) =>
        let on_canvas := on_canvas ++ [added_canvas_descriptor] in
        let self :=
          with_canvas_clusters self (<[c := on_canvas]> (canvas_clusters self)) in
        if decide (len on_canvas > len colors) then
          (Thrown (NameError "Not enough colors to display clusters."), self)
        else
          match dimension_of cluster data with
          | Raise e => (Thrown (Builtin e), self)
          | Ok dimension =>
              match py_lookup (canvas_dimensions self) canvas with
              | None => (Thrown (Builtin IndexError), self)
              | Some (k, None) =>
                  append_cluster_end dimension c markersize
                    (with_canvas_dimensions self
                       (<[k := Some dimension]> (canvas_dimensions self)))
              | Some (k, Some canvas_dimension) =>
                  if decide (canvas_dimension ≠ dimension) then
                    (Thrown (NameError "Only clusters with the same dimension of objects can be displayed on canvas."),
                     self)
                  else append_cluster_end dimension c markersize self
              end
          end
    end.

(** [append_clusters]: the loop stops at the first cluster that
    raises. *)
Fixpoint append_clusters (clusters : list (list cluster_item))
    (data : option (list (list float))) (canvas : Z) (marker : string)
    (markersize : option Z) (self : cluster_visualizer)
    : completion * cluster_visualizer :=
  match clusters with
  | [] => (Returned, self)
  | cluster :: clusters =>
      match append_cluster cluster data canvas marker markersize self with
      | (Returned, self) =>
          append_clusters clusters data canvas marker markersize self
      | (Thrown e, self) => (Thrown e, self)
      end
  end.

(** [set_canvas_title], with the [raise] of [append_cluster]. *)
Definition set_canvas_title (text : string) (canvas : Z)
    (self : cluster_visualizer) : completion * cluster_visualizer :=
  if decide (canvas > number_canvases self) then
    (Thrown (Builtin TypeError), self)
  else
    match py_lookup (canvas_titles self) canvas with
    | None => (Thrown (Builtin IndexError), self)
    | Some (k, _) =>
        (Returned,
         with_canvas_titles self (<[k := Some text]> (canvas_titles self)))
    end.

(** A visualizer whose three lists have one entry per canvas, as
    [__init__] makes them. *)
Definition well_formed (self : cluster_visualizer) : Prop :=
  length (canvas_clusters self) = Z.to_nat (number_canvases self) ∧
  length (canvas_dimensions self) = Z.to_nat (number_canvases self) ∧
  length (canvas_titles self) = Z.to_nat (number_canvases self).

(** [self'] is [self] after clusters have been appended: the same
    number of canvases and the same titles, lists of the same lengths,
    every dimension that was set still set to the same value, and on
    every canvas the descriptors it had, in their places, before any new
    one. *)
Definition grows (self self' : cluster_visualizer) : Prop :=
  number_canvases self' = number_canvases self ∧
  canvas_titles self' = canvas_titles self ∧
  length (canvas_clusters self') = length (canvas_clusters self) ∧
  length (canvas_dimensions self') = length (canvas_dimensions self) ∧
  (∀ c d, canvas_dimensions self !! c = Some (Some d) →
          canvas_dimensions self' !! c = Some (Some d)) ∧
  (∀ c l, canvas_clusters self !! c = Some l →
          ∃ l', canvas_clusters self' !! c = Some (l ++ l')).

(** The descriptor [append_cluster] leaves on the canvas when it
    returns. *)
Definition descriptor_of (self : cluster_visualizer)
    (cluster : list cluster_item) (data : option (list (list float)))
    (marker : string) (markersize : option Z) (dimension : Z)
    : canvas_cluster_descr :=
  CanvasClusterDescr cluster data marker
    match markersize with
    | Some size => Some size
    | None =>
        if decide (dimension = 2) then Some (default_2d_marker_size self)
        else if decide (dimension = 3) then Some (default_3d_marker_size self)
        else None
    end.

(** Example clusters: two clusters of points of the plane, and one of
    points of space. *)
Definition plane_cluster : list cluster_item :=
  [ItemObject [0.0; 1.0]%float; ItemObject [2.0; 3.0]%float].

Definition space_cluster : list cluster_item :=
  [ItemObject [0.0; 1.0; 2.0]%float].

Definition cluster_of_indexes : list cluster_item :=
  [ItemIndex 0; ItemIndex 2].

(** Twenty descriptors, as many as there are colors. *)
Definition full_canvas : list canvas_cluster_descr :=
  replicate 20 (CanvasClusterDescr plane_cluster None "." (Some 5)).

(** * Reasoning about computations *)

Lemma bind_ok {A B} (m : M A) (f : A → M B) w a w' :
  m w = (Ok a, w') → bind m f w = f a w'.
Proof. intros H. unfold bind. by rewrite H. Qed.

Lemma bind_raise {A B} (m : M A) (f : A → M B) w e w' :
  m w = (Raise e, w') → bind m f w = (Raise e, w').
Proof. intros H. unfold bind. by rewrite H. Qed.

Lemma for_each_app {S} (l1 l2 : list Z) (body : Z → S → M S) (s : S) w :
  for_each (l1 ++ l2) body s w
  = bind (for_each l1 body s) (for_each l2 body) w.
Proof.
  revert s w. induction l1 as [|i l1 IH]; intros s w; simpl.
  - reflexivity.
  - unfold bind. destruct (body i s w) as [[s'|e] w']; [|reflexivity].
    rewrite IH. reflexivity.
Qed.

Lemma lookup_range0 n k i :
  range0 n !! k = Some i ↔ i = Z.of_nat k ∧ Z.of_nat k < n.
Proof. unfold range0. rewrite lookup_seqZ. naive_solver lia. Qed.

Lemma length_range0 n : length (range0 n) = Z.to_nat n.
Proof. apply length_seqZ. Qed.

(** ** Worlds that differ by reads *)

Lemma loads_only_refl w : loads_only w w.
Proof. split; [done|]. exists []. by rewrite app_nil_r. Qed.

Lemma loads_only_trans w1 w2 w3 :
  loads_only w1 w2 → loads_only w2 w3 → loads_only w1 w3.
Proof.
  intros [H1 (e1 & T1 & F1)] [H2 (e2 & T2 & F2)]. split; [congruence|].
  exists (e1 ++ e2). rewrite T2, T1, app_assoc. split; [done|].
  by apply Forall_app.
Qed.

Lemma loads_only_log w a : loads_only w (log (EvLoad a) w).
Proof. split; [done|]. exists [EvLoad a]. split; [done|]. by repeat constructor. Qed.

(** ** Computations that only read *)

Lemma read_only_ret {A} (a : A) : read_only (ret a).
Proof. intros w. apply loads_only_refl. Qed.

Lemma read_only_raise {A} e : read_only (@raise A e).
Proof. intros w. apply loads_only_refl. Qed.

Lemma read_only_bind {A B} (m : M A) (f : A → M B) :
  read_only m → (∀ a, read_only (f a)) → read_only (bind m f).
Proof.
  intros Hm Hf w. unfold bind. specialize (Hm w).
  destruct (m w) as [[a|e] w']; simpl in *; [|done].
  eapply loads_only_trans; [done|]. apply Hf.
Qed.

Lemma read_only_load a : read_only (load a).
Proof.
  intros w. unfold load. case_decide; [apply loads_only_refl|].
  destruct (heap w !! a); [apply loads_only_log|apply loads_only_refl].
Qed.

Lemma read_only_cell {A} (l : list A) i : read_only (cell l i).
Proof.
  unfold cell. case_decide; [|apply read_only_raise].
  destruct (l !! _); [apply read_only_ret|apply read_only_raise].
Qed.

Lemma read_only_getitem {A} (l : list A) i : read_only (getitem l i).
Proof.
  unfold getitem. case_decide; [|apply read_only_raise].
  destruct (l !! _); [apply read_only_ret|apply read_only_raise].
Qed.

Lemma read_only_for_each {S} l (body : Z → S → M S) s :
  (∀ i s, read_only (body i s)) → read_only (for_each l body s).
Proof.
  intros Hb. revert s. induction l as [|i l IH]; intros s; simpl.
  - apply read_only_ret.
  - apply read_only_bind; [apply Hb|apply IH].
Qed.

Ltac read_only_step :=
  match goal with
  | |- read_only (bind _ _) => apply read_only_bind; [|intros ?]
  | |- read_only (ret _) => apply read_only_ret
  | |- read_only (raise _) => apply read_only_raise
  | |- read_only (load _) => apply read_only_load
  | |- read_only (cell _ _) => apply read_only_cell
  | |- read_only (getitem _ _) => apply read_only_getitem
  | |- read_only (for_each _ _ _) =>
      apply read_only_for_each; intros ? ?; cbv beta
  | |- read_only (match ?x with _ => _ end) => destruct x
  | |- read_only (let '(_, _) := ?x in _) => destruct x
  end.

Ltac read_only_auto := repeat read_only_step.

Lemma read_only_load_clustering_result a : read_only (load_clustering_result a).
Proof. unfold load_clustering_result. read_only_auto. Qed.

Lemma read_only_load_cluster a i : read_only (load_cluster a i).
Proof. unfold load_cluster. read_only_auto. Qed.

Lemma read_only_load_dynamic_result a : read_only (load_dynamic_result a).
Proof. unfold load_dynamic_result. read_only_auto. Qed.

Lemma read_only_load_package a : read_only (load_package a).
Proof. unfold load_package. read_only_auto. Qed.

Lemma read_only_load_data a : read_only (load_data a).
Proof. unfold load_data. read_only_auto. Qed.

Lemma read_only_load_pointer a i : read_only (load_pointer a i).
Proof. unfold load_pointer. read_only_auto. Qed.

Lemma read_only_load_int ty a i : read_only (load_int ty a i).
Proof. unfold load_int. read_only_auto. Qed.

Lemma read_only_load_float ty a i : read_only (load_float ty a i).
Proof. unfold load_float. read_only_auto. Qed.

Lemma read_only_load_scalar ty a i : read_only (load_scalar ty a i).
Proof.
  unfold load_scalar.
  destruct ty; (apply read_only_bind;
    [first [apply read_only_load_int|apply read_only_load_float]
    |intros ?; apply read_only_ret]).
Qed.

Create HintDb reads.
#[global] Hint Resolve read_only_load_clustering_result read_only_load_cluster
  read_only_load_dynamic_result read_only_load_package read_only_load_data
  read_only_load_pointer read_only_load_int read_only_load_float
  read_only_load_scalar : reads.

Ltac read_only_solve :=
  repeat first [ solve [auto with reads] | read_only_step ].

Lemma read_only_extract_clusters a : read_only (extract_clusters a).
Proof. unfold extract_clusters. read_only_solve. Qed.

Lemma read_only_extract_dynamics a : read_only (extract_dynamics a).
Proof. unfold extract_dynamics. read_only_solve. Qed.

Lemma read_only_extract_pyclustering_package codes depth h :
  read_only (extract_pyclustering_package codes depth h).
Proof.
  revert h. induction depth as [|depth IH]; intros h; simpl.
  - destruct (handle_eq_zero h); read_only_auto.
  - destruct (handle_eq_zero h); [read_only_auto|].
    read_only_solve; apply IH.
Qed.

(** ** Outcomes on a given memory *)

Lemma yields_ret {A} h (a : A) : yields h (ret a) (Ok a).
Proof. intros w _. split; [done|apply loads_only_refl]. Qed.

Lemma yields_raise {A} h e : yields h (@raise A e) (Raise e).
Proof. intros w _. split; [done|apply loads_only_refl]. Qed.

Lemma yields_bind {A B} h (m : M A) (f : A → M B) a r :
  yields h m (Ok a) → yields h (f a) r → yields h (bind m f) r.
Proof.
  intros Hm Hf w Hw. destruct (Hm w Hw) as [H1 H2]. unfold bind.
  destruct (m w) as [o w']; simpl in *; subst o.
  destruct (Hf w') as [H3 H4]; [destruct H2; congruence|].
  split; [done|]. by eapply loads_only_trans.
Qed.

Lemma yields_bind_raise {A B} h (m : M A) (f : A → M B) e :
  yields h m (Raise e) → yields h (bind m f) (Raise e).
Proof.
  intros Hm w Hw. destruct (Hm w Hw) as [H1 H2]. unfold bind.
  destruct (m w) as [o w']; simpl in *; by subst o.
Qed.

Lemma yields_load h a b : a ≠ 0 → h !! a = Some b → yields h (load a) (Ok b).
Proof.
  intros Ha Hb w Hw. unfold load. rewrite decide_False by done.
  rewrite Hw, Hb. split; [done|apply loads_only_log].
Qed.

Lemma yields_cell {A} h (l rest : list A) i x :
  l !! i = Some x → yields h (cell (l ++ rest) (Z.of_nat i)) (Ok x).
Proof.
  intros Hx. unfold cell. rewrite decide_True by lia.
  rewrite Nat2Z.id, (lookup_app_l_Some _ _ _ _ Hx). apply yields_ret.
Qed.

Lemma yields_getitem {A} h (l : list A) i x :
  l !! i = Some x → yields h (getitem l (Z.of_nat i)) (Ok x).
Proof.
  intros Hx. unfold getitem.
  destruct (decide (Z.of_nat i < 0)) as [?|_]; [lia|].
  rewrite decide_True by lia. rewrite Nat2Z.id, Hx. apply yields_ret.
Qed.

Lemma ctype_eqb_refl ty : ctype_eqb ty ty = true.
Proof. by destruct ty. Qed.

Lemma yields_load_int h ty a l i x :
  ints_at h ty a l → l !! i = Some x →
  yields h (load_int ty a (Z.of_nat i)) (Ok x).
Proof.
  intros [Ha [rest Hb]] Hx. unfold load_int.
  eapply yields_bind; [by apply yields_load|]. simpl.
  rewrite ctype_eqb_refl. by apply yields_cell.
Qed.

Lemma yields_load_float h ty a l i x :
  floats_at h ty a l → l !! i = Some x →
  yields h (load_float ty a (Z.of_nat i)) (Ok x).
Proof.
  intros [Ha [rest Hb]] Hx. unfold load_float.
  eapply yields_bind; [by apply yields_load|]. simpl.
  rewrite ctype_eqb_refl. by apply yields_cell.
Qed.

Lemma yields_load_pointer h a l i x :
  pointers_at h a l → l !! i = Some x →
  yields h (load_pointer a (Z.of_nat i)) (Ok x).
Proof.
  intros [Ha [rest Hb]] Hx. unfold load_pointer.
  eapply yields_bind; [by apply yields_load|]. simpl. by apply yields_cell.
Qed.

Lemma yields_load_package h a p :
  a ≠ 0 → h !! a = Some (BPackage p) → yields h (load_package a) (Ok p).
Proof.
  intros Ha Hb. unfold load_package.
  eapply yields_bind; [by apply yields_load|]. apply yields_ret.
Qed.

(** A loop whose state after [k] rounds is [st k]. *)
Lemma yields_for_each {S} h (l : list Z) (body : Z → S → M S) (st : nat → S) :
  (∀ k i, l !! k = Some i → yields h (body i (st k)) (Ok (st (Datatypes.S k)))) →
  yields h (for_each l body (st 0%nat)) (Ok (st (length l))).
Proof.
  revert st. induction l as [|i l IH]; intros st H; simpl.
  - apply yields_ret.
  - eapply yields_bind; [by apply (H 0%nat)|].
    apply (IH (λ k, st (Datatypes.S k))). intros k j Hk. by apply (H (Datatypes.S k)).
Qed.

(** A loop that raises in round [k]. *)
Lemma yields_for_each_raise {S} h (l : list Z) (body : Z → S → M S)
    (st : nat → S) k i e :
  l !! k = Some i →
  (∀ j i', (j < k)%nat → l !! j = Some i' →
     yields h (body i' (st j)) (Ok (st (Datatypes.S j)))) →
  yields h (body i (st k)) (Raise e) →
  yields h (for_each l body (st 0%nat)) (Raise e).
Proof.
  revert st k. induction l as [|i0 l IH]; intros st k Hk Hj He; [done|].
  simpl. destruct k as [|k].
  - simpl in Hk. injection Hk as ->. by apply yields_bind_raise.
  - eapply yields_bind; [apply (Hj 0%nat); [lia|done]|].
    apply (IH (λ k, st (Datatypes.S k)) k); [done| |done].
    intros j i' Hlt Hl. apply (Hj (Datatypes.S j)); [lia|done].
Qed.

(** ** The tagged package decoder on a stored package *)

Lemma package_stored_list codes h subs a :
  package_stored codes h (PList subs) a ↔
  a ≠ 0 ∧ ∃ d ptrs,
    h !! a = Some (BPackage
               (Package (len subs) (PYCLUSTERING_TYPE_LIST codes) d)) ∧
    (subs ≠ [] → pointers_at h d ptrs) ∧
    Forall2 (package_stored codes h) subs ptrs.
Proof.
  assert (Hall : ∀ subs ptrs,
    (fix all (subs : list package) (ptrs : list Z) : Prop :=
       match subs, ptrs with
       | [], [] => True
       | sub :: subs, q :: ptrs => package_stored codes h sub q ∧ all subs ptrs
       | _, _ => False
       end) subs ptrs ↔ Forall2 (package_stored codes h) subs ptrs).
  { clear. induction subs as [|sub subs IH]; intros [|q ptrs]; split;
      try done; try by inversion 1.
    - intros [H1 H2]. constructor; [done|by apply IH].
    - inversion 1; subst. split; [done|by apply IH]. }
  simpl. split.
  - intros (Ha & d & ptrs & H1 & H2 & H3). split; [done|].
    exists d, ptrs. by rewrite <- Hall.
  - intros (Ha & d & ptrs & H1 & H2 & H3). split; [done|].
    exists d, ptrs. by rewrite Hall.
Qed.

Lemma yields_loop {S} h (l : list Z) (body : Z → S → M S) (st : nat → S) s0 sN :
  st 0%nat = s0 → st (length l) = sN →
  (∀ k i, l !! k = Some i → yields h (body i (st k)) (Ok (st (Datatypes.S k)))) →
  yields h (for_each l body s0) (Ok sN).
Proof. intros <- <-. apply yields_for_each. Qed.

Lemma len_nat {A} (l : list A) : Z.to_nat (len l) = length l.
Proof. unfold len. lia. Qed.

Lemma yields_scalars h ty a (vs : list pyvalue) :
  (∀ i v, vs !! i = Some v → yields h (load_scalar ty a (Z.of_nat i)) (Ok v)) →
  yields h (for_each (range0 (len vs)) (λ index result,
              v ←' load_scalar ty a index ;; ret (result ++ [v])) [])
           (Ok vs).
Proof.
  intros Hv. apply (yields_loop _ _ _ (λ k, take k vs)); [done| |].
  - rewrite length_range0, len_nat. by rewrite take_ge.
  - intros k i [-> Hk]%lookup_range0.
    destruct (lookup_lt_is_Some_2 vs k) as [v Hkv]; [unfold len in Hk; lia|].
    eapply yields_bind; [by apply Hv|].
    rewrite (take_S_r _ _ _ Hkv). apply yields_ret.
Qed.

Lemma yields_load_scalar_int h ty a l i x :
  is_int_type ty = true → ints_at h ty a l → l !! i = Some x →
  yields h (load_scalar ty a (Z.of_nat i)) (Ok (PyInt x)).
Proof.
  intros Hty Ha Hx. unfold load_scalar.
  destruct ty; try done;
    (eapply yields_bind; [by eapply yields_load_int|apply yields_ret]).
Qed.

Lemma yields_load_scalar_float h ty a l i x :
  is_int_type ty = false → floats_at h ty a l → l !! i = Some x →
  yields h (load_scalar ty a (Z.of_nat i)) (Ok (PyFloat x)).
Proof.
  intros Hty Ha Hx. unfold load_scalar.
  destruct ty; try done;
    (eapply yields_bind; [by eapply yields_load_float|apply yields_ret]).
Qed.

Lemma handle_eq_zero_cast hd : cast hd ≠ 0 → handle_eq_zero hd = false.
Proof. destruct hd; simpl; [|done]. intros. by apply bool_decide_eq_false. Qed.

Lemma package_depth_sub subs sub (i : nat) :
  subs !! i = Some sub → (package_depth sub ≤ max_list (package_depth <$> subs))%nat.
Proof.
  intros H. apply max_list_elem_of_le. apply list_elem_of_fmap. exists sub. split; [done|].
  by eapply list_elem_of_lookup_2.
Qed.

Lemma codes_pairwise codes :
  NoDup (recognized_codes codes) →
  PYCLUSTERING_TYPE_INT codes ≠ PYCLUSTERING_TYPE_UNSIGNED_INT codes ∧
  PYCLUSTERING_TYPE_INT codes ≠ PYCLUSTERING_TYPE_FLOAT codes ∧
  PYCLUSTERING_TYPE_INT codes ≠ PYCLUSTERING_TYPE_DOUBLE codes ∧
  PYCLUSTERING_TYPE_INT codes ≠ PYCLUSTERING_TYPE_LONG codes ∧
  PYCLUSTERING_TYPE_INT codes ≠ PYCLUSTERING_TYPE_UNSIGNED_LONG codes ∧
  PYCLUSTERING_TYPE_INT codes ≠ PYCLUSTERING_TYPE_LIST codes ∧
  PYCLUSTERING_TYPE_UNSIGNED_INT codes ≠ PYCLUSTERING_TYPE_FLOAT codes ∧
  PYCLUSTERING_TYPE_UNSIGNED_INT codes ≠ PYCLUSTERING_TYPE_DOUBLE codes ∧
  PYCLUSTERING_TYPE_UNSIGNED_INT codes ≠ PYCLUSTERING_TYPE_LONG codes ∧
  PYCLUSTERING_TYPE_UNSIGNED_INT codes ≠ PYCLUSTERING_TYPE_UNSIGNED_LONG codes ∧
  PYCLUSTERING_TYPE_UNSIGNED_INT codes ≠ PYCLUSTERING_TYPE_LIST codes ∧
  PYCLUSTERING_TYPE_FLOAT codes ≠ PYCLUSTERING_TYPE_DOUBLE codes ∧
  PYCLUSTERING_TYPE_FLOAT codes ≠ PYCLUSTERING_TYPE_LONG codes ∧
  PYCLUSTERING_TYPE_FLOAT codes ≠ PYCLUSTERING_TYPE_UNSIGNED_LONG codes ∧
  PYCLUSTERING_TYPE_FLOAT codes ≠ PYCLUSTERING_TYPE_LIST codes ∧
  PYCLUSTERING_TYPE_DOUBLE codes ≠ PYCLUSTERING_TYPE_LONG codes ∧
  PYCLUSTERING_TYPE_DOUBLE codes ≠ PYCLUSTERING_TYPE_UNSIGNED_LONG codes ∧
  PYCLUSTERING_TYPE_DOUBLE codes ≠ PYCLUSTERING_TYPE_LIST codes ∧
  PYCLUSTERING_TYPE_LONG codes ≠ PYCLUSTERING_TYPE_UNSIGNED_LONG codes ∧
  PYCLUSTERING_TYPE_LONG codes ≠ PYCLUSTERING_TYPE_LIST codes ∧
  PYCLUSTERING_TYPE_UNSIGNED_LONG codes ≠ PYCLUSTERING_TYPE_LIST codes.
Proof.
  unfold recognized_codes. rewrite !NoDup_cons, !not_elem_of_cons.
  intuition.
Qed.

Ltac distinct Hnd :=
  let H := fresh "Hd" in
  pose proof (codes_pairwise _ Hnd) as H;
  destruct H as (?&?&?&?&?&?&?&?&?&?&?&?&?&?&?&?&?&?&?&?&?);
  repeat case_decide; try congruence.

Lemma code_of_not_list codes ty :
  NoDup (recognized_codes codes) →
  code_of codes ty ≠ PYCLUSTERING_TYPE_LIST codes.
Proof. intros Hnd. destruct ty; simpl; distinct Hnd. Qed.

Lemma len_fmap {A B} (f : A → B) (l : list A) : len (f <$> l) = len l.
Proof. unfold len. by rewrite length_fmap. Qed.

(** The loop of the list branch: the sub-packages are decoded in the
    order of the array of pointers. *)
Lemma yields_subpackages codes h depth d ptrs (subs : list package)
    (vs : list (list pyvalue)) :
  (subs ≠ [] → pointers_at h d ptrs) →
  (∀ k q v, ptrs !! k = Some q → vs !! k = Some v →
     yields h (extract_pyclustering_package codes depth (HPointer q)) (Ok v)) →
  length vs = length subs →
  length ptrs = length subs →
  yields h
    (for_each (range0 (len subs)) (λ index result,
       sub ←' load_pointer d index ;;
       l ←' extract_pyclustering_package codes depth (HPointer sub) ;;
       ret (result ++ [PyList l])) [])
    (Ok (PyList <$> vs)).
Proof.
  intros Hd Hsub Hvs Hptrs.
  apply (yields_loop _ _ _ (λ k, PyList <$> take k vs)); [done| |].
  - rewrite length_range0, len_nat. rewrite take_ge; [done|lia].
  - intros k i [-> Hk]%lookup_range0. unfold len in Hk.
    destruct (lookup_lt_is_Some_2 vs k) as [v Hv]; [lia|].
    destruct (lookup_lt_is_Some_2 ptrs k) as [q Hq]; [lia|].
    eapply yields_bind.
    { eapply yields_load_pointer; [|done]. apply Hd. intros ->. simpl in *. lia. }
    eapply yields_bind; [by eapply Hsub|].
    rewrite (take_S_r _ _ _ Hv), fmap_app. apply yields_ret.
Qed.

Lemma extract_stored codes h :
  NoDup (recognized_codes codes) →
  ∀ depth p hd,
    (package_depth p ≤ depth)%nat →
    package_stored codes h p (cast hd) →
    yields h (extract_pyclustering_package codes depth hd) (Ok (decoded_package p)).
Proof.
  intros Hnd. induction depth as [|depth IH]; intros p hd Hdepth Hst.
  { destruct p; simpl in Hdepth; lia. }
  assert (Hnz : cast hd ≠ 0) by (destruct p; apply Hst).
  simpl. rewrite (handle_eq_zero_cast _ Hnz).
  destruct p as [ty l|ty l|subs].
  - destruct Hst as (_ & Hty & d & Hh & Hd).
    eapply yields_bind; [by apply yields_load_package|].
    eapply yields_bind; [by apply yields_load_package|].
    cbn [pkg_size pkg_type pkg_data].
    eapply yields_bind.
    { instantiate (1 := ([], ScalarPointer ty d)).
      destruct ty; try done; simpl; distinct Hnd;
        (eapply yields_bind; [by apply yields_load_package|apply yields_ret]). }
    cbv beta iota. rewrite decide_True by (by apply code_of_not_list).
    rewrite <- (len_fmap PyInt). apply yields_scalars.
    intros i v (x & -> & Hx)%list_lookup_fmap_Some.
    eapply yields_load_scalar_int; [done| |done].
    apply Hd. by intros ->.
  - destruct Hst as (_ & Hty & d & Hh & Hd).
    eapply yields_bind; [by apply yields_load_package|].
    eapply yields_bind; [by apply yields_load_package|].
    cbn [pkg_size pkg_type pkg_data].
    eapply yields_bind.
    { instantiate (1 := ([], ScalarPointer ty d)).
      destruct ty; try done; simpl; distinct Hnd;
        (eapply yields_bind; [by apply yields_load_package|apply yields_ret]). }
    cbv beta iota. rewrite decide_True by (by apply code_of_not_list).
    rewrite <- (len_fmap PyFloat). apply yields_scalars.
    intros i v (x & -> & Hx)%list_lookup_fmap_Some.
    eapply yields_load_scalar_float; [done| |done].
    apply Hd. by intros ->.
  - apply package_stored_list in Hst as (_ & d & ptrs & Hh & Hd & Hsubs).
    eapply yields_bind; [by apply yields_load_package|].
    eapply yields_bind; [by apply yields_load_package|].
    cbn [pkg_size pkg_type pkg_data].
    eapply yields_bind.
    { instantiate (1 := (decoded_package (PList subs), PackagePointers d)).
      assert (Hloop : yields h
        (for_each (range0 (len subs)) (λ index result,
           sub ←' load_pointer d index ;;
           l ←' extract_pyclustering_package codes depth (HPointer sub) ;;
           ret (result ++ [PyList l])) [])
        (Ok (decoded_package (PList subs)))).
      { simpl. rewrite (list_fmap_compose decoded_package PyList).
        apply (yields_subpackages codes h depth d ptrs); [done| | |].
        - intros k q v Hq (sub & -> & Hsub)%list_lookup_fmap_Some.
          destruct (Forall2_lookup_l _ _ _ _ _ Hsubs Hsub) as (q' & Hq' & Hstq).
          assert (q' = q) as -> by congruence.
          apply (IH sub (HPointer q)); [|done].
          apply package_depth_sub in Hsub. simpl in Hdepth. lia.
        - by rewrite length_fmap.
        - symmetry. by eapply Forall2_length. }
      distinct Hnd.
      eapply yields_bind; [by apply yields_load_package|].
      cbn [pkg_data].
      eapply yields_bind; [exact Hloop|apply yields_ret]. }
    cbv beta iota. rewrite decide_False by (intros ?; done).
    apply yields_ret.
Qed.

(** C1. Decoding a package that is laid out in memory as the library
    builds it is recursive and keeps the foreign order: a package tagged
    as a list decodes to the list of what its sub-packages decode to, in
    the order of its array of pointers, and a package with a scalar tag
    decodes to the flat list of its [size] values, in the order of its
    array ([decoded_package] is that value); the interpreter only has to
    allow as many nested calls as the package is deep. In particular the
    list package of the scalar run [1,2,3] and of the list package
    [[4],[5,6]] decodes to [[1,2,3], [[4],[5,6]]]. *)
Theorem extract_pyclustering_package_stored codes h p depth hd :
  NoDup (recognized_codes codes) →
  package_stored codes h p (cast hd) →
  (package_depth p ≤ depth)%nat →
  yields h (extract_pyclustering_package codes depth hd)
    (Ok (decoded_package p)) ∧
  (extract_pyclustering_package example_codes 3 (HInt 100)
     (World nested_heap [])).1
  = Ok [ PyList [PyInt 1; PyInt 2; PyInt 3];
         PyList [PyList [PyInt 4]; PyList [PyInt 5; PyInt 6]] ].
Proof.
  intros Hnd Hst Hdepth. split; [by apply extract_stored|].
  vm_compute. reflexivity.
Qed.

Lemma example_codes_distinct : NoDup (recognized_codes example_codes).
Proof. refine (bool_decide_unpack _ _). vm_compute. exact I. Defined.

Lemma nested_package_stored :
  package_stored example_codes nested_heap nested_package 100.
Proof.
  apply package_stored_list. split; [done|].
  exists 101, [110; 120]. split; [done|].
  split; [intros _; split; [done|]; by exists []|].
  constructor; [|constructor; [|constructor]].
  - simpl. split; [done|]. split; [done|]. exists 111. split; [done|].
    intros _. split; [done|]. by exists [].
  - apply package_stored_list. split; [done|].
    exists 121, [130; 140]. split; [done|].
    split; [intros _; split; [done|]; by exists []|].
    constructor; [|constructor; [|constructor]].
    + simpl. split; [done|]. split; [done|]. exists 131. split; [done|].
      intros _. split; [done|]. by exists [].
    + simpl. split; [done|]. split; [done|]. exists 141. split; [done|].
      intros _. split; [done|]. by exists [].
Defined.

Lemma extract_pyclustering_package_stored_witness :
  yields nested_heap
    (extract_pyclustering_package example_codes 3 (HInt 100))
    (Ok [ PyList [PyInt 1; PyInt 2; PyInt 3];
          PyList [PyList [PyInt 4]; PyList [PyInt 5; PyInt 6]] ]).
Proof.
  apply (extract_pyclustering_package_stored example_codes nested_heap
           nested_package 3 (HInt 100)).
  - exact example_codes_distinct.
  - exact nested_package_stored.
  - vm_compute. lia.
Defined.

(** C6, and where the code falls short of it. The null check of the
    decoder compares its argument with the integer 0. It holds for the
    null handle as a library call returns it, the integer 0, which
    decodes to the empty list with no read, whatever memory holds and
    whatever the recursion limit. It does not hold for a null handle
    that is a pointer, the form in which the decoder hands itself every
    sub-package of a list package: the header is then read through the
    NULL pointer, which raises ValueError. So the list package at
    address 100 whose second sub-package pointer is NULL does not
    decode: the decoder raises ValueError on it. *)
Theorem extract_pyclustering_package_null_pointer codes depth w :
  extract_pyclustering_package codes depth (HInt 0) w = (Ok [], w) ∧
  extract_pyclustering_package codes (S depth) (HPointer 0) w
  = (Raise ValueError, w) ∧
  (extract_pyclustering_package example_codes 2 (HInt 100)
     (World null_sub_package_heap [])).1
  = Raise ValueError.
Proof.
  split; [by destruct depth|]. split; [reflexivity|].
  vm_compute. reflexivity.
Qed.

(** ** The cluster decoder on a stored result *)

Lemma yields_load_clustering_result h a r :
  a ≠ 0 → h !! a = Some (BClusteringResult r) →
  yields h (load_clustering_result a) (Ok r).
Proof.
  intros Ha Hb. unfold load_clustering_result.
  eapply yields_bind; [by apply yields_load|]. apply yields_ret.
Qed.

Lemma yields_load_cluster h a l rest i c :
  a ≠ 0 → h !! a = Some (BClusters (l ++ rest)) → l !! i = Some c →
  yields h (load_cluster a (Z.of_nat i)) (Ok c).
Proof.
  intros Ha Hb Hc. unfold load_cluster.
  eapply yields_bind; [by apply yields_load|]. simpl. by apply yields_cell.
Qed.

Lemma yields_load_dynamic_result h a r :
  a ≠ 0 → h !! a = Some (BDynamicResult r) →
  yields h (load_dynamic_result a) (Ok r).
Proof.
  intros Ha Hb. unfold load_dynamic_result.
  eapply yields_bind; [by apply yields_load|]. apply yields_ret.
Qed.

Lemma alter_snoc {A} (f : A → A) (l : list A) x k :
  length l = k → alter f k (l ++ [x]) = l ++ [f x].
Proof.
  intros <-. replace (length l) with (length l + 0)%nat by lia.
  by rewrite alter_app_r.
Qed.

Lemma lookup_snoc_length {A} (l : list A) x k :
  length l = k → (l ++ [x]) !! k = Some x.
Proof. intros <-. by rewrite lookup_app_r, Nat.sub_diag. Qed.

Lemma len_max_nat {A} (l : list A) n : len l = Z.max 0 n → Z.to_nat n = length l.
Proof. unfold len. lia. Qed.

(** Appending, one by one, the cells of [row] to the last entry of a
    list of rows. *)
Lemma yields_fill_last {A} h (rows : list (list A)) (row : list A) n
    (body : Z → list (list A) → M (list (list A))) :
  Z.to_nat n = length row →
  (∀ j x, row !! j = Some x →
     yields h (body (Z.of_nat j) (rows ++ [take j row]))
       (Ok (rows ++ [take j row ++ [x]]))) →
  yields h (for_each (range0 n) body (rows ++ [[]])) (Ok (rows ++ [row])).
Proof.
  intros Hn Hbody.
  apply (yields_loop _ _ _ (λ j, rows ++ [take j row])); [done| |].
  - rewrite length_range0, Hn. by rewrite take_ge.
  - intros j i [-> Hj]%lookup_range0.
    destruct (lookup_lt_is_Some_2 row j) as [x Hx]; [lia|].
    rewrite (take_S_r _ _ _ Hx). by apply Hbody.
Qed.

Lemma extract_clusters_stored h a g groups :
  clusters_stored h a g groups → yields h (extract_clusters a) (Ok groups).
Proof.
  intros (Ha & pc & cs & Hh & Hlen & Hgs & Hpc). unfold extract_clusters.
  eapply yields_bind; [by apply yields_load_clustering_result|].
  cbn [cr_number_clusters cr_pointer_clusters].
  apply (yields_loop _ _ _ (λ k, take k groups)); [done| |].
  { rewrite length_range0, (len_max_nat _ _ Hlen). by rewrite take_ge. }
  intros k i [-> Hk]%lookup_range0.
  destruct (lookup_lt_is_Some_2 groups k) as [group Hgroup];
    [unfold len in Hlen; lia|].
  destruct (Forall2_lookup_r _ _ _ _ _ Hgs Hgroup) as (c & Hc & Hlenc & Hobjs).
  destruct Hpc as (Hpc & rest & Hcs); [by intros ->|].
  assert (Hk' : length (take k groups) = k).
  { rewrite length_take. apply lookup_lt_Some in Hgroup. lia. }
  eapply yields_bind; [by apply yields_load_clustering_result|].
  cbn [cr_number_clusters cr_pointer_clusters].
  eapply yields_bind; [by eapply yields_load_cluster|].
  eapply yields_bind.
  { apply yields_getitem. by apply lookup_snoc_length. }
  eapply yields_bind; [by eapply yields_load_cluster|].
  rewrite (take_S_r _ _ _ Hgroup).
  apply yields_fill_last; [by apply len_max_nat|].
  intros j x Hx. eapply yields_bind.
  { eapply yields_load_int; [|done]. apply Hobjs. by intros ->. }
  rewrite Nat2Z.id, (alter_snoc _ _ _ _ Hk'). apply yields_ret.
Qed.

Lemma extract_dynamics_stored h a n m times dynamic :
  dynamics_stored h a n m times dynamic →
  yields h (extract_dynamics a) (Ok (times, dynamic)).
Proof.
  intros (Ha & pt & pd & ptrs & Hh & Hlen & Hrows & Hptrs & Harr).
  unfold extract_dynamics.
  do 4 (eapply yields_bind; [by apply yields_load_dynamic_result|]).
  cbn [dy_size_dynamic dy_size_network dy_times dy_dynamic].
  assert (Hdyn : length dynamic = length times).
  { rewrite <- Hptrs. symmetry. by eapply Forall2_length. }
  apply (yields_loop _ _ _ (λ k, (take k times, take k dynamic))); [done| |].
  { rewrite length_range0, (len_max_nat _ _ Hlen).
    rewrite take_ge by done. by rewrite take_ge by lia. }
  intros k i [-> Hk]%lookup_range0. cbv beta iota.
  destruct (lookup_lt_is_Some_2 times k) as [t Ht]; [unfold len in Hlen; lia|].
  destruct (lookup_lt_is_Some_2 dynamic k) as [row Hrow];
    [apply lookup_lt_Some in Ht; lia|].
  destruct (Forall2_lookup_r _ _ _ _ _ Hrows Hrow) as (p & Hp & Hlenr & Hvals).
  destruct Harr as [Htimes Hpd]; [by intros ->|].
  assert (Hk' : length (take k dynamic) = k).
  { rewrite length_take. apply lookup_lt_Some in Hrow. lia. }
  eapply yields_bind; [by eapply yields_load_float|].
  eapply yields_bind; [by eapply yields_load_pointer|].
  eapply yields_bind.
  { apply (yields_fill_last _ _ row); [by apply len_max_nat|].
    intros j x Hx. eapply yields_bind.
    { apply yields_getitem. by apply lookup_snoc_length. }
    eapply yields_bind.
    { eapply yields_load_float; [|done]. apply Hvals. by intros ->. }
    rewrite Nat2Z.id, (alter_snoc _ _ _ _ Hk'). apply yields_ret. }
  rewrite (take_S_r _ _ _ Ht), (take_S_r _ _ _ Hrow). apply yields_ret.
Qed.

(** C8. For every clustering result laid out in memory that declares
    [g] groups, [extract_clusters] returns exactly [g] groups, in the
    order of the library's array of clusters, and group [i] is the first
    [number_objects] indices of cluster [i], in the order of its array:
    nothing is reordered and no index is checked against anything. *)
Theorem extract_clusters_groups h a g pc cs rest groups :
  a ≠ 0 →
  h !! a = Some (BClusteringResult (ClusteringResult g pc)) →
  (0 < g → pc ≠ 0 ∧ h !! pc = Some (BClusters (cs ++ rest))) →
  len cs = Z.max 0 g →
  Forall2 (group_stored h) cs groups →
  yields h (extract_clusters a) (Ok groups) ∧
  len groups = Z.max 0 g ∧
  Forall2 (λ c group, len group = Z.max 0 (cl_number_objects c)) cs groups.
Proof.
  intros Ha Hh Hpc Hcs Hgs.
  assert (Hlen : len groups = Z.max 0 g).
  { rewrite <- Hcs. unfold len. by rewrite (Forall2_length _ _ _ Hgs). }
  split; [|split; [done|]].
  - apply (extract_clusters_stored h a g). split; [done|].
    exists pc, cs. repeat split; try done.
    + apply Hpc. destruct groups; [done|]. unfold len in Hlen. simpl in Hlen. lia.
    + exists rest. apply Hpc.
      destruct groups; [done|]. unfold len in Hlen. simpl in Hlen. lia.
  - eapply Forall2_impl; [done|]. by intros c group [? _].
Qed.

Lemma extract_clusters_groups_witness :
  yields two_groups_heap (extract_clusters 200) (Ok [[0; 2; 4]; [1; 3]]) ∧
  len [[0; 2; 4]; [1; 3]] = Z.max 0 2 ∧
  Forall2 (λ c group, len group = Z.max 0 (cl_number_objects c))
    [ClusterRepresentation 3 210; ClusterRepresentation 2 220]
    [[0; 2; 4]; [1; 3]].
Proof.
  apply (extract_clusters_groups two_groups_heap 200 2 201
           [ClusterRepresentation 3 210; ClusterRepresentation 2 220] []).
  - lia.
  - reflexivity.
  - intros _. split; [lia|reflexivity].
  - reflexivity.
  - repeat constructor; try done; by exists [].
Defined.

(** C5, as the code has it. For every dynamic result laid out in memory
    that declares [n] steps of a network of [m] nodes, [extract_dynamics]
    returns the pair (times, dynamic) of the first [n] timestamps and,
    for each of the first [n] rows, its first [m] values, in the foreign
    order: the two lists have length [n] and every inner list has length
    [m]. Nothing is validated: a result that declares no step decodes to
    the pair of two empty lists, and one that declares no node to [n]
    empty rows. *)
Theorem extract_dynamics_parallel h a n m pt pd ptrs times dynamic :
  a ≠ 0 →
  h !! a = Some (BDynamicResult (DynamicResult n m pt pd)) →
  len times = Z.max 0 n →
  length ptrs = length times →
  (0 < n → floats_at h c_double pt times ∧ pointers_at h pd ptrs) →
  Forall2 (λ p row, len row = Z.max 0 m ∧
                    (0 < m → floats_at h c_double p row)) ptrs dynamic →
  yields h (extract_dynamics a) (Ok (times, dynamic)) ∧
  len times = Z.max 0 n ∧ len dynamic = Z.max 0 n ∧
  Forall (λ row, len row = Z.max 0 m) dynamic ∧
  (n ≤ 0 → times = [] ∧ dynamic = []) ∧
  (m ≤ 0 → Forall (λ row, row = []) dynamic).
Proof.
  intros Ha Hh Hlen Hptrs Harr Hrows.
  assert (Hdyn : length dynamic = length times).
  { rewrite <- Hptrs. symmetry. by eapply Forall2_length. }
  assert (Hm : Forall (λ row, len row = Z.max 0 m) dynamic).
  { apply (Forall2_Forall_r _ _ _ _ Hrows). apply Forall_true. tauto. }
  split; [|repeat split].
  - apply (extract_dynamics_stored h a n m). split; [done|].
    exists pt, pd, ptrs. repeat split; try done.
    + eapply Forall2_impl; [done|]. intros p row [Hl Hf]. split; [done|].
      intros Hne. apply Hf. destruct row; [done|]. unfold len in Hl.
      simpl in Hl. lia.
    + apply Harr. destruct times; [done|]. unfold len in Hlen. simpl in Hlen. lia.
    + apply Harr. destruct times; [done|]. unfold len in Hlen. simpl in Hlen. lia.
    + apply Harr. destruct times; [done|]. unfold len in Hlen. simpl in Hlen. lia.
    + apply Harr. destruct times; [done|]. unfold len in Hlen. simpl in Hlen. lia.
  - done.
  - unfold len in *. lia.
  - done.
  - destruct times; [done|]. unfold len in Hlen. simpl in Hlen. lia.
  - destruct dynamic; [done|]. destruct times; [done|].
    unfold len in Hlen. simpl in Hlen. lia.
  - intros Hle. eapply Forall_impl; [done|]. intros [|x row]; [done|].
    unfold len. simpl. lia.
Qed.

Lemma extract_dynamics_parallel_witness :
  yields three_steps_heap (extract_dynamics 300)
    (Ok ([0.0; 0.1; 0.2]%float,
         [[0.5; 0.5]; [0.6; 0.4]; [0.7; 0.3]]%float)).
Proof.
  apply (extract_dynamics_parallel three_steps_heap 300 3 2 301 302
           [310; 320; 330]).
  - lia.
  - reflexivity.
  - reflexivity.
  - reflexivity.
  - intros _. split; (split; [lia|by exists []]).
  - repeat (constructor;
      [split; [reflexivity|intros _; split; [lia|by exists []]]|]).
    constructor.
Defined.

(** C5 as stated fails: a result that declares no step is decoded to a
    value, the pair of two empty lists; no error is raised. *)
Lemma extract_dynamics_zero_steps :
  (extract_dynamics 300 (World zero_steps_heap [])).1 = Ok ([], []) ∧
  raised (extract_dynamics 300 (World zero_steps_heap [])).1 = false.
Proof. split; vm_compute; reflexivity. Qed.

(** ** Where the AssertionError comes from *)

Lemma yields_loop_raise {S} h (l : list Z) (body : Z → S → M S)
    (st : nat → S) s0 k i e :
  st 0%nat = s0 →
  l !! k = Some i →
  (∀ j i', (j < k)%nat → l !! j = Some i' →
     yields h (body i' (st j)) (Ok (st (Datatypes.S j)))) →
  yields h (body i (st k)) (Raise e) →
  yields h (for_each l body s0) (Raise e).
Proof. intros <-. apply yields_for_each_raise. Qed.

(** The decoding of a list package raises what the decoding of one of
    its sub-packages raises, when the sub-packages before it decode. *)
Lemma extract_list_raises codes h depth hd size d ptrs
    (vs : list (list pyvalue)) k q e :
  NoDup (recognized_codes codes) →
  cast hd ≠ 0 →
  h !! cast hd
  = Some (BPackage (Package size (PYCLUSTERING_TYPE_LIST codes) d)) →
  pointers_at h d ptrs →
  ptrs !! k = Some q → Z.of_nat k < size → length vs = k →
  (∀ j q' v, ptrs !! j = Some q' → vs !! j = Some v →
     yields h (extract_pyclustering_package codes depth (HPointer q')) (Ok v)) →
  yields h (extract_pyclustering_package codes depth (HPointer q)) (Raise e) →
  yields h (extract_pyclustering_package codes (S depth) hd) (Raise e).
Proof.
  intros Hnd Hnz Hh Hd Hq Hk Hvs Hbefore Hraise.
  simpl. rewrite (handle_eq_zero_cast _ Hnz).
  eapply yields_bind; [by apply yields_load_package|].
  eapply yields_bind; [by apply yields_load_package|].
  cbn [pkg_size pkg_type pkg_data].
  apply yields_bind_raise.
  assert (Hloop : yields h
    (for_each (range0 size) (λ index result,
       sub ←' load_pointer d index ;;
       l ←' extract_pyclustering_package codes depth (HPointer sub) ;;
       ret (result ++ [PyList l])) [])
    (Raise e)).
  { apply (yields_loop_raise h _ _ (λ j, PyList <$> take j vs) _
             k (Z.of_nat k)); [done| | |].
    - apply lookup_range0. by split.
    - intros j i Hj [-> _]%lookup_range0.
      destruct (lookup_lt_is_Some_2 vs j) as [v Hv]; [lia|].
      destruct (lookup_lt_is_Some_2 ptrs j) as [q' Hq'].
      { apply lookup_lt_Some in Hq. lia. }
      eapply yields_bind; [by eapply yields_load_pointer|].
      eapply yields_bind; [by eapply Hbefore|].
      rewrite (take_S_r _ _ _ Hv), fmap_app. apply yields_ret.
    - eapply yields_bind; [by eapply yields_load_pointer|].
      by apply yields_bind_raise. }
  distinct Hnd.
  eapply yields_bind; [by apply yields_load_package|].
  cbn [pkg_data]. by apply yields_bind_raise.
Qed.

Lemma never_raises_ret {A} e (a : A) : never_raises e (ret a).
Proof. by intros w. Qed.

Lemma never_raises_raise {A} e e' : e' ≠ e → never_raises e (@raise A e').
Proof. intros Hne w. simpl. congruence. Qed.

Lemma never_raises_bind {A B} e (m : M A) (f : A → M B) :
  never_raises e m → (∀ a, never_raises e (f a)) → never_raises e (bind m f).
Proof.
  intros Hm Hf w. unfold bind. generalize (Hm w).
  destruct (m w) as [[a|e'] w']; simpl; [intros _; apply (Hf a w')|].
  intros Hne E. apply Hne. congruence.
Qed.

Lemma never_raises_for_each {S} e l (body : Z → S → M S) s :
  (∀ i s, never_raises e (body i s)) → never_raises e (for_each l body s).
Proof.
  intros Hb. revert s. induction l as [|i l IH]; intros s; simpl.
  - apply never_raises_ret.
  - apply never_raises_bind; [apply Hb|apply IH].
Qed.

Lemma never_raises_load a : never_raises AssertionError (load a).
Proof.
  intros w. unfold load. case_decide; [done|]. by destruct (heap w !! a).
Qed.

Lemma never_raises_cell {A} (l : list A) i : never_raises AssertionError (cell l i).
Proof.
  unfold cell. case_decide; [|by apply never_raises_raise].
  destruct (l !! _); [apply never_raises_ret|by apply never_raises_raise].
Qed.

Ltac never_raises_solve :=
  repeat first
    [ apply never_raises_ret
    | apply never_raises_raise; discriminate
    | apply never_raises_load
    | apply never_raises_cell
    | apply never_raises_bind; [|intros ?]
    | apply never_raises_for_each; intros ? ?; cbv beta
    | match goal with
      | |- never_raises _ (match ?x with _ => _ end) => destruct x
      end ].

Lemma never_raises_load_package a : never_raises AssertionError (load_package a).
Proof. unfold load_package. never_raises_solve. Qed.

Lemma never_raises_load_pointer a i :
  never_raises AssertionError (load_pointer a i).
Proof. unfold load_pointer. never_raises_solve. Qed.

Lemma never_raises_load_scalar ty a i :
  never_raises AssertionError (load_scalar ty a i).
Proof. unfold load_scalar, load_int, load_float. never_raises_solve. Qed.

Lemma bind_raise_inv {A B} (m : M A) (f : A → M B) w e w' :
  bind m f w = (Raise e, w') →
  m w = (Raise e, w') ∨ ∃ a w1, m w = (Ok a, w1) ∧ f a w1 = (Raise e, w').
Proof.
  unfold bind. destruct (m w) as [[a|e'] w1]; intros H.
  - right. by exists a, w1.
  - left. by injection H as -> ->.
Qed.

Lemma never_raises_run {A} e (m : M A) w w' :
  never_raises e m → m w ≠ (Raise e, w').
Proof. intros Hm E. apply (Hm w). by rewrite E. Qed.

(** A loop of reads that raises: one of its rounds raises, in a world
    reached by reads. *)
Lemma for_each_raise_inv {S} l (body : Z → S → M S) s w e w' :
  (∀ i s, read_only (body i s)) →
  for_each l body s w = (Raise e, w') →
  ∃ i s1 w1, loads_only w w1 ∧ body i s1 w1 = (Raise e, w').
Proof.
  intros Hb. revert s w. induction l as [|i l IH]; intros s w H; [done|].
  simpl in H. apply bind_raise_inv in H as [H|(s1 & w1 & H1 & H)].
  - exists i, s, w. split; [apply loads_only_refl|done].
  - destruct (IH _ _ H) as (i' & s' & w2 & Hl & Hbody).
    exists i', s', w2. split; [|done].
    eapply loads_only_trans; [|done].
    pose proof (Hb i s w) as Hr. by rewrite H1 in Hr.
Qed.

Lemma load_package_ok a w p w' :
  load_package a w = (Ok p, w') →
  heap w !! a = Some (BPackage p) ∧ w' = log (EvLoad a) w.
Proof.
  unfold load_package, bind, load. case_decide; [done|].
  destruct (heap w !! a) as [[]|]; try done. simpl. by intros [= -> ->].
Qed.

(** The decoder raises AssertionError only when it has read the header
    of a package whose tag is none of the codes. *)
Lemma assertion_error_origin codes depth hd w w' :
  extract_pyclustering_package codes depth hd w = (Raise AssertionError, w') →
  ∃ a p,
    heap w !! a = Some (BPackage p) ∧
    (pkg_type p ∉ recognized_codes codes) ∧
    (EvLoad a ∈ trace w').
Proof.
  revert hd w w'. induction depth as [|depth IH]; intros hd w w' H.
  { simpl in H. by destruct (handle_eq_zero hd). }
  simpl in H. destruct (handle_eq_zero hd); [done|].
  apply bind_raise_inv in H as [H|(p1 & w1 & H1 & H)];
    [exfalso; revert H; apply never_raises_run, never_raises_load_package|].
  apply load_package_ok in H1 as [Hp1 ->].
  apply bind_raise_inv in H as [H|(p2 & w2 & H2 & H)];
    [exfalso; revert H; apply never_raises_run, never_raises_load_package|].
  apply load_package_ok in H2 as [Hp2 ->]. cbn [heap log] in Hp2.
  assert (p2 = p1) as -> by congruence.
  apply bind_raise_inv in H as [H|(rp & w3 & H3 & H)]; last first.
  { exfalso. revert H. apply never_raises_run. destruct rp as [result pd].
    match goal with
    | |- context [decide ?P] => destruct (decide P)
    end; [|apply never_raises_ret].
    apply never_raises_for_each. intros i s.
    destruct pd; never_raises_solve. apply never_raises_load_scalar. }
  repeat case_decide;
    try (exfalso; revert H; apply never_raises_run;
         apply never_raises_bind; [apply never_raises_load_package|];
         intros ?; apply never_raises_ret).
  - (* the list branch *)
    apply bind_raise_inv in H as [H|(p3 & wa & Hl3 & H)];
      [exfalso; revert H; apply never_raises_run, never_raises_load_package|].
    apply load_package_ok in Hl3 as [Hp3 ->].
    apply bind_raise_inv in H as [H|(r & wb & _ & H)]; [|done].
    apply for_each_raise_inv in H as (i & s1 & w4 & Hl & H).
    2:{ intros i s. apply read_only_bind; [apply read_only_load_pointer|].
        intros sub. apply read_only_bind;
          [apply read_only_extract_pyclustering_package|].
        intros l. apply read_only_ret. }
    apply bind_raise_inv in H as [H|(sub & w5 & Hsub & H)];
      [exfalso; revert H; apply never_raises_run, never_raises_load_pointer|].
    apply bind_raise_inv in H as [H|(l & w6 & _ & H)]; [|done].
    destruct (IH _ _ _ H) as (a & p & Ha & Hp & Hev).
    exists a, p. split; [|done].
    rewrite <- Ha. symmetry.
    pose proof (read_only_load_pointer (pkg_data p3) i w4) as [Hh5 _].
    rewrite Hsub in Hh5. cbn [snd] in Hh5. destruct Hl as [Hh4 _].
    rewrite Hh5, Hh4. done.
  - (* no code matches *)
    injection H as <-. exists (cast hd), p1. split; [done|]. split.
    + unfold recognized_codes. rewrite !not_elem_of_cons.
      repeat split; try done. apply not_elem_of_nil.
    + cbn [log trace]. set_solver.
Qed.

(** C4. Decoding a package whose tag is none of the seven codes raises
    the AssertionError of [assert(0)] (the error the specification calls
    UnknownTypeTag), whatever the size and the data of the package: no
    value is returned and no scalar type is assumed for the data. The
    error aborts the decoding of every list package around it. And it is
    the error of this case alone: when the decoder raises AssertionError,
    it has read the header of a package whose tag is none of the codes. *)
Theorem extract_pyclustering_package_unknown_tag codes :
  (∀ h p depth hd,
     cast hd ≠ 0 →
     h !! cast hd = Some (BPackage p) →
     pkg_type p ∉ recognized_codes codes →
     yields h (extract_pyclustering_package codes (S depth) hd)
       (Raise AssertionError)) ∧
  (∀ h depth hd size d ptrs (vs : list (list pyvalue)) k q,
     NoDup (recognized_codes codes) →
     cast hd ≠ 0 →
     h !! cast hd
     = Some (BPackage (Package size (PYCLUSTERING_TYPE_LIST codes) d)) →
     pointers_at h d ptrs →
     ptrs !! k = Some q → Z.of_nat k < size → length vs = k →
     (∀ j q' v, ptrs !! j = Some q' → vs !! j = Some v →
        yields h (extract_pyclustering_package codes depth (HPointer q'))
          (Ok v)) →
     yields h (extract_pyclustering_package codes depth (HPointer q))
       (Raise AssertionError) →
     yields h (extract_pyclustering_package codes (S depth) hd)
       (Raise AssertionError)) ∧
  (∀ depth hd w w',
     extract_pyclustering_package codes depth hd w
     = (Raise AssertionError, w') →
     ∃ a p,
       heap w !! a = Some (BPackage p) ∧
       (pkg_type p ∉ recognized_codes codes) ∧
       (EvLoad a ∈ trace w')).
Proof.
  split; [|split].
  - intros h p depth hd Hnz Hh Htag. simpl.
    rewrite (handle_eq_zero_cast _ Hnz).
    eapply yields_bind; [by apply yields_load_package|].
    eapply yields_bind; [by apply yields_load_package|].
    apply yields_bind_raise.
    unfold recognized_codes in Htag. rewrite !not_elem_of_cons in Htag.
    destruct Htag as (?&?&?&?&?&?&?&_).
    repeat (rewrite decide_False by done). apply yields_raise.
  - intros h depth hd size d ptrs vs k q. apply extract_list_raises.
  - apply assertion_error_origin.
Qed.

Lemma extract_pyclustering_package_unknown_tag_witness :
  yields unknown_tag_heap
    (extract_pyclustering_package example_codes 1 (HInt 100))
    (Raise AssertionError) ∧
  yields nested_unknown_tag_heap
    (extract_pyclustering_package example_codes 2 (HInt 100))
    (Raise AssertionError).
Proof.
  destruct (extract_pyclustering_package_unknown_tag example_codes)
    as (Htag & Hlist & _).
  split.
  - apply (Htag unknown_tag_heap (Package 2 9 101) 0%nat (HInt 100)).
    + simpl. lia.
    + reflexivity.
    + refine (bool_decide_unpack _ _). vm_compute. exact I.
  - apply (Hlist nested_unknown_tag_heap 1%nat (HInt 100) 2 101 [110; 120]
             [[PyInt 1]] 1%nat 120).
    + exact example_codes_distinct.
    + simpl. lia.
    + reflexivity.
    + split; [lia|]. by exists [].
    + reflexivity.
    + lia.
    + reflexivity.
    + intros [|[|j]] q' v Hq Hv; try done.
      injection Hq as <-. injection Hv as <-.
      apply (extract_stored example_codes nested_unknown_tag_heap
               example_codes_distinct 1 (PInts c_int [1]) (HPointer 110));
        [simpl; lia|].
      simpl. split; [lia|]. split; [done|]. exists 111. split; [done|].
      intros _. split; [lia|]. by exists [].
    + apply (Htag nested_unknown_tag_heap (Package 1 9 121) 0%nat
               (HPointer 120)).
      * simpl. lia.
      * reflexivity.
      * refine (bool_decide_unpack _ _). vm_compute. exact I.
Defined.

(** ** The encoder *)

Lemma fresh_address_nonzero h : fresh_address h ≠ 0.
Proof.
  unfold fresh_address. pose proof (is_fresh ({[0]} ∪ dom h)) as H.
  intros E. rewrite E in H. set_solver.
Qed.

Lemma fresh_address_free h : h !! fresh_address h = None.
Proof.
  unfold fresh_address. pose proof (is_fresh ({[0]} ∪ dom h)) as H.
  apply not_elem_of_dom. set_solver.
Qed.

Lemma load_run a b w :
  a ≠ 0 → heap w !! a = Some b → load a w = (Ok b, log (EvLoad a) w).
Proof. intros Ha Hb. unfold load. rewrite decide_False by done. by rewrite Hb. Qed.

Lemma load_data_run a d w :
  a ≠ 0 → heap w !! a = Some (BData d) →
  load_data a w = (Ok d, log (EvLoad a) w).
Proof.
  intros Ha Hb. unfold load_data. by rewrite (bind_ok _ _ _ _ _ (load_run _ _ _ Ha Hb)).
Qed.

Lemma update_run a f b b' w :
  heap w !! a = Some b → f b = Ok b' →
  update a f w
  = (Ok (), World (<[a := b']> (heap w)) (trace w ++ [EvStore a])).
Proof. intros Hb Hf. unfold update. by rewrite Hb, Hf. Qed.

Lemma getitem_run {A} (l : list A) i x w :
  l !! i = Some x → getitem l (Z.of_nat i) w = (Ok x, w).
Proof.
  intros Hx. unfold getitem.
  destruct (decide (Z.of_nat i < 0)) as [?|_]; [lia|].
  rewrite decide_True by lia. by rewrite Nat2Z.id, Hx.
Qed.

Lemma getitem_out_of_range {A} (l : list A) i w :
  (length l ≤ i)%nat → getitem l (Z.of_nat i) w = (Raise IndexError, w).
Proof.
  intros Hi. unfold getitem.
  destruct (decide (Z.of_nat i < 0)) as [?|_]; [lia|].
  rewrite decide_True by lia. by rewrite Nat2Z.id, lookup_ge_None_2.
Qed.

Lemma set_cell_run {A} (l : list A) i x :
  (i < length l)%nat → set_cell l (Z.of_nat i) x = Ok (<[i := x]> l).
Proof.
  intros Hi. unfold set_cell, len. rewrite decide_True by lia.
  by rewrite Nat2Z.id.
Qed.

(** A loop that keeps an invariant indexed by the number of rounds. *)
Lemma for_each_invariant {S} (I : nat → S → world → Prop) l
    (body : Z → S → M S) s w :
  I 0%nat s w →
  (∀ k i s w, l !! k = Some i → I k s w →
     ∃ s' w', body i s w = (Ok s', w') ∧ I (Datatypes.S k) s' w') →
  ∃ s' w', for_each l body s w = (Ok s', w') ∧ I (length l) s' w'.
Proof.
  revert I s w. induction l as [|i l IH]; intros I s w H0 Hstep; simpl.
  - by exists s, w.
  - destruct (Hstep 0%nat i s w) as (s1 & w1 & E & H1); [done|done|].
    rewrite (bind_ok _ _ _ _ _ E).
    apply (IH (λ k, I (Datatypes.S k))); [done|].
    intros k j s' w' Hk HI. by apply (Hstep (Datatypes.S k)).
Qed.

(** A loop that keeps the invariant up to round [k], which raises. *)
Lemma for_each_raises {S} (I : nat → S → world → Prop) l
    (body : Z → S → M S) s w k i e :
  l !! k = Some i →
  I 0%nat s w →
  (∀ j i' s w, (j < k)%nat → l !! j = Some i' → I j s w →
     ∃ s' w', body i' s w = (Ok s', w') ∧ I (Datatypes.S j) s' w') →
  (∀ s w, I k s w → ∃ w', body i s w = (Raise e, w')) →
  ∃ w', for_each l body s w = (Raise e, w').
Proof.
  revert I s w k. induction l as [|i0 l IH]; intros I s w k Hk H0 Hstep He;
    [done|].
  simpl. destruct k as [|k].
  - simpl in Hk. injection Hk as ->.
    destruct (He s w H0) as [w' E]. exists w'. by rewrite (bind_raise _ _ _ _ _ E).
  - destruct (Hstep 0%nat i0 s w) as (s1 & w1 & E & H1); [lia|done|done|].
    rewrite (bind_ok _ _ _ _ _ E).
    apply (IH (λ k, I (Datatypes.S k)) s1 w1 k); [done|done| |done].
    intros j i' s' w' Hj Hl HI. apply (Hstep (Datatypes.S j)); [lia|done|done].
Qed.

Lemma insert_take_replicate {A} (row : list A) (j dim : nat) x z :
  row !! j = Some x → (j < dim)%nat →
  <[j := x]> (take j row ++ replicate (dim - j) z)
  = take (Datatypes.S j) row ++ replicate (dim - Datatypes.S j) z.
Proof.
  intros Hx Hj.
  assert (Hl : length (take j row) = j).
  { rewrite length_take. apply lookup_lt_Some in Hx. lia. }
  replace (dim - j)%nat with (Datatypes.S (dim - Datatypes.S j)) by lia.
  rewrite insert_app_r_alt by lia. rewrite Hl, Nat.sub_diag. simpl.
  rewrite (take_S_r _ _ _ Hx). by rewrite <- app_assoc.
Qed.

Lemma insert_snoc_replicate {A} (l : list A) (k n : nat) x z :
  length l = k → (k < n)%nat →
  <[k := x]> (l ++ replicate (n - k) z)
  = (l ++ [x]) ++ replicate (n - Datatypes.S k) z.
Proof.
  intros Hl Hk.
  replace (n - k)%nat with (Datatypes.S (n - Datatypes.S k)) by lia.
  rewrite insert_app_r_alt by lia. rewrite Hl, Nat.sub_diag. simpl.
  by rewrite <- app_assoc.
Qed.

Lemma store_float_run a i v ty l w :
  heap w !! a = Some (BFloats ty l) → (i < length l)%nat →
  store_float a (Z.of_nat i) v w
  = (Ok (), World (<[a := BFloats ty (<[i := v]> l)]> (heap w))
              (trace w ++ [EvStore a])).
Proof.
  intros Hb Hi. unfold store_float. apply (update_run _ _ _ _ _ Hb).
  by rewrite set_cell_run.
Qed.

Lemma store_pointer_run a i p l w :
  heap w !! a = Some (BPointers l) → (i < length l)%nat →
  store_pointer a (Z.of_nat i) p w
  = (Ok (), World (<[a := BPointers (<[i := p]> l)]> (heap w))
              (trace w ++ [EvStore a])).
Proof.
  intros Hb Hi. unfold store_pointer. apply (update_run _ _ _ _ _ Hb).
  by rewrite set_cell_run.
Qed.

Lemma store_data_run a f d w :
  heap w !! a = Some (BData d) →
  store_data a f w
  = (Ok (), World (<[a := BData (f d)]> (heap w)) (trace w ++ [EvStore a])).
Proof. intros Hb. unfold store_data. by apply (update_run _ _ _ _ _ Hb). Qed.

(** The inner loop on a row that has [dim] values or more. *)
Lemma fill_point_ok (sample : list (list float)) k row p dim hb tr :
  sample !! k = Some row → (dim ≤ length row)%nat →
  ∃ tr',
    for_each (range0 (Z.of_nat dim)) (λ dimension _,
      row ←' getitem sample (Z.of_nat k) ;;
      v ←' getitem row dimension ;;
      store_float p dimension v) ()
      (World (<[p := BFloats c_double (replicate dim 0%float)]> hb) tr)
    = (Ok (), World (<[p := BFloats c_double (take dim row)]> hb) tr').
Proof.
  intros Hrow Hdim.
  destruct (for_each_invariant
    (λ j _ w, heap w
       = <[p := BFloats c_double (take j row ++ replicate (dim - j) 0%float)]> hb)
    (range0 (Z.of_nat dim))
    (λ dimension _,
      row ←' getitem sample (Z.of_nat k) ;;
      v ←' getitem row dimension ;;
      store_float p dimension v) ()
    (World (<[p := BFloats c_double (replicate dim 0%float)]> hb) tr))
    as ([] & [h' tr'] & E & Hh).
  - simpl. by rewrite Nat.sub_0_r.
  - intros j i [] w [-> Hj]%lookup_range0 Hw.
    destruct (lookup_lt_is_Some_2 row j) as [x Hx]; [lia|].
    rewrite (bind_ok _ _ _ _ _ (getitem_run _ _ _ _ Hrow)).
    rewrite (bind_ok _ _ _ _ _ (getitem_run _ _ _ _ Hx)).
    erewrite store_float_run; [|by rewrite Hw, lookup_insert_eq|].
    + eexists (), _. split; [done|]. simpl.
      rewrite Hw, insert_insert_eq.
      by rewrite (insert_take_replicate _ _ _ _ _ Hx) by lia.
    + rewrite length_app, length_take, length_replicate. lia.
  - exists tr'. rewrite E. simpl in Hh. rewrite Hh.
    rewrite length_range0, Nat2Z.id, Nat.sub_diag. simpl.
    by rewrite app_nil_r.
Qed.

(** The inner loop on a row that has fewer than [dim] values. *)
Lemma fill_point_short (sample : list (list float)) k row p dim hb tr :
  sample !! k = Some row → (length row < dim)%nat →
  ∃ w',
    for_each (range0 (Z.of_nat dim)) (λ dimension _,
      row ←' getitem sample (Z.of_nat k) ;;
      v ←' getitem row dimension ;;
      store_float p dimension v) ()
      (World (<[p := BFloats c_double (replicate dim 0%float)]> hb) tr)
    = (Raise IndexError, w').
Proof.
  intros Hrow Hdim.
  apply (for_each_raises
    (λ j _ w, heap w
       = <[p := BFloats c_double (take j row ++ replicate (dim - j) 0%float)]> hb)
    _ _ _ _ (length row) (Z.of_nat (length row))).
  - apply lookup_range0. lia.
  - simpl. by rewrite Nat.sub_0_r.
  - intros j i [] w Hj [-> _]%lookup_range0 Hw.
    destruct (lookup_lt_is_Some_2 row j) as [x Hx]; [lia|].
    rewrite (bind_ok _ _ _ _ _ (getitem_run _ _ _ _ Hrow)).
    rewrite (bind_ok _ _ _ _ _ (getitem_run _ _ _ _ Hx)).
    erewrite store_float_run; [|by rewrite Hw, lookup_insert_eq|].
    + eexists (), _. split; [done|]. simpl.
      rewrite Hw, insert_insert_eq.
      by rewrite (insert_take_replicate _ _ _ _ _ Hx) by lia.
    + rewrite length_app, length_take, length_replicate. lia.
  - intros [] w _. exists w.
    rewrite (bind_ok _ _ _ _ _ (getitem_run _ _ _ _ Hrow)).
    by rewrite (bind_raise _ _ _ _ _ (getitem_out_of_range row _ w (le_n _))).
Qed.

Lemma alloc_run b w :
  alloc b w
  = (Ok (fresh_address (heap w)),
     World (<[fresh_address (heap w) := b]> (heap w))
       (trace w ++ [EvAlloc (fresh_address (heap w))])).
Proof. reflexivity. Qed.

(** One round of the outer loop on a row that has [dim] values or more. *)
Lemma encode_row_ok h0 a0 a1 (sample : list (list float)) dim k row w :
  a0 ≠ 0 → h0 !! a1 = None →
  rows_encoded h0 a0 a1 sample dim k w →
  sample !! k = Some row → (dim ≤ length row)%nat →
  ∃ w',
    (d ←' load_data a0 ;;
     point ←' alloc (BFloats c_double
                       (replicate (Z.to_nat (dr_dimension d)) 0%float)) ;;
     d ←' load_data a0 ;;
     (for_each (range0 (dr_dimension d)) (λ dimension _,
        row ←' getitem sample (Z.of_nat k) ;;
        v ←' getitem row dimension ;;
        store_float point dimension v) () ;;'
     store_pointer a1 (Z.of_nat k) point)) w
    = (Ok (), w') ∧
    rows_encoded h0 a0 a1 sample dim (Datatypes.S k) w'.
Proof.
  intros Hnz0 Hfree1 (Ha0 & Hframe & ptrs & Hlen & Ha1 & Hrows) Hrow Hdim.
  set (p := fresh_address (heap w)).
  assert (Hp : heap w !! p = None) by apply fresh_address_free.
  assert (Hpnz : p ≠ 0) by apply fresh_address_nonzero.
  assert (Hp0 : p ≠ a0) by (intros ->; congruence).
  assert (Hp1 : p ≠ a1) by (intros ->; congruence).
  rewrite (bind_ok _ _ _ _ _ (load_data_run _ _ _ Hnz0 Ha0)).
  cbn [dr_dimension]. rewrite Nat2Z.id.
  rewrite (bind_ok _ _ _ _ _ (alloc_run _ _)). cbn [heap log trace]. fold p.
  erewrite bind_ok; [|apply load_data_run; [done|]; cbn [heap];
                      by rewrite lookup_insert_ne].
  unfold log. cbn [dr_dimension heap trace].
  match goal with
  | |- context [bind _ _ (World _ ?tr)] =>
      destruct (fill_point_ok sample k row p dim (heap w) tr Hrow Hdim)
        as [tr' E]
  end.
  rewrite (bind_ok _ _ _ _ _ E).
  assert (Hk : (k < length sample)%nat) by by eapply lookup_lt_Some.
  erewrite store_pointer_run;
    [|cbn [heap]; by rewrite lookup_insert_ne|
      rewrite length_app, length_replicate; lia].
  eexists. split; [done|]. unfold rows_encoded. cbn [heap].
  rewrite (insert_snoc_replicate _ _ _ _ _ Hlen Hk).
  split; [|split].
  - rewrite lookup_insert_ne by (intros ->; congruence).
    by rewrite lookup_insert_ne.
  - intros x Hx.
    assert (x ≠ a1) by (intros ->; rewrite Hfree1 in Hx; by destruct Hx).
    assert (x ≠ p).
    { intros ->. rewrite <- (Hframe _ Hx), Hp in Hx. by destruct Hx. }
    rewrite !lookup_insert_ne by done. by apply Hframe.
  - exists (ptrs ++ [p]). split; [rewrite length_app; simpl; lia|].
    split; [by rewrite lookup_insert_eq|].
    rewrite (take_S_r _ _ _ Hrow). apply Forall2_app.
    + eapply Forall2_impl; [done|]. intros q r (Hq0 & Hq1 & Hq2).
      split; [done|]. split; [done|].
      assert (q ≠ p) by (intros ->; congruence).
      assert (q ≠ a1).
      { intros ->. rewrite Ha1 in Hq2. done. }
      by rewrite !lookup_insert_ne.
    + constructor; [|constructor]. split; [done|]. split.
      * destruct (h0 !! p) eqn:Ep; [|done].
        rewrite <- (Hframe p) in Ep by by rewrite Ep. congruence.
      * rewrite lookup_insert_ne by done. by rewrite lookup_insert_eq.
Qed.

(** One round of the outer loop on a row that has fewer than [dim]
    values. *)
Lemma encode_row_short h0 a0 a1 (sample : list (list float)) dim k row w :
  a0 ≠ 0 →
  rows_encoded h0 a0 a1 sample dim k w →
  sample !! k = Some row → (length row < dim)%nat →
  ∃ w',
    (d ←' load_data a0 ;;
     point ←' alloc (BFloats c_double
                       (replicate (Z.to_nat (dr_dimension d)) 0%float)) ;;
     d ←' load_data a0 ;;
     (for_each (range0 (dr_dimension d)) (λ dimension _,
        row ←' getitem sample (Z.of_nat k) ;;
        v ←' getitem row dimension ;;
        store_float point dimension v) () ;;'
     store_pointer a1 (Z.of_nat k) point)) w
    = (Raise IndexError, w').
Proof.
  intros Hnz0 (Ha0 & Hframe & ptrs & Hlen & Ha1 & Hrows) Hrow Hdim.
  set (p := fresh_address (heap w)).
  assert (Hp : heap w !! p = None) by apply fresh_address_free.
  assert (Hp0 : p ≠ a0) by (intros ->; congruence).
  rewrite (bind_ok _ _ _ _ _ (load_data_run _ _ _ Hnz0 Ha0)).
  cbn [dr_dimension]. rewrite Nat2Z.id.
  rewrite (bind_ok _ _ _ _ _ (alloc_run _ _)). cbn [heap log trace]. fold p.
  erewrite bind_ok; [|apply load_data_run; [done|]; cbn [heap];
                      by rewrite lookup_insert_ne].
  unfold log. cbn [dr_dimension heap trace].
  match goal with
  | |- context [bind _ _ (World _ ?tr)] =>
      destruct (fill_point_short sample k row p dim (heap w) tr Hrow Hdim)
        as [w' E]
  end.
  exists w'. by rewrite (bind_raise _ _ _ _ _ E).
Qed.

(** [create_pointer_data] up to its outer loop, on a sample that has a
    first row. *)
Lemma create_pointer_data_prefix first rest w :
  let sample := first :: rest in
  ∃ a0 a1 wL,
    a0 ≠ 0 ∧ a1 ≠ 0 ∧ a0 ≠ a1 ∧ heap w !! a0 = None ∧ heap w !! a1 = None ∧
    rows_encoded (heap w) a0 a1 sample (length first) 0 wL ∧
    create_pointer_data sample w
    = ((for_each (range0 (len sample)) (λ index _,
          d ←' load_data a0 ;;
          point ←' alloc (BFloats c_double
                            (replicate (Z.to_nat (dr_dimension d)) 0%float)) ;;
          d ←' load_data a0 ;;
          (for_each (range0 (dr_dimension d)) (λ dimension _,
             row ←' getitem sample index ;;
             v ←' getitem row dimension ;;
             store_float point dimension v) () ;;'
          store_pointer a1 index point)) () ;;'
        (store_data a0 (λ d,
           DataRepresentation (dr_number_objects d) (dr_dimension d) a1) ;;'
         ret a0)) wL).
Proof.
  intros sample.
  set (a0 := fresh_address (heap w)).
  assert (H0 : heap w !! a0 = None) by apply fresh_address_free.
  assert (Hnz0 : a0 ≠ 0) by apply fresh_address_nonzero.
  set (h1 := <[a0 := BData (DataRepresentation (len sample) (len first) 0)]>
               (heap w)).
  set (a1 := fresh_address h1).
  assert (H1 : h1 !! a1 = None) by apply fresh_address_free.
  assert (Hnz1 : a1 ≠ 0) by apply fresh_address_nonzero.
  assert (Hne : a0 ≠ a1).
  { intros E. rewrite <- E in H1. unfold h1 in H1.
    by rewrite lookup_insert_eq in H1. }
  assert (H1' : heap w !! a1 = None).
  { unfold h1 in H1. by rewrite lookup_insert_ne in H1. }
  exists a0, a1. eexists. split; [done|]. split; [done|]. split; [done|].
  split; [done|]. split; [done|]. split; last first.
  - unfold create_pointer_data.
    rewrite (bind_ok _ _ _ _ _ (alloc_run _ _)). fold a0.
    erewrite bind_ok; [|apply store_data_run; cbn [heap];
                        by rewrite lookup_insert_eq].
    cbn [heap trace dr_dimension dr_pointer_objects dr_number_objects].
    rewrite insert_insert_eq.
    erewrite bind_ok; [|apply (getitem_run sample 0%nat first); done].
    erewrite bind_ok; [|apply store_data_run; cbn [heap];
                        by rewrite lookup_insert_eq].
    cbn [heap trace dr_dimension dr_pointer_objects dr_number_objects].
    rewrite insert_insert_eq. fold h1.
    erewrite bind_ok; [|apply load_data_run; [done|]; cbn [heap];
                        unfold h1; by rewrite lookup_insert_eq].
    rewrite (bind_ok _ _ _ _ _ (alloc_run _ _)).
    unfold log. cbn [heap trace dr_dimension dr_pointer_objects
                     dr_number_objects]. fold a1.
    erewrite bind_ok; [|apply load_data_run; [done|]; cbn [heap];
                        rewrite lookup_insert_ne by done;
                        unfold h1; by rewrite lookup_insert_eq].
    unfold log. cbn [heap trace dr_dimension dr_pointer_objects
                     dr_number_objects].
    reflexivity.
  - unfold rows_encoded. cbn [heap]. split; [|split].
    + rewrite lookup_insert_ne by done. unfold h1.
      rewrite lookup_insert_eq. unfold len. done.
    + intros x Hx.
      assert (x ≠ a1) by (intros ->; rewrite H1' in Hx; by destruct Hx).
      assert (x ≠ a0) by (intros ->; rewrite H0 in Hx; by destruct Hx).
      unfold h1. by rewrite !lookup_insert_ne.
    + exists []. split; [done|]. rewrite lookup_insert_eq.
      split; [|constructor]. simpl. unfold len. by rewrite Nat2Z.id.
Qed.

(** On a sample none of whose rows is shorter than the first, the
    encoder returns, and lays the sample out with every row cut to the
    length of the first. *)
Lemma create_pointer_data_ok first rest w :
  Forall (λ row, (length first ≤ length row)%nat) rest →
  ∃ a w',
    create_pointer_data (first :: rest) w = (Ok a, w') ∧
    point_set_stored (heap w') a (len (first :: rest)) (len first)
      (take (length first) <$> first :: rest) ∧
    (∀ x, is_Some (heap w !! x) → heap w' !! x = heap w !! x).
Proof.
  intros Hrows.
  destruct (create_pointer_data_prefix first rest w)
    as (a0 & a1 & wL & Hnz0 & Hnz1 & Hne & H0 & H1 & HL & ->).
  set (sample := first :: rest) in *.
  assert (Hall : Forall (λ row, (length first ≤ length row)%nat) sample)
    by by constructor.
  match goal with
  | |- context [bind (for_each ?l ?body ?s) _ ?w0] =>
      destruct (for_each_invariant
                  (λ k _ w', rows_encoded (heap w) a0 a1 sample (length first) k w')
                  l body s w0) as ([] & wE & E & HE)
  end.
  - done.
  - intros k i [] w' [-> Hk]%lookup_range0 HI.
    destruct (lookup_lt_is_Some_2 sample k) as [row Hrow];
      [unfold len in Hk; lia|].
    destruct (encode_row_ok _ _ _ _ _ _ _ _ Hnz0 H1 HI Hrow) as (w'' & E & HI').
    { by eapply (Forall_lookup_1 _ _ _ _ Hall). }
    by exists (), w''.
  - rewrite (bind_ok _ _ _ _ _ E).
    rewrite length_range0 in HE. unfold len in HE. rewrite Nat2Z.id in HE.
    destruct HE as (Ha0 & Hframe & ptrs & Hlen & Ha1 & Hptrs).
    rewrite Nat.sub_diag in Ha1. simpl in Ha1. rewrite app_nil_r in Ha1.
    rewrite take_ge in Hptrs by done.
    erewrite bind_ok; [|by apply store_data_run].
    eexists _, _. split; [done|].
    cbn [heap dr_number_objects dr_dimension]. split.
    + exists a1, ptrs. rewrite lookup_insert_eq. split; [done|].
      split; [done|]. split; [done|].
      rewrite lookup_insert_ne by done. split; [done|].
      apply Forall2_fmap_r. eapply Forall2_impl; [done|].
      intros p row (Hp0 & _ & Hp). split; [done|].
      rewrite lookup_insert_ne; [done|]. intros ->. congruence.
    + intros x Hx. rewrite lookup_insert_ne; [by apply Hframe|].
      intros ->. rewrite H0 in Hx. by destruct Hx.
Qed.

Lemma first_short_row (first : list float) (sample : list (list float)) :
  Exists (λ row, (length row < length first)%nat) sample →
  ∃ k row, sample !! k = Some row ∧ (length row < length first)%nat ∧
    ∀ j row', (j < k)%nat → sample !! j = Some row' →
      (length first ≤ length row')%nat.
Proof.
  induction sample as [|r sample IH]; intros Hex; [by inversion Hex|].
  destruct (decide (length r < length first)%nat) as [Hr|Hr].
  - exists 0%nat, r. split; [done|]. split; [done|]. intros; lia.
  - destruct IH as (k & row & Hk & Hrow & Hbefore).
    { inversion Hex; subst; [done|done]. }
    exists (Datatypes.S k), row. split; [done|]. split; [done|].
    intros [|j] row' Hj Hl; simpl in Hl.
    + injection Hl as <-. lia.
    + apply (Hbefore j); [lia|done].
Qed.

(** On a sample one of whose rows is shorter than the first, the encoder
    raises IndexError. *)
Lemma create_pointer_data_short_row first rest w :
  Exists (λ row, (length row < length first)%nat) rest →
  ∃ w', create_pointer_data (first :: rest) w = (Raise IndexError, w').
Proof.
  intros Hex.
  destruct (create_pointer_data_prefix first rest w)
    as (a0 & a1 & wL & Hnz0 & Hnz1 & Hne & H0 & H1 & HL & ->).
  set (sample := first :: rest) in *.
  destruct (first_short_row first sample) as (k & row & Hk & Hrow & Hbefore).
  { by apply Exists_cons_tl. }
  match goal with
  | |- context [bind (for_each ?l ?body ?s) _ ?w0] =>
      destruct (for_each_raises
                  (λ k _ w', rows_encoded (heap w) a0 a1 sample (length first) k w')
                  l body s w0 k (Z.of_nat k) IndexError) as (wE & E)
  end.
  - apply lookup_range0. split; [done|]. apply lookup_lt_Some in Hk.
    unfold len. lia.
  - done.
  - intros j i [] w' Hj [-> _]%lookup_range0 HI.
    destruct (lookup_lt_is_Some_2 sample j) as [row' Hrow'].
    { apply lookup_lt_Some in Hk. lia. }
    destruct (encode_row_ok _ _ _ _ _ _ _ _ Hnz0 H1 HI Hrow') as (w'' & E & HI').
    { by eapply Hbefore. }
    by exists (), w''.
  - intros [] w' HI. by eapply encode_row_short.
  - exists wE. by rewrite (bind_raise _ _ _ _ _ E).
Qed.

Lemma yields_load_data h a d :
  a ≠ 0 → h !! a = Some (BData d) → yields h (load_data a) (Ok d).
Proof.
  intros Ha Hb. unfold load_data.
  eapply yields_bind; [by apply yields_load|]. apply yields_ret.
Qed.

(** Reading back a point set whose rows all have the declared length. *)
Lemma read_pointer_data_stored h a rows dim :
  point_set_stored h a (len rows) (Z.of_nat dim) rows →
  Forall (λ row, length row = dim) rows →
  yields h (read_pointer_data a) (Ok rows).
Proof.
  intros (po & ptrs & Ha & Hnz & Hpo & Hptrs & Hrows) Hdim.
  unfold read_pointer_data.
  eapply yields_bind; [by apply yields_load_data|].
  cbn [dr_number_objects dr_dimension dr_pointer_objects].
  apply (yields_loop _ _ _ (λ k, take k rows)); [done| |].
  { rewrite length_range0. unfold len. rewrite Nat2Z.id. by rewrite take_ge. }
  intros k i [-> Hk]%lookup_range0.
  destruct (lookup_lt_is_Some_2 rows k) as [row Hrow];
    [unfold len in Hk; lia|].
  destruct (Forall2_lookup_r _ _ _ _ _ Hrows Hrow) as (p & Hp & Hpnz & Hprow).
  eapply yields_bind.
  { eapply (yields_load_pointer h po ptrs); [|done]. split; [done|].
    exists []. by rewrite app_nil_r. }
  eapply yields_bind.
  { apply (yields_loop _ _ _ (λ j, take j row)); [done|reflexivity|].
    intros j i [-> Hj]%lookup_range0.
    pose proof (Forall_lookup_1 _ _ _ _ Hdim Hrow) as Hl. simpl in Hl.
    destruct (lookup_lt_is_Some_2 row j) as [x Hx]; [lia|].
    eapply yields_bind.
    { eapply (yields_load_float h c_double p row); [|done]. split; [done|].
      exists []. by rewrite app_nil_r. }
    rewrite (take_S_r _ _ _ Hx). apply yields_ret. }
  rewrite length_range0, Nat2Z.id.
  pose proof (Forall_lookup_1 _ _ _ _ Hdim Hrow) as Hl. simpl in Hl.
  rewrite (take_ge row) by lia. rewrite (take_S_r _ _ _ Hrow).
  apply yields_ret.
Qed.

(** ** The encoder on a sample with a short row, and what it leaves *)

(** A loop that keeps the invariant up to round [k], which raises and
    leaves a world with [Q]. *)
Lemma for_each_raises_leaving {S} (I : nat → S → world → Prop)
    (Q : world → Prop) l (body : Z → S → M S) s w k i e :
  l !! k = Some i →
  I 0%nat s w →
  (∀ j i' s w, (j < k)%nat → l !! j = Some i' → I j s w →
     ∃ s' w', body i' s w = (Ok s', w') ∧ I (Datatypes.S j) s' w') →
  (∀ s w, I k s w → ∃ w', body i s w = (Raise e, w') ∧ Q w') →
  ∃ w', for_each l body s w = (Raise e, w') ∧ Q w'.
Proof.
  revert I s w k. induction l as [|i0 l IH]; intros I s w k Hk H0 Hstep He;
    [done|].
  simpl. destruct k as [|k].
  - simpl in Hk. injection Hk as ->.
    destruct (He s w H0) as (w' & E & HQ). exists w'.
    by rewrite (bind_raise _ _ _ _ _ E).
  - destruct (Hstep 0%nat i0 s w) as (s1 & w1 & E & H1); [lia|done|done|].
    rewrite (bind_ok _ _ _ _ _ E).
    apply (IH (λ k, I (Datatypes.S k)) s1 w1 k); [done|done| |done].
    intros j i' s' w' Hj Hl HI. apply (Hstep (Datatypes.S j)); [lia|done|done].
Qed.

(** The inner loop on a row that has fewer than [dim] values: it stops
    when the buffer holds the values of the row, zeros after them. *)
Lemma fill_point_short_leaving (sample : list (list float)) k row p dim hb tr :
  sample !! k = Some row → (length row < dim)%nat →
  ∃ w',
    for_each (range0 (Z.of_nat dim)) (λ dimension _,
      row ←' getitem sample (Z.of_nat k) ;;
      v ←' getitem row dimension ;;
      store_float p dimension v) ()
      (World (<[p := BFloats c_double (replicate dim 0%float)]> hb) tr)
    = (Raise IndexError, w') ∧
    heap w'
    = <[p := BFloats c_double
               (row ++ replicate (dim - length row) 0%float)]> hb.
Proof.
  intros Hrow Hdim.
  apply (for_each_raises_leaving
    (λ j _ w, heap w
       = <[p := BFloats c_double (take j row ++ replicate (dim - j) 0%float)]> hb)
    _ _ _ _ _ (length row) (Z.of_nat (length row))).
  - apply lookup_range0. lia.
  - simpl. by rewrite Nat.sub_0_r.
  - intros j i [] w Hj [-> _]%lookup_range0 Hw.
    destruct (lookup_lt_is_Some_2 row j) as [x Hx]; [lia|].
    rewrite (bind_ok _ _ _ _ _ (getitem_run _ _ _ _ Hrow)).
    rewrite (bind_ok _ _ _ _ _ (getitem_run _ _ _ _ Hx)).
    erewrite store_float_run; [|by rewrite Hw, lookup_insert_eq|].
    + eexists (), _. split; [done|]. simpl.
      rewrite Hw, insert_insert_eq.
      by rewrite (insert_take_replicate _ _ _ _ _ Hx) by lia.
    + rewrite length_app, length_take, length_replicate. lia.
  - intros [] w Hw. exists w.
    rewrite (bind_ok _ _ _ _ _ (getitem_run _ _ _ _ Hrow)).
    rewrite (bind_raise _ _ _ _ _ (getitem_out_of_range row _ w (le_n _))).
    split; [done|]. by rewrite Hw, firstn_all.
Qed.

(** One round of the outer loop on a row that has fewer than [dim]
    values: the buffer of the row is allocated and partly filled when
    the round raises, and the array of pointers does not have it. *)
Lemma encode_row_short_leaving h0 a0 a1 (sample : list (list float)) dim k
    row w :
  a0 ≠ 0 →
  rows_encoded h0 a0 a1 sample dim k w →
  sample !! k = Some row → (length row < dim)%nat →
  ∃ w',
    (d ←' load_data a0 ;;
     point ←' alloc (BFloats c_double
                       (replicate (Z.to_nat (dr_dimension d)) 0%float)) ;;
     d ←' load_data a0 ;;
     (for_each (range0 (dr_dimension d)) (λ dimension _,
        row ←' getitem sample (Z.of_nat k) ;;
        v ←' getitem row dimension ;;
        store_float point dimension v) () ;;'
     store_pointer a1 (Z.of_nat k) point)) w
    = (Raise IndexError, w') ∧
    heap w'
    = <[fresh_address (heap w)
        := BFloats c_double (row ++ replicate (dim - length row) 0%float)]>
        (heap w).
Proof.
  intros Hnz0 (Ha0 & Hframe & ptrs & Hlen & Ha1 & Hrows) Hrow Hdim.
  set (p := fresh_address (heap w)).
  assert (Hp : heap w !! p = None) by apply fresh_address_free.
  assert (Hp0 : p ≠ a0) by (intros ->; congruence).
  rewrite (bind_ok _ _ _ _ _ (load_data_run _ _ _ Hnz0 Ha0)).
  cbn [dr_dimension]. rewrite Nat2Z.id.
  rewrite (bind_ok _ _ _ _ _ (alloc_run _ _)). cbn [heap log trace]. fold p.
  erewrite bind_ok; [|apply load_data_run; [done|]; cbn [heap];
                      by rewrite lookup_insert_ne].
  unfold log. cbn [dr_dimension heap trace].
  match goal with
  | |- context [bind _ _ (World _ ?tr)] =>
      destruct (fill_point_short_leaving sample k row p dim (heap w) tr Hrow
                  Hdim) as (w' & E & Hw')
  end.
  exists w'. by rewrite (bind_raise _ _ _ _ _ E).
Qed.

(** The encoder on a sample whose row [k] is the first that is shorter
    than the first row: it raises IndexError while it copies row [k],
    and leaves the header, the array of pointers with the buffers of
    the [k] rows before, and the buffer of row [k] with the values the
    row has, all at addresses that were free, and every other block as
    it was. *)
Lemma create_pointer_data_short_row_leaving first rest w k row :
  (first :: rest) !! k = Some row → (length row < length first)%nat →
  (∀ j row', (j < k)%nat → (first :: rest) !! j = Some row' →
     (length first ≤ length row')%nat) →
  ∃ a po ptrs p w',
    create_pointer_data (first :: rest) w = (Raise IndexError, w') ∧
    heap w !! a = None ∧ heap w !! po = None ∧ heap w !! p = None ∧
    heap w' !! a
    = Some (BData (DataRepresentation (len (first :: rest)) (len first) 0)) ∧
    heap w' !! po
    = Some (BPointers (ptrs ++ replicate (length (first :: rest) - k) 0)) ∧
    length ptrs = k ∧
    Forall2 (λ q r, q ≠ 0 ∧ heap w !! q = None ∧
                    heap w' !! q
                    = Some (BFloats c_double (take (length first) r)))
      ptrs (take k (first :: rest)) ∧
    heap w' !! p
    = Some (BFloats c_double
              (row ++ replicate (length first - length row) 0%float)) ∧
    keeps w w'.
Proof.
  intros Hk Hrow Hbefore.
  destruct (create_pointer_data_prefix first rest w)
    as (a0 & a1 & wL & Hnz0 & Hnz1 & Hne & H0 & H1 & HL & ->).
  set (sample := first :: rest) in *.
  match goal with
  | |- context [bind (for_each ?l ?body ?s) _ ?w0] =>
      destruct (for_each_raises_leaving
                  (λ k _ w', rows_encoded (heap w) a0 a1 sample (length first)
                               k w')
                  (λ w', ∃ wk,
                     rows_encoded (heap w) a0 a1 sample (length first) k wk ∧
                     heap w'
                     = <[fresh_address (heap wk)
                         := BFloats c_double
                              (row ++ replicate (length first - length row)
                                        0%float)]> (heap wk))
                  l body s w0 k (Z.of_nat k) IndexError)
        as (wE & E & wk & HI & HwE)
  end.
  - apply lookup_range0. split; [done|]. apply lookup_lt_Some in Hk.
    unfold len. lia.
  - done.
  - intros j i [] w' Hj [-> _]%lookup_range0 HI.
    destruct (lookup_lt_is_Some_2 sample j) as [row' Hrow'].
    { apply lookup_lt_Some in Hk. lia. }
    destruct (encode_row_ok _ _ _ _ _ _ _ _ Hnz0 H1 HI Hrow') as (w'' & E & HI').
    { by eapply Hbefore. }
    by exists (), w''.
  - intros [] w' HI.
    destruct (encode_row_short_leaving _ _ _ _ _ _ _ _ Hnz0 HI Hk Hrow)
      as (w'' & E & Hw'').
    exists w''. split; [done|]. by exists w'.
  - rewrite (bind_raise _ _ _ _ _ E).
    destruct HI as (Ha0 & Hframe & ptrs & Hlen & Ha1 & Hrows).
    set (p := fresh_address (heap wk)) in *.
    assert (Hp : heap wk !! p = None) by apply fresh_address_free.
    assert (Hpw : heap w !! p = None).
    { destruct (heap w !! p) eqn:Ep; [|done].
      rewrite <- (Hframe p) in Ep by by rewrite Ep. congruence. }
    exists a0, a1, ptrs, p, wE. split; [done|].
    repeat (split; [done|]). rewrite HwE.
    split; [rewrite lookup_insert_ne; [done|]; intros ->; congruence|].
    split; [rewrite lookup_insert_ne; [done|]; intros ->; congruence|].
    split; [done|]. split; [|split].
    + eapply Forall2_impl; [done|]. intros q r (Hq0 & Hq1 & Hq2).
      repeat (split; [done|]).
      rewrite lookup_insert_ne; [done|]. intros ->. congruence.
    + by rewrite lookup_insert_eq.
    + intros x Hx. rewrite HwE.
      rewrite lookup_insert_ne; [by apply Hframe|].
      intros ->. rewrite Hpw in Hx. by destruct Hx.
Qed.

(** C10. The encoder takes the dimension from the first row alone. On a
    sample with a first row, it returns whenever no row is shorter than
    the first, and whenever it returns, the structure it returns has
    [number_objects = len(sample)] and [dimension = len(sample[0])], and
    the buffer of every row holds the first [len(sample[0])] values of
    the row and nothing else: a longer row is cut to the length of the
    first. *)
Theorem create_pointer_data_dimension first rest w :
  (Forall (λ row, (length first ≤ length row)%nat) rest →
   ∃ a w', create_pointer_data (first :: rest) w = (Ok a, w')) ∧
  (∀ a w', create_pointer_data (first :: rest) w = (Ok a, w') →
     point_set_stored (heap w') a (len (first :: rest)) (len first)
       (take (length first) <$> first :: rest)).
Proof.
  split.
  - intros Hrows.
    destruct (create_pointer_data_ok first rest w Hrows) as (a & w' & E & _).
    by exists a, w'.
  - intros a w' E.
    destruct (decide (Forall (λ row, (length first ≤ length row)%nat) rest))
      as [Hrows|Hrows].
    + destruct (create_pointer_data_ok first rest w Hrows)
        as (a2 & w2 & E2 & Hst & _).
      rewrite E in E2. by injection E2 as -> ->.
    + apply not_Forall_Exists in Hrows; [|apply _].
      destruct (create_pointer_data_short_row first rest w) as [w2 E2].
      { eapply Exists_impl; [done|]. simpl. intros; lia. }
      rewrite E in E2. done.
Qed.

Lemma create_pointer_data_dimension_witness :
  ∃ a w', create_pointer_data ragged_sample empty_world = (Ok a, w') ∧
    point_set_stored (heap w') a 2 2 [[1.0; 2.0]; [3.0; 4.0]]%float.
Proof.
  destruct (create_pointer_data_dimension [1.0; 2.0]%float
              [[3.0; 4.0; 5.0]%float] empty_world) as [Hret Hst].
  destruct Hret as (a & w' & E).
  - repeat constructor.
  - exists a, w'. split; [exact E|]. exact (Hst a w' E).
Defined.

(** C7. Round trip: on a sample with a first row whose rows all have the
    length of the first, the encoder returns, and reading the encoded
    buffers back row by row, as the library does, gives the sample: the
    same values, in the same rows and columns. *)
Theorem create_pointer_data_round_trip first rest w :
  Forall (λ row, length row = length first) rest →
  ∃ a w',
    create_pointer_data (first :: rest) w = (Ok a, w') ∧
    yields (heap w') (read_pointer_data a) (Ok (first :: rest)).
Proof.
  intros Hrows.
  destruct (create_pointer_data_ok first rest w) as (a & w' & E & Hst & _).
  { eapply Forall_impl; [done|]. simpl. intros; lia. }
  exists a, w'. split; [done|].
  assert (Hall : Forall (λ row, length row = length first) (first :: rest))
    by by constructor.
  assert (Hid : take (length first) <$> first :: rest = first :: rest).
  { clear - Hall. induction Hall as [|row l Hrow _ IH]; [done|].
    rewrite fmap_cons, IH. by rewrite take_ge by lia. }
  rewrite Hid in Hst.
  by apply (read_pointer_data_stored _ _ _ (length first)).
Qed.

Lemma create_pointer_data_round_trip_witness :
  ∃ a w',
    create_pointer_data example_sample empty_world = (Ok a, w') ∧
    yields (heap w') (read_pointer_data a) (Ok example_sample).
Proof.
  apply (create_pointer_data_round_trip [1.0; 2.0]%float
           [[3.0; 4.0]; [5.0; 6.0]]%float empty_world).
  repeat constructor.
Defined.

(** C3, as the code has it. The encoder validates nothing. On the empty
    sample it raises the IndexError of [sample[0]], when it has created
    the structure and nothing else. On a sample with a row shorter than
    the first it raises IndexError while it copies the first such row,
    row [k]: what it allocated until then stays, that is the header,
    the array of pointers with the buffers of the [k] rows before, and
    the buffer of row [k] holding the values the row has, all at
    addresses that were free before, and every block there was before
    is as it was. On a sample none of whose rows is shorter than the
    first it raises nothing, whether or not the rows have one length. *)
Theorem create_pointer_data_unvalidated w :
  (∃ a, heap w !! a = None ∧
        create_pointer_data [] w
        = (Raise IndexError,
           World (<[a := BData (DataRepresentation 0 0 0)]> (heap w))
             (trace w ++ [EvAlloc a; EvStore a]))) ∧
  (∀ first rest,
     Exists (λ row, (length row < length first)%nat) rest →
     ∃ k row a po ptrs p w',
       (first :: rest) !! k = Some row ∧
       (length row < length first)%nat ∧
       (∀ j row', (j < k)%nat → (first :: rest) !! j = Some row' →
          (length first ≤ length row')%nat) ∧
       create_pointer_data (first :: rest) w = (Raise IndexError, w') ∧
       heap w !! a = None ∧ heap w !! po = None ∧ heap w !! p = None ∧
       heap w' !! a
       = Some (BData (DataRepresentation (len (first :: rest)) (len first)
                        0)) ∧
       heap w' !! po
       = Some (BPointers (ptrs ++ replicate (length (first :: rest) - k) 0)) ∧
       length ptrs = k ∧
       Forall2 (λ q r, q ≠ 0 ∧ heap w !! q = None ∧
                       heap w' !! q
                       = Some (BFloats c_double (take (length first) r)))
         ptrs (take k (first :: rest)) ∧
       heap w' !! p
       = Some (BFloats c_double
                 (row ++ replicate (length first - length row) 0%float)) ∧
       keeps w w') ∧
  (∀ first rest,
     Forall (λ row, (length first ≤ length row)%nat) rest →
     raised (create_pointer_data (first :: rest) w).1 = false).
Proof.
  split; [|split].
  - exists (fresh_address (heap w)). split; [apply fresh_address_free|].
    unfold create_pointer_data.
    rewrite (bind_ok _ _ _ _ _ (alloc_run _ _)).
    erewrite bind_ok; [|apply store_data_run; cbn [heap];
                        by rewrite lookup_insert_eq].
    cbn [heap trace dr_dimension dr_pointer_objects dr_number_objects].
    rewrite insert_insert_eq, <- app_assoc. reflexivity.
  - intros first rest Hex.
    destruct (first_short_row first (first :: rest))
      as (k & row & Hk & Hrow & Hbefore); [by apply Exists_cons_tl|].
    destruct (create_pointer_data_short_row_leaving first rest w k row Hk Hrow
                Hbefore) as (a & po & ptrs & p & w' & H).
    by exists k, row, a, po, ptrs, p, w'.
  - intros first rest Hrows.
    destruct (create_pointer_data_ok first rest w Hrows) as (a & w' & E & _).
    by rewrite E.
Qed.

Lemma create_pointer_data_unvalidated_witness :
  (∃ p w',
     create_pointer_data short_row_sample empty_world
     = (Raise IndexError, w') ∧
     heap w' !! p = Some (BFloats c_double [3.0; 0.0]%float)) ∧
  raised (create_pointer_data ragged_sample empty_world).1 = false.
Proof.
  destruct (create_pointer_data_unvalidated empty_world) as (_ & Hshort & Hok).
  split.
  - destruct (Hshort [1.0; 2.0]%float [[3.0]%float])
      as (k & row & a & po & ptrs & p & w' & Hk & Hrow & _ & E & _ & _ & _
          & _ & _ & _ & _ & Hp & _).
    { repeat constructor. }
    exists p, w'. split; [exact E|].
    destruct k as [|[|k]]; simpl in Hk.
    + injection Hk as <-. simpl in Hrow. lia.
    + injection Hk as <-. exact Hp.
    + discriminate Hk.
  - apply (Hok [1.0; 2.0]%float [[3.0; 4.0; 5.0]%float]). repeat constructor.
Defined.

(** C3 as stated fails: a sample whose rows have differing lengths is
    encoded without any error, and a sample with a short row is only
    found out after the array of pointers and a row buffer have been
    allocated and filled. *)
Lemma create_pointer_data_ragged_accepted :
  length [1.0; 2.0]%float ≠ length [3.0; 4.0; 5.0]%float ∧
  (create_pointer_data ragged_sample empty_world).1 = Ok 1 ∧
  (create_pointer_data short_row_sample empty_world).1 = Raise IndexError ∧
  heap (create_pointer_data short_row_sample empty_world).2 !! 2
  = Some (BPointers [3; 0]) ∧
  heap (create_pointer_data short_row_sample empty_world).2 !! 3
  = Some (BFloats c_double [1.0; 2.0]%float).
Proof. repeat split; try done; vm_compute; reflexivity. Qed.

(** ** The entry points *)

Lemma bind_ok_inv {A B} (m : M A) (f : A → M B) w b w' :
  bind m f w = (Ok b, w') → ∃ a w1, m w = (Ok a, w1) ∧ f a w1 = (Ok b, w').
Proof.
  unfold bind. destruct (m w) as [[a|e] w1]; [|done]. intros. by exists a, w1.
Qed.

Lemma getitem_world {A} (l : list A) i w : (getitem l i w).2 = w.
Proof.
  unfold getitem. case_decide; [|done]. by destruct (l !! _).
Qed.

Lemma remove_world l x w : (remove l x w).2 = w.
Proof.
  induction l as [|y l IH]; simpl; [done|]. case_decide; [done|].
  unfold bind. by destruct (remove l x w) as [[?|?] ?].
Qed.

Lemma remove_last init noise w :
  noise ∉ init → remove (init ++ [noise]) noise w = (Ok init, w).
Proof.
  induction init as [|y init IH]; intros Hn; simpl.
  - by rewrite decide_True.
  - apply not_elem_of_cons in Hn as [Hy Hn]. rewrite decide_False by done.
    by rewrite (bind_ok _ _ _ _ _ (IH Hn)).
Qed.

Lemma ccall_run ccore name args w :
  ccall ccore name args w
  = (Ok (ccore name args (heap w)).1,
     World (ccore name args (heap w)).2
       (trace w ++ [EvCall name args (ccore name args (heap w)).1])).
Proof. unfold ccall. by destruct (ccore name args (heap w)). Qed.

(** What the encoder records are no calls. *)
Lemma call_free_ret {A} (a : A) : call_free (ret a).
Proof. intros w. exists []. by rewrite app_nil_r. Qed.

Lemma call_free_raise {A} e : call_free (@raise A e).
Proof. intros w. exists []. by rewrite app_nil_r. Qed.

Lemma call_free_bind {A B} (m : M A) (f : A → M B) :
  call_free m → (∀ a, call_free (f a)) → call_free (bind m f).
Proof.
  intros Hm Hf w. unfold bind. destruct (Hm w) as (e1 & T1 & F1).
  destruct (m w) as [[a|e] w']; simpl in *; [|by exists e1].
  destruct (Hf a w') as (e2 & T2 & F2). exists (e1 ++ e2).
  rewrite T2, T1, app_assoc. split; [done|]. by apply Forall_app.
Qed.

Lemma call_free_for_each {S} l (body : Z → S → M S) s :
  (∀ i s, call_free (body i s)) → call_free (for_each l body s).
Proof.
  intros Hb. revert s. induction l as [|i l IH]; intros s; simpl.
  - apply call_free_ret.
  - apply call_free_bind; [apply Hb|apply IH].
Qed.

Lemma call_free_read_only {A} (m : M A) : read_only m → call_free m.
Proof.
  intros Hm w. destruct (Hm w) as [_ (evs & T & F)]. exists evs.
  split; [done|]. eapply Forall_impl; [done|].
  intros ev Hl Hc. by destruct ev.
Qed.

Lemma call_free_alloc b : call_free (alloc b).
Proof. intros w. eexists [_]. split; [done|]. repeat constructor. by intros []. Qed.

Lemma call_free_update a f : call_free (update a f).
Proof.
  intros w. unfold update. destruct (heap w !! a) as [b|].
  - destruct (f b).
    + eexists [_]. split; [done|]. repeat constructor. by intros [].
    + exists []. by rewrite app_nil_r.
  - exists []. by rewrite app_nil_r.
Qed.

Lemma call_free_create_pointer_data sample :
  call_free (create_pointer_data sample).
Proof.
  unfold create_pointer_data, store_data, store_float, store_pointer.
  repeat first
    [ apply call_free_ret
    | apply call_free_alloc
    | apply call_free_update
    | apply call_free_read_only; first [apply read_only_getitem|apply read_only_load_data]
    | apply call_free_bind; [|intros ?]
    | apply call_free_for_each; intros ? ? ].
Qed.

Lemma call_free_arguments i : call_free (arguments i).
Proof.
  destruct i; simpl;
    repeat first
      [ apply call_free_ret
      | apply call_free_create_pointer_data
      | apply call_free_bind; [|intros ?] ].
Qed.

Lemma read_only_decoder f result : read_only (decoder f result).
Proof.
  destruct f; simpl; (apply read_only_bind; [|intros; apply read_only_ret]).
  - apply read_only_extract_clusters.
  - apply read_only_extract_dynamics.
Qed.

Ltac invert_run :=
  repeat match goal with
    | H : bind _ _ _ = (Ok _, _) |- _ =>
        apply bind_ok_inv in H as (? & ? & ? & H)
    | H : ret _ _ = (Ok _, _) |- _ => injection H as <- <-
    end.

Ltac step_run :=
  repeat (erewrite bind_ok; [|eassumption]).

(** An entry point whose decoding returns leaves the world its call of
    the release function leaves. *)
Lemma run_world ccore i w args w1 result w2 v w3 :
  arguments i w = (Ok args, w1) →
  ccall ccore (entry_point i) args w1 = (Ok result, w2) →
  decoder (result_family i) result w2 = (Ok v, w3) →
  (run ccore i w).2
  = (ccall ccore (release_point (result_family i)) [ArgInt result] w3).2.
Proof.
  intros H1 H2 H3.
  destruct i; simpl in *; invert_run;
    unfold dbscan, cure, hierarchical, kmeans, rock, xmeans,
      simulate_sync_network, simulate_dynamic_sync_network,
      allocate_sync_ensembles_sync_network, process_syncnet,
      get_clusters_syncnet, process_hsyncnet;
    step_run; unfold bind; rewrite !ccall_run; simpl; try done.
  (* dbscan *)
  match goal with
  | |- context [getitem ?l ?i ?w0] =>
      pose proof (getitem_world l i w0) as Hg;
      destruct (getitem l i w0) as [[noise|?] ?]; simpl in *; subst; [|done]
  end.
  match goal with
  | |- context [remove ?l ?x ?w0] =>
      pose proof (remove_world l x w0) as Hr;
      destruct (remove l x w0) as [[?|?] ?]; simpl in *; subst; [|done]
  end.
  by destruct return_noise.
Qed.

Lemma events_since_app w w' evs :
  trace w' = trace w ++ evs → events_since w w' = evs.
Proof. intros E. unfold events_since. by rewrite E, drop_app_length. Qed.

Lemma no_release result evs :
  Forall (λ ev, is_release result ev = false) evs →
  filter (λ ev, is_release result ev = true) evs = [].
Proof.
  induction 1 as [|ev evs Hev _ IH]; [done|].
  rewrite filter_cons_False by (by rewrite Hev). done.
Qed.

Lemma is_release_entry_point result i args ret :
  is_release result (EvCall (entry_point i) args ret) = false.
Proof.
  destruct args as [|[] []]; try done. simpl.
  apply andb_false_intro2. by destruct i.
Qed.

Lemma is_release_release_point result f ret :
  is_release result (EvCall (release_point f) [ArgInt result] ret) = true.
Proof. simpl. rewrite bool_decide_eq_true_2 by done. by destruct f. Qed.

(** C2, as the code has it. Of the entry points that decode a clustering
    result, [dbscan] alone splits the last group out: when the decoded
    list is not empty and its last group equals no earlier group,
    [dbscan] returns the groups before the last as the clusters, together
    with the last group as noise when [return_noise] is set and without
    it otherwise. Every other entry point ([cure], [hierarchical],
    [kmeans], [rock], [xmeans] and the two accessors of a network)
    returns the decoded list whole, last group included. *)
Theorem noise_split_in_dbscan_only ccore i w args w1 result w2 groups w3 :
  arguments i w = (Ok args, w1) →
  ccall ccore (entry_point i) args w1 = (Ok result, w2) →
  extract_clusters result w2 = (Ok groups, w3) →
  result_family i = FClusters →
  match i with
  | CallDbscan _ _ _ return_noise =>
      ∀ init noise, groups = init ++ [noise] → noise ∉ init →
        (run ccore i w).1
        = Ok (if return_noise then RClustersNoise init noise
              else RClusters init)
  | _ => (run ccore i w).1 = Ok (RClusters groups)
  end.
Proof.
  intros H1 H2 H3 Hf.
  destruct i; simpl in *; try discriminate; invert_run;
    unfold dbscan, cure, hierarchical, kmeans, rock, xmeans,
      allocate_sync_ensembles_sync_network, get_clusters_syncnet;
    step_run; unfold bind; rewrite !ccall_run; simpl; try done.
  intros init noise -> Hn.
  replace (len (init ++ [noise]) - 1) with (Z.of_nat (length init))
    by (unfold len; rewrite length_app; simpl; lia).
  rewrite (getitem_run (init ++ [noise]) (length init) noise)
    by (by apply lookup_snoc_length).
  rewrite (remove_last _ _ _ Hn). by destruct return_noise.
Qed.

Lemma noise_split_in_dbscan_only_witness :
  (run example_ccore (CallDbscan example_sample 0.5 3 true) empty_world).1
  = Ok (RClustersNoise [[0; 2; 4]] [1; 3]) ∧
  (run example_ccore (CallDbscan example_sample 0.5 3 false) empty_world).1
  = Ok (RClusters [[0; 2; 4]]).
Proof.
  split.
  - apply (noise_split_in_dbscan_only example_ccore
             (CallDbscan example_sample 0.5 3 true) empty_world
             [ArgPointer 1; ArgDouble 0.5; ArgUInt 3]
             (create_pointer_data example_sample empty_world).2
             200
             (ccall example_ccore "dbscan_algorithm"
                [ArgPointer 1; ArgDouble 0.5; ArgUInt 3]
                (create_pointer_data example_sample empty_world).2).2
             [[0; 2; 4]; [1; 3]]
             (extract_clusters 200
                (ccall example_ccore "dbscan_algorithm"
                   [ArgPointer 1; ArgDouble 0.5; ArgUInt 3]
                   (create_pointer_data example_sample empty_world).2).2).2
             ltac:(vm_compute; reflexivity) ltac:(vm_compute; reflexivity)
             ltac:(vm_compute; reflexivity) eq_refl
             [[0; 2; 4]] [1; 3] eq_refl).
    refine (bool_decide_unpack _ _). vm_compute. exact I.
  - apply (noise_split_in_dbscan_only example_ccore
             (CallDbscan example_sample 0.5 3 false) empty_world
             [ArgPointer 1; ArgDouble 0.5; ArgUInt 3]
             (create_pointer_data example_sample empty_world).2
             200
             (ccall example_ccore "dbscan_algorithm"
                [ArgPointer 1; ArgDouble 0.5; ArgUInt 3]
                (create_pointer_data example_sample empty_world).2).2
             [[0; 2; 4]; [1; 3]]
             (extract_clusters 200
                (ccall example_ccore "dbscan_algorithm"
                   [ArgPointer 1; ArgDouble 0.5; ArgUInt 3]
                   (create_pointer_data example_sample empty_world).2).2).2
             ltac:(vm_compute; reflexivity) ltac:(vm_compute; reflexivity)
             ltac:(vm_compute; reflexivity) eq_refl
             [[0; 2; 4]] [1; 3] eq_refl).
    refine (bool_decide_unpack _ _). vm_compute. exact I.
Defined.

(** C2 as stated fails: the library's answer decodes to the two groups
    [0,2,4] and [1,3], and [kmeans] and [hierarchical] return both; the
    last group is not split out. *)
Lemma kmeans_keeps_last_group :
  (kmeans example_ccore example_sample [[1.0; 2.0]]%float 0.5 empty_world).1
  = Ok (RClusters [[0; 2; 4]; [1; 3]]) ∧
  (kmeans example_ccore example_sample [[1.0; 2.0]]%float 0.5 empty_world).1
  ≠ Ok (RClusters [[0; 2; 4]]) ∧
  (hierarchical example_ccore example_sample 2 empty_world).1
  = Ok (RClusters [[0; 2; 4]; [1; 3]]) ∧
  (hierarchical example_ccore example_sample 2 empty_world).1
  ≠ Ok (RClusters [[0; 2; 4]]).
Proof.
  assert (Ek : (kmeans example_ccore example_sample [[1.0; 2.0]]%float 0.5
                  empty_world).1
               = Ok (RClusters [[0; 2; 4]; [1; 3]]))
    by (vm_compute; reflexivity).
  assert (Eh : (hierarchical example_ccore example_sample 2 empty_world).1
               = Ok (RClusters [[0; 2; 4]; [1; 3]]))
    by (vm_compute; reflexivity).
  rewrite Ek, Eh. repeat split; discriminate.
Qed.

(** C9, as the code has it. The three decoders only read: whatever the
    world and whatever their outcome, they leave memory as it was and
    record nothing but loads. In every entry point that decodes a
    clustering or a dynamic result, once the decoding of the result has
    returned, the release function of the result's kind is called on it,
    after the last read of the decoding and exactly once in the whole
    run. The accessors of a self-organized map decode a package and call
    no release function: the call of the accessor is the only call they
    make. *)
Theorem release_after_decoding ccore codes recursion_limit :
  (∀ a, read_only (extract_clusters a)) ∧
  (∀ a, read_only (extract_dynamics a)) ∧
  (∀ depth h, read_only (extract_pyclustering_package codes depth h)) ∧
  (∀ i w args w1 result w2 v w3,
     arguments i w = (Ok args, w1) →
     ccall ccore (entry_point i) args w1 = (Ok result, w2) →
     decoder (result_family i) result w2 = (Ok v, w3) →
     ∃ loads r,
       events_since w2 (run ccore i w).2
       = loads ++ [EvCall (release_point (result_family i))
                     [ArgInt result] r] ∧
       Forall is_load loads ∧
       length (filter (λ ev, is_release result ev = true)
                 (events_since w (run ccore i w).2)) = 1%nat) ∧
  (∀ name som_pointer w,
     ∃ package loads,
       events_since w
         (som_get ccore codes recursion_limit name som_pointer w).2
       = EvCall name [ArgInt som_pointer] package :: loads ∧
       Forall is_load loads).
Proof.
  split; [apply read_only_extract_clusters|].
  split; [apply read_only_extract_dynamics|].
  split; [apply read_only_extract_pyclustering_package|].
  split.
  - intros i w args w1 result w2 v w3 H1 H2 H3.
    rewrite (run_world _ _ _ _ _ _ _ _ _ H1 H2 H3), ccall_run. cbn [snd].
    destruct (call_free_arguments i w) as (e1 & T1 & F1).
    rewrite H1 in T1. cbn [snd] in T1.
    pose proof H2 as H2'. rewrite ccall_run in H2'.
    injection H2' as Hres Hw2.
    destruct (read_only_decoder (result_family i) result w2)
      as [_ (loads & T3 & F3)].
    rewrite H3 in T3. cbn [snd] in T3.
    exists loads. eexists. split; [|split; [done|]].
    + apply events_since_app. cbn [trace]. rewrite T3. by rewrite <- app_assoc.
    + erewrite events_since_app; last first.
      { cbn [trace]. rewrite T3, <- Hw2. cbn [trace]. rewrite T1.
        rewrite <- !app_assoc. reflexivity. }
      rewrite !filter_app. rewrite Hres.
      rewrite (no_release result e1); last first.
      { eapply Forall_impl; [done|]. intros [] Hc; try done; by destruct Hc. }
      rewrite (no_release result [_]); last first.
      { constructor; [apply is_release_entry_point|constructor]. }
      rewrite (no_release result loads); last first.
      { eapply Forall_impl; [done|]. by intros []. }
      rewrite filter_cons_True by apply is_release_release_point.
      done.
  - intros name som_pointer w. unfold som_get, bind. rewrite ccall_run.
    match goal with
    | |- context [extract_pyclustering_package ?c ?d ?h ?w0] =>
        destruct (read_only_extract_pyclustering_package c d h w0)
          as [_ (loads & T & F)];
        destruct (extract_pyclustering_package c d h w0) as [[l|e] w']
    end; cbn [snd trace] in *.
    + eexists _, loads. split; [|done]. apply events_since_app.
      unfold ret. cbn [snd]. rewrite T. cbn [trace].
      by rewrite <- app_assoc.
    + eexists _, loads. split; [|done]. apply events_since_app.
      cbn [snd]. rewrite T. cbn [trace]. by rewrite <- app_assoc.
Qed.

Lemma release_after_decoding_witness :
  ∃ loads r,
    events_since
      (ccall example_ccore "hierarchical_algorithm"
         [ArgPointer 1; ArgUInt 2]
         (create_pointer_data example_sample empty_world).2).2
      (run example_ccore (CallHierarchical example_sample 2) empty_world).2
    = loads ++ [EvCall "free_clustering_result" [ArgInt 200] r] ∧
    Forall is_load loads ∧
    length (filter (λ ev, is_release 200 ev = true)
              (events_since empty_world
                 (run example_ccore (CallHierarchical example_sample 2)
                    empty_world).2)) = 1%nat.
Proof.
  destruct (release_after_decoding example_ccore example_codes 5)
    as (_ & _ & _ & Hrun & _).
  apply (Hrun (CallHierarchical example_sample 2) empty_world
           [ArgPointer 1; ArgUInt 2]
           (create_pointer_data example_sample empty_world).2
           200
           (ccall example_ccore "hierarchical_algorithm"
              [ArgPointer 1; ArgUInt 2]
              (create_pointer_data example_sample empty_world).2).2
           (DClusters [[0; 2; 4]; [1; 3]])
           (extract_clusters 200
              (ccall example_ccore "hierarchical_algorithm"
                 [ArgPointer 1; ArgUInt 2]
                 (create_pointer_data example_sample empty_world).2).2).2);
    vm_compute; reflexivity.
Defined.

(** C9 as stated fails: [som_get_weights] decodes the package the
    library returns, here at address 100, to its value, and returns
    without any call on that package: nothing releases it. *)
Lemma som_get_weights_never_releases :
  (som_get_weights example_ccore example_codes 5 7 empty_world).1
  = Ok (RPackage [ PyList [PyInt 1; PyInt 2; PyInt 3];
                   PyList [PyList [PyInt 4]; PyList [PyInt 5; PyInt 6]] ]) ∧
  head (trace (som_get_weights example_ccore example_codes 5 7 empty_world).2)
  = Some (EvCall "som_get_weights" [ArgInt 7] 100) ∧
  Forall (λ ev, ∀ name ret, ev ≠ EvCall name [ArgInt 100] ret)
    (trace (som_get_weights example_ccore example_codes 5 7 empty_world).2).
Proof.
  split; [vm_compute; reflexivity|]. split; [vm_compute; reflexivity|].
  set (t := trace _). vm_compute in t. subst t.
  repeat constructor; by intros ? ?.
Qed.

(** * More on the entry points *)

Ltac unfold_entry_points :=
  unfold dbscan, cure, hierarchical, kmeans, rock, xmeans,
    simulate_sync_network, simulate_dynamic_sync_network,
    allocate_sync_ensembles_sync_network, process_syncnet,
    get_clusters_syncnet, process_hsyncnet.

Ltac invert_raise :=
  repeat match goal with
    | H : bind _ _ _ = (Raise _, _) |- _ =>
        apply bind_raise_inv in H as [H|(? & ? & ? & H)]
    | H : ret _ _ = (Raise _, _) |- _ => discriminate H
    end.

(** X1. An entry point whose input cannot be encoded raises what the
    encoder raises and leaves the world the encoder leaves: the library
    is not called. *)
Theorem run_input_error ccore i w e w1 :
  arguments i w = (Raise e, w1) →
  run ccore i w = (Raise e, w1) ∧
  Forall (λ ev, ¬ is_call ev) (events_since w w1).
Proof.
  intros H. split.
  - destruct i; simpl in *; unfold_entry_points; invert_raise;
      repeat first [ erewrite bind_ok; [|eassumption]
                   | erewrite bind_raise; [|eassumption] ];
      reflexivity.
  - destruct (call_free_arguments i w) as (evs & T & F).
    rewrite H in T. cbn [snd] in T. by rewrite (events_since_app _ _ _ T).
Qed.

Lemma run_input_error_witness :
  run example_ccore (CallKmeans example_sample [] 0.5) empty_world
  = (Raise IndexError,
     (arguments (CallKmeans example_sample [] 0.5) empty_world).2) ∧
  Forall (λ ev, ¬ is_call ev)
    (events_since empty_world
       (arguments (CallKmeans example_sample [] 0.5) empty_world).2).
Proof.
  apply (run_input_error example_ccore (CallKmeans example_sample [] 0.5)
           empty_world IndexError).
  vm_compute. reflexivity.
Defined.

(** What an entry point does when its decoding raises. *)
Lemma run_decoder_raise ccore i w args w1 result w2 e w3 :
  arguments i w = (Ok args, w1) →
  ccall ccore (entry_point i) args w1 = (Ok result, w2) →
  decoder (result_family i) result w2 = (Raise e, w3) →
  run ccore i w = (Raise e, w3).
Proof.
  intros H1 H2 H3.
  destruct i; simpl in *; invert_run; invert_raise; unfold_entry_points;
    repeat first [ erewrite bind_ok; [|eassumption]
                 | erewrite bind_raise; [|eassumption] ];
    reflexivity.
Qed.

(** X2. An entry point whose decoding raises lets the exception through
    and stops there: the world is the one the decoding left, in which
    the result has been read and no release function called. *)
Theorem run_decoding_error ccore i w args w1 result w2 e w3 :
  arguments i w = (Ok args, w1) →
  ccall ccore (entry_point i) args w1 = (Ok result, w2) →
  decoder (result_family i) result w2 = (Raise e, w3) →
  run ccore i w = (Raise e, w3) ∧
  Forall is_load (events_since w2 w3) ∧
  filter (λ ev, is_release result ev = true) (events_since w w3) = [].
Proof.
  intros H1 H2 H3. split; [|split].
  - by eapply run_decoder_raise.
  - destruct (read_only_decoder (result_family i) result w2)
      as [_ (loads & T & F)].
    rewrite H3 in T. cbn [snd] in T. by rewrite (events_since_app _ _ _ T).
  - destruct (call_free_arguments i w) as (e1 & T1 & F1).
    rewrite H1 in T1. cbn [snd] in T1.
    pose proof H2 as H2'. rewrite ccall_run in H2'.
    injection H2' as Hres Hw2.
    destruct (read_only_decoder (result_family i) result w2)
      as [_ (loads & T3 & F3)].
    rewrite H3 in T3. cbn [snd] in T3.
    erewrite events_since_app; last first.
    { rewrite T3, <- Hw2. cbn [trace]. rewrite T1.
      rewrite <- !app_assoc. reflexivity. }
    rewrite !filter_app.
    rewrite (no_release result e1); last first.
    { eapply Forall_impl; [done|]. intros [] Hc; try done; by destruct Hc. }
    rewrite (no_release result [_]); last first.
    { constructor; [apply is_release_entry_point|constructor]. }
    rewrite (no_release result loads); [done|].
    eapply Forall_impl; [done|]. by intros [].
Qed.

Lemma run_decoding_error_witness :
  (run (answering_ccore 0 ∅) (CallHierarchical example_sample 2)
     empty_world).1 = Raise ValueError ∧
  filter (λ ev, is_release 0 ev = true)
    (trace (run (answering_ccore 0 ∅) (CallHierarchical example_sample 2)
              empty_world).2) = [].
Proof.
  destruct (run_decoding_error (answering_ccore 0 ∅)
              (CallHierarchical example_sample 2) empty_world
              [ArgPointer 1; ArgUInt 2]
              (create_pointer_data example_sample empty_world).2
              0
              (ccall (answering_ccore 0 ∅) "hierarchical_algorithm"
                 [ArgPointer 1; ArgUInt 2]
                 (create_pointer_data example_sample empty_world).2).2
              ValueError
              (ccall (answering_ccore 0 ∅) "hierarchical_algorithm"
                 [ArgPointer 1; ArgUInt 2]
                 (create_pointer_data example_sample empty_world).2).2
              ltac:(vm_compute; reflexivity) ltac:(vm_compute; reflexivity)
              ltac:(vm_compute; reflexivity)) as (E & _ & Hrel).
  rewrite E. split; [reflexivity|]. exact Hrel.
Defined.

Lemma getitem_empty {A} i w : getitem (@nil A) i w = (Raise IndexError, w).
Proof.
  unfold getitem. simpl. by repeat case_decide.
Qed.

(** X3. When the library's result decodes to no group at all, [dbscan]
    raises IndexError, and does so after it has released the result. *)
Theorem dbscan_no_group ccore sample eps min_neighbors return_noise
    w pointer_data w1 result w2 w3 :
  create_pointer_data sample w = (Ok pointer_data, w1) →
  ccall ccore "dbscan_algorithm"
    [ArgPointer pointer_data; ArgDouble eps; c_uint_value min_neighbors] w1
  = (Ok result, w2) →
  extract_clusters result w2 = (Ok [], w3) →
  dbscan ccore sample eps min_neighbors return_noise w
  = (Raise IndexError,
     (ccall ccore "free_clustering_result" [ArgInt result] w3).2).
Proof.
  intros H1 H2 H3. unfold dbscan. step_run. unfold bind at 1.
  rewrite ccall_run. cbn [snd]. unfold bind. by rewrite getitem_empty.
Qed.

Lemma dbscan_no_group_witness :
  (dbscan (answering_ccore 200 no_group_heap) example_sample 0.5 3 true
     empty_world).1 = Raise IndexError ∧
  last (trace (dbscan (answering_ccore 200 no_group_heap) example_sample
                 0.5 3 true empty_world).2)
  = Some (EvCall "free_clustering_result" [ArgInt 200] 0).
Proof.
  rewrite (dbscan_no_group (answering_ccore 200 no_group_heap) example_sample
             0.5 3 true empty_world 1
             (create_pointer_data example_sample empty_world).2
             200
             (ccall (answering_ccore 200 no_group_heap) "dbscan_algorithm"
                [ArgPointer 1; ArgDouble 0.5; ArgUInt 3]
                (create_pointer_data example_sample empty_world).2).2
             (extract_clusters 200
                (ccall (answering_ccore 200 no_group_heap) "dbscan_algorithm"
                   [ArgPointer 1; ArgDouble 0.5; ArgUInt 3]
                   (create_pointer_data example_sample empty_world).2).2).2
             ltac:(vm_compute; reflexivity) ltac:(vm_compute; reflexivity)
             ltac:(vm_compute; reflexivity)).
  split; [reflexivity|]. vm_compute. reflexivity.
Defined.

Lemma remove_first pre x rest w :
  x ∉ pre → remove (pre ++ x :: rest) x w = (Ok (pre ++ rest), w).
Proof.
  induction pre as [|y pre IH]; intros Hn; simpl.
  - by rewrite decide_True.
  - apply not_elem_of_cons in Hn as [Hy Hn]. rewrite decide_False by done.
    by rewrite (bind_ok _ _ _ _ _ (IH Hn)).
Qed.

(** X4. [dbscan] takes the last group as the noise and then removes from
    the list the first group equal to it: when an earlier group equals
    the last one, it is the earlier group that goes, and the last group
    stays among the clusters [dbscan] returns. *)
Theorem dbscan_repeated_group ccore sample eps min_neighbors return_noise
    w pointer_data w1 result w2 pre noise mid w3 :
  create_pointer_data sample w = (Ok pointer_data, w1) →
  ccall ccore "dbscan_algorithm"
    [ArgPointer pointer_data; ArgDouble eps; c_uint_value min_neighbors] w1
  = (Ok result, w2) →
  extract_clusters result w2 = (Ok (pre ++ noise :: mid ++ [noise]), w3) →
  noise ∉ pre →
  (dbscan ccore sample eps min_neighbors return_noise w).1
  = Ok (if return_noise then RClustersNoise (pre ++ mid ++ [noise]) noise
        else RClusters (pre ++ mid ++ [noise])).
Proof.
  intros H1 H2 H3 Hn. unfold dbscan. step_run. unfold bind at 1.
  rewrite ccall_run. cbn [snd].
  set (l := pre ++ noise :: mid ++ [noise]).
  assert (Hl : l = (pre ++ noise :: mid) ++ [noise]).
  { unfold l. by rewrite <- app_assoc. }
  replace (len l - 1) with (Z.of_nat (length (pre ++ noise :: mid)))
    by (rewrite Hl; unfold len; rewrite (length_app _ [noise]); simpl; lia).
  rewrite (bind_ok _ _ _ _ _
             (getitem_run l (length (pre ++ noise :: mid)) noise _
                ltac:(rewrite Hl; by apply lookup_snoc_length))).
  unfold l. rewrite (bind_ok _ _ _ _ _ (remove_first _ _ _ _ Hn)).
  by destruct return_noise.
Qed.

Lemma dbscan_repeated_group_witness :
  (dbscan (answering_ccore 200 repeated_group_heap) example_sample 0.5 3 true
     empty_world).1
  = Ok (RClustersNoise [[0; 1; 2]; []] []).
Proof.
  apply (dbscan_repeated_group (answering_ccore 200 repeated_group_heap)
           example_sample 0.5 3 true empty_world 1
           (create_pointer_data example_sample empty_world).2
           200
           (ccall (answering_ccore 200 repeated_group_heap) "dbscan_algorithm"
              [ArgPointer 1; ArgDouble 0.5; ArgUInt 3]
              (create_pointer_data example_sample empty_world).2).2
           [] [] [[0; 1; 2]]
           (extract_clusters 200
              (ccall (answering_ccore 200 repeated_group_heap)
                 "dbscan_algorithm"
                 [ArgPointer 1; ArgDouble 0.5; ArgUInt 3]
                 (create_pointer_data example_sample empty_world).2).2).2
           ltac:(vm_compute; reflexivity) ltac:(vm_compute; reflexivity)
           ltac:(vm_compute; reflexivity)).
  apply not_elem_of_nil.
Defined.

(** What an entry point other than [dbscan] returns when its decoding
    returns. *)
Lemma run_not_dbscan ccore i w args w1 result w2 v w3 :
  arguments i w = (Ok args, w1) →
  ccall ccore (entry_point i) args w1 = (Ok result, w2) →
  decoder (result_family i) result w2 = (Ok v, w3) →
  match i with CallDbscan _ _ _ _ => False | _ => True end →
  (run ccore i w).1
  = Ok match v with
       | DClusters l => RClusters l
       | DDynamics d => RDynamics d.1 d.2
       end.
Proof.
  intros H1 H2 H3 Hi.
  destruct i; try done; simpl in *; invert_run; unfold_entry_points;
    step_run; unfold bind; rewrite !ccall_run; reflexivity.
Qed.

(** X5. End to end: every entry point other than [dbscan] returns what
    the library has laid out in memory when its call returns: the groups
    of a clustering result, in order, or the timestamps and the rows of
    a dynamic result. *)
Theorem run_returns_stored ccore i w args w1 result w2 :
  arguments i w = (Ok args, w1) →
  ccall ccore (entry_point i) args w1 = (Ok result, w2) →
  match i with CallDbscan _ _ _ _ => False | _ => True end →
  (∀ g groups,
     result_family i = FClusters →
     clusters_stored (heap w2) result g groups →
     (run ccore i w).1 = Ok (RClusters groups)) ∧
  (∀ n m times dynamic,
     result_family i = FDynamics →
     dynamics_stored (heap w2) result n m times dynamic →
     (run ccore i w).1 = Ok (RDynamics times dynamic)).
Proof.
  intros H1 H2 Hi. split.
  - intros g groups Hf Hst.
    destruct (extract_clusters_stored _ _ _ _ Hst w2 eq_refl) as [E _].
    rewrite (run_not_dbscan ccore i w args w1 result w2 (DClusters groups)
               (extract_clusters result w2).2 H1 H2); [done| |done].
    rewrite Hf. simpl. unfold bind.
    destruct (extract_clusters result w2) as [o w3]. simpl in E. by subst o.
  - intros n m times dynamic Hf Hst.
    destruct (extract_dynamics_stored _ _ _ _ _ _ Hst w2 eq_refl) as [E _].
    rewrite (run_not_dbscan ccore i w args w1 result w2
               (DDynamics (times, dynamic))
               (extract_dynamics result w2).2 H1 H2); [done| |done].
    rewrite Hf. simpl. unfold bind.
    destruct (extract_dynamics result w2) as [o w3]. simpl in E. by subst o.
Qed.

Lemma three_steps_stored :
  dynamics_stored three_steps_heap 300 3 2 [0.0; 0.1; 0.2]%float
    [[0.5; 0.5]; [0.6; 0.4]; [0.7; 0.3]]%float.
Proof.
  split; [lia|]. exists 301, 302, [310; 320; 330].
  split; [reflexivity|]. split; [reflexivity|]. split.
  - repeat (constructor;
      [split; [reflexivity|intros _; split; [lia|by exists []]]|]).
    constructor.
  - split; [reflexivity|]. intros _. split; (split; [lia|by exists []]).
Defined.

Lemma run_returns_stored_witness :
  (run (answering_ccore 300 three_steps_heap)
     (CallProcessSyncnet 7 0.5 1 true) (World ∅ [])).1
  = Ok (RDynamics [0.0; 0.1; 0.2]%float
          [[0.5; 0.5]; [0.6; 0.4]; [0.7; 0.3]]%float).
Proof.
  destruct (run_returns_stored (answering_ccore 300 three_steps_heap)
              (CallProcessSyncnet 7 0.5 1 true) (World ∅ [])
              [ArgInt 7; ArgDouble 0.5; ArgUInt 1; ArgBool true]
              (World ∅ [])
              300
              (World (three_steps_heap ∪ ∅)
                 [EvCall "process_syncnet"
                    [ArgInt 7; ArgDouble 0.5; ArgUInt 1; ArgBool true] 300])
              ltac:(vm_compute; reflexivity) ltac:(vm_compute; reflexivity) I)
    as [_ Hdyn].
  apply (Hdyn 3 2); [reflexivity|].
  cbn [heap]. rewrite (right_id_L ∅ (∪)). exact three_steps_stored.
Defined.

(** X6. An accessor of a self-organized map returns the empty list when
    the library returns the null handle, and otherwise the value of the
    package the library has laid out, when the recursion limit covers
    its depth. *)
Theorem som_get_returns ccore codes recursion_limit name som_pointer w :
  ((ccore name [ArgInt som_pointer] (heap w)).1 = 0 →
   (som_get ccore codes recursion_limit name som_pointer w).1
   = Ok (RPackage [])) ∧
  (∀ p,
     NoDup (recognized_codes codes) →
     package_stored codes (ccore name [ArgInt som_pointer] (heap w)).2 p
       (ccore name [ArgInt som_pointer] (heap w)).1 →
     (package_depth p ≤ recursion_limit)%nat →
     (som_get ccore codes recursion_limit name som_pointer w).1
     = Ok (RPackage (decoded_package p))).
Proof.
  split.
  - intros H0. unfold som_get, bind. rewrite ccall_run, H0.
    by destruct recursion_limit.
  - intros p Hnd Hst Hdepth. unfold som_get, bind. rewrite ccall_run.
    match goal with
    | |- context [extract_pyclustering_package ?c ?d ?h ?w0] =>
        destruct (extract_stored codes _ Hnd d p h Hdepth Hst w0 eq_refl)
          as [E _];
        destruct (extract_pyclustering_package c d h w0) as [o w']
    end.
    simpl in E. by subst o.
Qed.

Lemma som_get_returns_witness :
  (som_get_weights (answering_ccore 0 ∅) example_codes 5 7 empty_world).1
  = Ok (RPackage []) ∧
  (som_get_weights (answering_ccore 100 nested_heap) example_codes 5 7
     empty_world).1
  = Ok (RPackage [ PyList [PyInt 1; PyInt 2; PyInt 3];
                   PyList [PyList [PyInt 4]; PyList [PyInt 5; PyInt 6]] ]).
Proof.
  split.
  - apply (som_get_returns (answering_ccore 0 ∅) example_codes 5
             "som_get_weights" 7 empty_world).
    reflexivity.
  - destruct (som_get_returns (answering_ccore 100 nested_heap) example_codes
                5 "som_get_weights" 7 empty_world) as [_ Hst].
    apply (Hst nested_package).
    + exact example_codes_distinct.
    + change (package_stored example_codes (nested_heap ∪ ∅) nested_package
                100).
      rewrite (right_id_L ∅ (∪)). exact nested_package_stored.
    + vm_compute. lia.
Defined.

Lemma create_pointer_data_empty w :
  ∃ w1, create_pointer_data [] w = (Raise IndexError, w1).
Proof.
  unfold create_pointer_data.
  rewrite (bind_ok _ _ _ _ _ (alloc_run _ _)).
  erewrite bind_ok; [|apply store_data_run; cbn [heap];
                      by rewrite lookup_insert_eq].
  by eexists.
Qed.

(** X7. The constructors that take a data set ([create_syncnet_network],
    [create_hsyncnet], [som_create]) encode it first. On the empty data
    set they raise IndexError and call nothing. On a data set none of
    whose rows is shorter than the first, they make their call on the
    world the encoder leaves, with the address of the encoded set as the
    first argument, and return what the library returns. *)
Theorem construct_encodes_first ccore c w :
  match constructed_from c with
  | [] =>
      ∃ w1, construct ccore c w = (Raise IndexError, w1) ∧
            Forall (λ ev, ¬ is_call ev) (events_since w w1)
  | first :: rest =>
      Forall (λ row, (length first ≤ length row)%nat) rest →
      ∃ p w1,
        create_pointer_data (first :: rest) w = (Ok p, w1) ∧
        point_set_stored (heap w1) p (len (first :: rest)) (len first)
          (take (length first) <$> first :: rest) ∧
        construct ccore c w
        = ccall ccore (constructor_name c)
            (ArgPointer p :: constructor_scalars c) w1
  end.
Proof.
  destruct (constructed_from c) as [|first rest] eqn:Hc.
  - destruct (create_pointer_data_empty w) as [w1 E]. exists w1. split.
    + destruct c; simpl in Hc; subst; simpl;
        unfold create_syncnet_network, create_hsyncnet, som_create;
        by rewrite (bind_raise _ _ _ _ _ E).
    + destruct (call_free_create_pointer_data [] w) as (evs & T & F).
      rewrite E in T. cbn [snd] in T. by rewrite (events_since_app _ _ _ T).
  - intros Hrows.
    destruct (create_pointer_data_ok first rest w Hrows)
      as (p & w1 & E & Hst & _).
    exists p, w1. split; [done|]. split; [done|].
    destruct c; simpl in Hc; subst; simpl;
      unfold create_syncnet_network, create_hsyncnet, som_create;
      rewrite (bind_ok _ _ _ _ _ E); unfold bind; rewrite !ccall_run;
      reflexivity.
Qed.

Lemma construct_encodes_first_witness :
  (∃ w1, construct example_ccore (CallSomCreate [] 1 3 100 0 3) empty_world
         = (Raise IndexError, w1) ∧
         Forall (λ ev, ¬ is_call ev) (events_since empty_world w1)) ∧
  ∃ p w1,
    create_pointer_data example_sample empty_world = (Ok p, w1) ∧
    point_set_stored (heap w1) p 3 2 example_sample ∧
    construct example_ccore (CallCreateHsyncnet example_sample 2 1) empty_world
    = ccall example_ccore "create_hsyncnet"
        [ArgPointer p; ArgUInt 2; ArgUInt 1] w1.
Proof.
  split.
  - exact (construct_encodes_first example_ccore
             (CallSomCreate [] 1 3 100 0 3) empty_world).
  - apply (construct_encodes_first example_ccore
             (CallCreateHsyncnet example_sample 2 1) empty_world).
    repeat constructor.
Defined.

Lemma yields_load_null h : yields h (load 0) (Raise ValueError).
Proof. intros w _. split; [done|apply loads_only_refl]. Qed.

(** X8. The null check of the decoder is for the integer handle alone: a
    NULL pointer among the sub-packages of a list package is not decoded
    to an empty list. Reading its header raises ValueError, which aborts
    the decoding of the list package, when the sub-packages before it
    decode. *)
Theorem extract_null_sub_package codes h depth hd size d ptrs
    (vs : list (list pyvalue)) k :
  NoDup (recognized_codes codes) →
  cast hd ≠ 0 →
  h !! cast hd
  = Some (BPackage (Package size (PYCLUSTERING_TYPE_LIST codes) d)) →
  pointers_at h d ptrs →
  ptrs !! k = Some 0 → Z.of_nat k < size → length vs = k →
  (∀ j q v, ptrs !! j = Some q → vs !! j = Some v →
     yields h (extract_pyclustering_package codes (S depth) (HPointer q))
       (Ok v)) →
  yields h (extract_pyclustering_package codes (S (S depth)) hd)
    (Raise ValueError).
Proof.
  intros Hnd Hnz Hh Hd Hk Hsize Hvs Hbefore.
  apply (extract_list_raises codes h (S depth) hd size d ptrs vs k 0);
    try done.
  simpl. unfold load_package.
  apply yields_bind_raise, yields_bind_raise, yields_load_null.
Qed.

Lemma extract_null_sub_package_witness :
  yields null_sub_package_heap
    (extract_pyclustering_package example_codes 2 (HInt 100))
    (Raise ValueError).
Proof.
  apply (extract_null_sub_package example_codes null_sub_package_heap 0%nat
           (HInt 100) 2 101 [110; 0] [[PyInt 1]] 1%nat).
  - exact example_codes_distinct.
  - simpl. lia.
  - reflexivity.
  - split; [lia|]. by exists [].
  - reflexivity.
  - lia.
  - reflexivity.
  - intros [|[|j]] q v Hq Hv; try done.
    injection Hq as <-. injection Hv as <-.
    apply (extract_stored example_codes null_sub_package_heap
             example_codes_distinct 1 (PInts c_int [1]) (HPointer 110));
      [simpl; lia|].
    simpl. split; [lia|]. split; [done|]. exists 111. split; [done|].
    intros _. split; [lia|]. by exists [].
Defined.

Lemma range0_nil n : n ≤ 0 → range0 n = [].
Proof. apply seqZ_nil. Qed.

(** X9. A package with one of the seven tags that declares no element
    decodes to the empty list, and its data pointer is not followed: it
    may be NULL or lead nowhere. *)
Theorem extract_no_element codes h p depth hd :
  cast hd ≠ 0 →
  h !! cast hd = Some (BPackage p) →
  pkg_type p ∈ recognized_codes codes →
  pkg_size p ≤ 0 →
  yields h (extract_pyclustering_package codes (S depth) hd) (Ok []).
Proof.
  intros Hnz Hh Htag Hsize. simpl. rewrite (handle_eq_zero_cast _ Hnz).
  eapply yields_bind; [by apply yields_load_package|].
  eapply yields_bind; [by apply yields_load_package|].
  rewrite (range0_nil _ Hsize).
  unfold recognized_codes in Htag. rewrite !elem_of_cons in Htag.
  repeat match goal with
    | |- context [decide (pkg_type p = ?c)] =>
        destruct (decide (pkg_type p = c))
    end;
    try (eapply yields_bind;
         [eapply yields_bind; [by apply yields_load_package|apply yields_ret]
         |cbv beta iota; case_decide; apply yields_ret]).
  repeat (destruct Htag as [Htag'|Htag]; [done|]).
  by apply elem_of_nil in Htag.
Qed.

Lemma extract_no_element_witness :
  yields no_element_heap
    (extract_pyclustering_package example_codes 1 (HInt 100)) (Ok []).
Proof.
  apply (extract_no_element example_codes no_element_heap (Package 0 3 0)
           0%nat (HInt 100)).
  - simpl. lia.
  - reflexivity.
  - refine (bool_decide_unpack _ _). vm_compute. exact I.
  - simpl. lia.
Defined.

(** X13. When the library returns the null handle, an entry point raises
    ValueError (from reading the result through a NULL pointer) in the
    world the call left: the call is the last thing recorded, and
    nothing is released. *)
Theorem run_null_result ccore i w args w1 :
  arguments i w = (Ok args, w1) →
  (ccore (entry_point i) args (heap w1)).1 = 0 →
  run ccore i w
  = (Raise ValueError,
     World (ccore (entry_point i) args (heap w1)).2
       (trace w1 ++ [EvCall (entry_point i) args 0])).
Proof.
  intros H1 H0.
  eapply (run_decoder_raise ccore i w args w1 0); [done| |].
  - rewrite ccall_run, H0. reflexivity.
  - by destruct (result_family i).
Qed.

Lemma run_null_result_witness :
  run (answering_ccore 0 ∅) (CallProcessSyncnet 7 0.5 1 true) empty_world
  = (Raise ValueError,
     World ∅ [EvCall "process_syncnet"
                [ArgInt 7; ArgDouble 0.5; ArgUInt 1; ArgBool true] 0]).
Proof.
  rewrite (run_null_result (answering_ccore 0 ∅)
             (CallProcessSyncnet 7 0.5 1 true) empty_world
             [ArgInt 7; ArgDouble 0.5; ArgUInt 1; ArgBool true] empty_world
             ltac:(reflexivity) ltac:(reflexivity)).
  vm_compute. reflexivity.
Defined.

(** * More on the encoder *)

(** One round of the outer loop, with the world it leaves. *)
Lemma encode_row_step a0 a1 (sample : list (list float)) n dim k row l w :
  a0 ≠ 0 → a1 ≠ a0 →
  heap w !! a0 = Some (BData (DataRepresentation n (Z.of_nat dim) 0)) →
  heap w !! a1 = Some (BPointers l) → (k < length l)%nat →
  sample !! k = Some row → (dim ≤ length row)%nat →
  ∃ tr',
    (d ←' load_data a0 ;;
     point ←' alloc (BFloats c_double
                       (replicate (Z.to_nat (dr_dimension d)) 0%float)) ;;
     d ←' load_data a0 ;;
     (for_each (range0 (dr_dimension d)) (λ dimension _,
        row ←' getitem sample (Z.of_nat k) ;;
        v ←' getitem row dimension ;;
        store_float point dimension v) () ;;'
     store_pointer a1 (Z.of_nat k) point)) w
    = (Ok (),
       World (<[a1 := BPointers (<[k := fresh_address (heap w)]> l)]>
                (<[fresh_address (heap w)
                   := BFloats c_double (take dim row)]> (heap w))) tr').
Proof.
  intros Hnz0 Hne Ha0 Ha1 Hk Hrow Hdim.
  set (p := fresh_address (heap w)).
  assert (Hp : heap w !! p = None) by apply fresh_address_free.
  assert (Hp0 : p ≠ a0) by (intros ->; congruence).
  assert (Hp1 : p ≠ a1) by (intros ->; congruence).
  rewrite (bind_ok _ _ _ _ _ (load_data_run _ _ _ Hnz0 Ha0)).
  cbn [dr_dimension]. rewrite Nat2Z.id.
  rewrite (bind_ok _ _ _ _ _ (alloc_run _ _)). cbn [heap log trace]. fold p.
  erewrite bind_ok; [|apply load_data_run; [done|]; cbn [heap];
                      by rewrite lookup_insert_ne].
  unfold log. cbn [dr_dimension heap trace].
  match goal with
  | |- context [bind _ _ (World _ ?tr)] =>
      destruct (fill_point_ok sample k row p dim (heap w) tr Hrow Hdim)
        as [tr' E]
  end.
  rewrite (bind_ok _ _ _ _ _ E).
  erewrite store_pointer_run; [|cbn [heap]; by rewrite lookup_insert_ne|done].
  by eexists.
Qed.

Lemma rows_laid_out_step h0 a0 a1 (sample : list (list float)) dim k row w :
  a0 ≠ 0 → a1 ≠ a0 → h0 !! a1 = None →
  rows_laid_out h0 a0 a1 sample dim k w →
  sample !! k = Some row → (dim ≤ length row)%nat →
  ∃ w',
    (d ←' load_data a0 ;;
     point ←' alloc (BFloats c_double
                       (replicate (Z.to_nat (dr_dimension d)) 0%float)) ;;
     d ←' load_data a0 ;;
     (for_each (range0 (dr_dimension d)) (λ dimension _,
        row ←' getitem sample (Z.of_nat k) ;;
        v ←' getitem row dimension ;;
        store_float point dimension v) () ;;'
     store_pointer a1 (Z.of_nat k) point)) w
    = (Ok (), w') ∧
    rows_laid_out h0 a0 a1 sample dim (S k) w'.
Proof.
  intros Hnz0 Hne Hfree1 (Ha0 & Hframe & ptrs & Hlen & Ha1 & Hnd & Hrows)
    Hrow Hdim.
  assert (Hk : (k < length sample)%nat) by by eapply lookup_lt_Some.
  destruct (encode_row_step a0 a1 sample _ dim k row _ w Hnz0 Hne Ha0 Ha1)
    as [tr' E]; [rewrite length_app, length_replicate; lia|done|done|].
  eexists. split; [exact E|].
  set (p := fresh_address (heap w)).
  assert (Hp : heap w !! p = None) by apply fresh_address_free.
  assert (Hpnz : p ≠ 0) by apply fresh_address_nonzero.
  assert (Hp0 : p ≠ a0) by (intros ->; congruence).
  assert (Hp1 : p ≠ a1) by (intros ->; congruence).
  unfold rows_laid_out. cbn [heap].
  rewrite (insert_snoc_replicate _ _ _ _ _ Hlen Hk).
  split; [|split].
  - by rewrite !lookup_insert_ne.
  - intros x Hx.
    assert (x ≠ a1) by (intros ->; rewrite Hfree1 in Hx; by destruct Hx).
    assert (x ≠ p).
    { intros ->. rewrite <- (Hframe _ Hx), Hp in Hx. by destruct Hx. }
    rewrite !lookup_insert_ne by done. by apply Hframe.
  - exists (ptrs ++ [p]). split; [rewrite length_app; simpl; lia|].
    split; [by rewrite lookup_insert_eq|]. split.
    + apply NoDup_app. split; [done|]. split; [|apply NoDup_singleton].
      intros q Hq ->%list_elem_of_singleton.
      apply list_elem_of_lookup in Hq as [j Hj].
      destruct (Forall2_lookup_l _ _ _ _ _ Hrows Hj) as (r & _ & Hq).
      destruct Hq as (_ & _ & _ & _ & Hq). congruence.
    + rewrite (take_S_r _ _ _ Hrow). apply Forall2_app.
      * eapply Forall2_impl; [done|].
        intros q r (Hq0 & Hqa0 & Hqa1 & Hq1 & Hq2).
        repeat (split; [done|]).
        assert (q ≠ p) by (intros ->; congruence).
        by rewrite !lookup_insert_ne.
      * constructor; [|constructor]. repeat (split; [done|]). split.
        -- destruct (h0 !! p) eqn:Ep; [|done].
           rewrite <- (Hframe p) in Ep by by rewrite Ep. congruence.
        -- rewrite lookup_insert_ne by done. by rewrite lookup_insert_eq.
Qed.

(** The encoded point set, with its addresses. *)
Lemma create_pointer_data_layout first rest w :
  Forall (λ row, (length first ≤ length row)%nat) rest →
  ∃ a po ptrs w',
    create_pointer_data (first :: rest) w = (Ok a, w') ∧
    heap w' !! a
    = Some (BData (DataRepresentation (len (first :: rest)) (len first) po)) ∧
    heap w' !! po = Some (BPointers ptrs) ∧
    Forall2 (λ p row, heap w' !! p
                      = Some (BFloats c_double (take (length first) row)))
      ptrs (first :: rest) ∧
    NoDup (a :: po :: ptrs) ∧
    Forall (λ x, x ≠ 0 ∧ heap w !! x = None) (a :: po :: ptrs) ∧
    keeps w w'.
Proof.
  intros Hrows.
  destruct (create_pointer_data_prefix first rest w)
    as (a0 & a1 & wL & Hnz0 & Hnz1 & Hne & H0 & H1 & HL & ->).
  set (sample := first :: rest) in *.
  assert (Hall : Forall (λ row, (length first ≤ length row)%nat) sample)
    by by constructor.
  match goal with
  | |- context [bind (for_each ?l ?body ?s) _ ?w0] =>
      destruct (for_each_invariant
                  (λ k _ w', rows_laid_out (heap w) a0 a1 sample
                               (length first) k w')
                  l body s w0) as ([] & wE & E & HE)
  end.
  - destruct HL as (Ha0 & Hframe & ptrs & Hlen & Ha1 & _).
    split; [done|]. split; [done|]. exists ptrs.
    destruct ptrs; [|done]. repeat split; try done; constructor.
  - intros k i [] w' [-> Hk]%lookup_range0 HI.
    destruct (lookup_lt_is_Some_2 sample k) as [row Hrow];
      [unfold len in Hk; lia|].
    destruct (rows_laid_out_step _ _ _ _ _ _ _ _ Hnz0 (not_eq_sym Hne) H1 HI
                Hrow) as (w'' & E & HI').
    { by eapply (Forall_lookup_1 _ _ _ _ Hall). }
    by exists (), w''.
  - rewrite (bind_ok _ _ _ _ _ E).
    rewrite length_range0 in HE. unfold len in HE. rewrite Nat2Z.id in HE.
    destruct HE as (Ha0 & Hframe & ptrs & Hlen & Ha1 & Hnd & Hptrs).
    rewrite Nat.sub_diag in Ha1. simpl in Ha1. rewrite app_nil_r in Ha1.
    rewrite take_ge in Hptrs by done.
    erewrite bind_ok; [|by apply store_data_run].
    exists a0, a1, ptrs. eexists. split; [done|].
    cbn [heap dr_number_objects dr_dimension].
    split; [by rewrite lookup_insert_eq|].
    split; [by rewrite lookup_insert_ne|].
    split; [|split; [|split]].
    + eapply Forall2_impl; [done|]. intros p row (_ & Hp0 & _ & _ & Hp).
      by rewrite lookup_insert_ne.
    + apply NoDup_cons. split.
      { rewrite not_elem_of_cons. split; [done|]. intros Hin.
        apply list_elem_of_lookup in Hin as [j Hj].
        destruct (Forall2_lookup_l _ _ _ _ _ Hptrs Hj) as (r & _ & Hq).
        by destruct Hq as (_ & Hq & _). }
      apply NoDup_cons. split; [|done]. intros Hin.
      apply list_elem_of_lookup in Hin as [j Hj].
      destruct (Forall2_lookup_l _ _ _ _ _ Hptrs Hj) as (r & _ & Hq).
      by destruct Hq as (_ & _ & Hq & _).
    + constructor; [done|]. constructor; [done|].
      apply Forall_forall. intros q Hin.
      apply list_elem_of_lookup in Hin as [j Hj].
      destruct (Forall2_lookup_l _ _ _ _ _ Hptrs Hj) as (r & _ & Hq).
      by destruct Hq as (? & _ & _ & ? & _).
    + intros x Hx. cbn [heap]. rewrite lookup_insert_ne; [by apply Hframe|].
      intros ->. rewrite H0 in Hx. by destruct Hx.
Qed.

(** ** What the encoder leaves alone *)

Lemma keeps_refl w : keeps w w.
Proof. by intros x _. Qed.

Lemma keeps_read_only {A} (m : M A) w0 w :
  read_only m → keeps w0 w → keeps w0 (m w).2.
Proof. intros Hm K x Hx. destruct (Hm w) as [-> _]. by apply K. Qed.

Lemma keeps_alloc b w0 w : keeps w0 w → keeps w0 (alloc b w).2.
Proof.
  intros K x Hx. unfold alloc. cbn [snd heap].
  rewrite lookup_insert_ne; [by apply K|].
  intros <-. rewrite <- (K _ Hx), fresh_address_free in Hx. by destruct Hx.
Qed.

Lemma alloc_unused b w0 w a :
  keeps w0 w → (alloc b w).1 = Ok a → heap w0 !! a = None.
Proof.
  intros K [= <-]. destruct (heap w0 !! _) eqn:E; [|done].
  rewrite <- (K _) in E by by rewrite E. by rewrite fresh_address_free in E.
Qed.

Lemma keeps_update a f w0 w :
  heap w0 !! a = None → keeps w0 w → keeps w0 (update a f w).2.
Proof.
  intros Ha K x Hx. unfold update.
  destruct (heap w !! a); [|by apply K]. destruct (f b); [|by apply K].
  cbn [snd heap]. rewrite lookup_insert_ne; [by apply K|].
  intros <-. rewrite Ha in Hx. by destruct Hx.
Qed.

Lemma keeps_bind {A B} (Q : A → Prop) (m : M A) (f : A → M B) w0 w :
  keeps w0 (m w).2 → (∀ a, (m w).1 = Ok a → Q a) →
  (∀ a w', Q a → keeps w0 w' → keeps w0 (f a w').2) →
  keeps w0 (bind m f w).2.
Proof.
  intros Hm HQ Hf. unfold bind. destruct (m w) as [[a|e] w']; [|done].
  apply Hf; [by apply HQ|done].
Qed.

Lemma keeps_for_each {S} l (body : Z → S → M S) s w0 w :
  (∀ i s w', keeps w0 w' → keeps w0 (body i s w').2) →
  keeps w0 w → keeps w0 (for_each l body s w).2.
Proof.
  intros Hb. revert s w. induction l as [|i l IH]; intros s w K; [done|].
  simpl. apply (keeps_bind (λ _, True)); [by apply Hb|done|].
  intros s' w' _ K'. by apply IH.
Qed.

Ltac keeps_read :=
  apply (keeps_bind (λ _, True));
  [apply keeps_read_only;
   [first [apply read_only_load_data | apply read_only_getitem]|done]
  |done|intros ? ? _ ?].

Ltac keeps_write :=
  apply (keeps_bind (λ _, True));
  [by apply keeps_update|done|intros ? ? _ ?].

(** ** X10 *)

(** X10 ([create_pointer_data]): whatever the sample, and whether the
    encoder returns or raises, every block that was in memory before the
    call is still there with the same content afterwards: the encoder
    writes only into the blocks it allocates itself. *)
Theorem create_pointer_data_confined sample w :
  keeps w (create_pointer_data sample w).2.
Proof.
  unfold create_pointer_data.
  apply (keeps_bind (λ x, heap w !! x = None)).
  { apply keeps_alloc, keeps_refl. }
  { intros ?. apply alloc_unused, keeps_refl. }
  intros header wh Hheader Kh. unfold store_data at 1 2.
  keeps_write. keeps_read. keeps_write. keeps_read.
  apply (keeps_bind (λ x, heap w !! x = None));
    [by apply keeps_alloc|intros ?; by apply alloc_unused|].
  intros array wa Harray Ka. keeps_read.
  apply (keeps_bind (λ _, True)); [|done|].
  - apply keeps_for_each; [|done]. intros i [] wi Ki. keeps_read.
    apply (keeps_bind (λ x, heap w !! x = None));
      [by apply keeps_alloc|intros ?; by apply alloc_unused|].
    intros buffer wb Hbuffer Kb. keeps_read.
    apply (keeps_bind (λ _, True)); [|done|].
    + apply keeps_for_each; [|done]. intros j [] wj Kj.
      keeps_read. keeps_read. by apply keeps_update.
    + intros [] wj _ Kj. by apply keeps_update.
  - intros [] wi _ Ki. unfold store_data. keeps_write.
    by apply keeps_read_only; [apply read_only_ret|].
Qed.

(** ** X11 *)

Lemma point_set_stored_keeps h h' a n dim rows :
  (∀ x, is_Some (h !! x) → h' !! x = h !! x) →
  point_set_stored h a n dim rows → point_set_stored h' a n dim rows.
Proof.
  intros K (po & ptrs & Ha & Hnz & Hpo & Hptrs & Hrows).
  exists po, ptrs. split; [by rewrite K by by rewrite Ha|].
  split; [done|]. split; [done|].
  split; [by rewrite K by by rewrite Hptrs|].
  eapply Forall2_impl; [done|]. intros p row [Hp Hp'].
  split; [done|]. by rewrite K by by rewrite Hp'.
Qed.

Lemma create_pointer_data_twice first rest first' rest' w :
  Forall (λ row, (length first ≤ length row)%nat) rest →
  Forall (λ row, (length first' ≤ length row)%nat) rest' →
  ∃ p1 p2 w1 w2,
    create_pointer_data (first :: rest) w = (Ok p1, w1) ∧
    create_pointer_data (first' :: rest') w1 = (Ok p2, w2) ∧
    p1 ≠ p2 ∧
    point_set_stored (heap w2) p1 (len (first :: rest)) (len first)
      (take (length first) <$> first :: rest) ∧
    point_set_stored (heap w2) p2 (len (first' :: rest')) (len first')
      (take (length first') <$> first' :: rest').
Proof.
  intros Hrows Hrows'.
  destruct (create_pointer_data_ok first rest w Hrows)
    as (p1 & w1 & E1 & S1 & _).
  destruct (create_pointer_data_ok first' rest' w1 Hrows')
    as (p2 & w2 & E2 & S2 & K2).
  destruct (create_pointer_data_layout first' rest' w1 Hrows')
    as (p2' & po & ptrs & w2' & E2' & _ & _ & _ & _ & Hfresh & _).
  rewrite E2 in E2'. injection E2' as <- <-.
  exists p1, p2, w1, w2. split; [done|]. split; [done|]. split.
  - intros <-. apply Forall_cons in Hfresh as [[_ Hnone] _].
    destruct S1 as (? & ? & Hp1 & _). congruence.
  - split; [|done]. by eapply point_set_stored_keeps.
Qed.

(** What a wrapper records from its call on: the call first. *)
Lemma call_first_event ccore name args w2 :
  ∃ later,
    events_since w2
      ((result ←' ccall ccore name args ;;
        list_of_clusters ←' extract_clusters result ;;
        (ccall ccore "free_clustering_result" [ArgInt result] ;;'
         ret (RClusters list_of_clusters))) w2).2
    = EvCall name args (ccore name args (heap w2)).1 :: later.
Proof.
  unfold bind at 1. rewrite ccall_run.
  set (result := (ccore name args (heap w2)).1).
  set (w3 := World _ _).
  destruct (read_only_extract_clusters result w3) as [_ (loads & T & _)].
  unfold bind at 1.
  destruct (extract_clusters result w3) as [[l|e] w4]; cbn [snd] in T.
  - unfold bind, ret. rewrite ccall_run. cbn [snd].
    exists (loads ++ [EvCall "free_clustering_result" [ArgInt result]
                        (ccore "free_clustering_result" [ArgInt result]
                           (heap w4)).1]).
    apply events_since_app. cbn [trace]. rewrite T.
    unfold w3. cbn [trace]. by rewrite <- !app_assoc.
  - exists loads. apply events_since_app. cbn [snd]. rewrite T.
    unfold w3. cbn [trace]. by rewrite <- !app_assoc.
Qed.

(** X11 ([kmeans], [xmeans]): with a well-shaped sample and well-shaped
    initial centers, [kmeans] and [xmeans] encode the two point sets,
    calling nothing, and then make their library call with the two
    addresses, which differ, in a memory where both encoded point sets
    are in place: encoding the centers does not disturb the sample
    encoded before. The call is the first the wrapper records. *)
Theorem kmeans_call_on_stored ccore first rest first' rest' tolerance kmax w :
  Forall (λ row, (length first ≤ length row)%nat) rest →
  Forall (λ row, (length first' ≤ length row)%nat) rest' →
  ∃ p1 p2 w2,
    p1 ≠ p2 ∧
    point_set_stored (heap w2) p1 (len (first :: rest)) (len first)
      (take (length first) <$> first :: rest) ∧
    point_set_stored (heap w2) p2 (len (first' :: rest')) (len first')
      (take (length first') <$> first' :: rest') ∧
    Forall (λ ev, ¬ is_call ev) (events_since w w2) ∧
    kmeans ccore (first :: rest) (first' :: rest') tolerance w
    = (result ←' ccall ccore "kmeans_algorithm"
         [ArgPointer p1; ArgPointer p2; ArgDouble tolerance] ;;
       list_of_clusters ←' extract_clusters result ;;
       (ccall ccore "free_clustering_result" [ArgInt result] ;;'
        ret (RClusters list_of_clusters))) w2 ∧
    (∃ later,
       events_since w2
         (kmeans ccore (first :: rest) (first' :: rest') tolerance w).2
       = EvCall "kmeans_algorithm"
           [ArgPointer p1; ArgPointer p2; ArgDouble tolerance]
           (ccore "kmeans_algorithm"
              [ArgPointer p1; ArgPointer p2; ArgDouble tolerance]
              (heap w2)).1 :: later) ∧
    xmeans ccore (first :: rest) (first' :: rest') kmax tolerance w
    = (result ←' ccall ccore "xmeans_algorithm"
         [ArgPointer p1; ArgPointer p2; c_uint_value kmax;
          ArgDouble tolerance] ;;
       list_of_clusters ←' extract_clusters result ;;
       (ccall ccore "free_clustering_result" [ArgInt result] ;;'
        ret (RClusters list_of_clusters))) w2 ∧
    (∃ later,
       events_since w2
         (xmeans ccore (first :: rest) (first' :: rest') kmax tolerance w).2
       = EvCall "xmeans_algorithm"
           [ArgPointer p1; ArgPointer p2; c_uint_value kmax;
            ArgDouble tolerance]
           (ccore "xmeans_algorithm"
              [ArgPointer p1; ArgPointer p2; c_uint_value kmax;
               ArgDouble tolerance]
              (heap w2)).1 :: later).
Proof.
  intros Hrows Hrows'.
  destruct (create_pointer_data_twice first rest first' rest' w Hrows Hrows')
    as (p1 & p2 & w1 & w2 & E1 & E2 & Hne & S1 & S2).
  exists p1, p2, w2. repeat (split; [done|]).
  assert (Ek : kmeans ccore (first :: rest) (first' :: rest') tolerance w
               = (result ←' ccall ccore "kmeans_algorithm"
                    [ArgPointer p1; ArgPointer p2; ArgDouble tolerance] ;;
                  list_of_clusters ←' extract_clusters result ;;
                  (ccall ccore "free_clustering_result" [ArgInt result] ;;'
                   ret (RClusters list_of_clusters))) w2).
  { unfold kmeans.
    by rewrite (bind_ok _ _ _ _ _ E1), (bind_ok _ _ _ _ _ E2). }
  assert (Ex : xmeans ccore (first :: rest) (first' :: rest') kmax tolerance w
               = (result ←' ccall ccore "xmeans_algorithm"
                    [ArgPointer p1; ArgPointer p2; c_uint_value kmax;
                     ArgDouble tolerance] ;;
                  list_of_clusters ←' extract_clusters result ;;
                  (ccall ccore "free_clustering_result" [ArgInt result] ;;'
                   ret (RClusters list_of_clusters))) w2).
  { unfold xmeans.
    by rewrite (bind_ok _ _ _ _ _ E1), (bind_ok _ _ _ _ _ E2). }
  split.
  - destruct (call_free_create_pointer_data (first :: rest) w)
      as (e1 & T1 & F1).
    destruct (call_free_create_pointer_data (first' :: rest') w1)
      as (e2 & T2 & F2).
    rewrite E1 in T1. rewrite E2 in T2. cbn [snd] in T1, T2.
    rewrite (events_since_app w w2 (e1 ++ e2))
      by (by rewrite T2, T1, <- app_assoc).
    by apply Forall_app.
  - split; [done|]. split; [rewrite Ek; apply call_first_event|].
    split; [done|]. rewrite Ex. apply call_first_event.
Qed.

Lemma kmeans_call_on_stored_witness :
  ∃ p1 p2 w2 later,
    p1 ≠ p2 ∧
    point_set_stored (heap w2) p1 3 2 example_sample ∧
    point_set_stored (heap w2) p2 1 2 [[0.5; 0.5]]%float ∧
    events_since w2
      (kmeans example_ccore example_sample [[0.5; 0.5]]%float 0.25%float
         empty_world).2
    = EvCall "kmeans_algorithm"
        [ArgPointer p1; ArgPointer p2; ArgDouble 0.25%float]
        (example_ccore "kmeans_algorithm"
           [ArgPointer p1; ArgPointer p2; ArgDouble 0.25%float]
           (heap w2)).1 :: later.
Proof.
  destruct (kmeans_call_on_stored example_ccore [1.0; 2.0]%float
              [[3.0; 4.0]; [5.0; 6.0]]%float
              [0.5; 0.5]%float [] 0.25%float 0 empty_world)
    as (p1 & p2 & w2 & Hne & S1 & S2 & _ & _ & [later E] & _).
  - repeat constructor.
  - constructor.
  - exists p1, p2, w2, later.
    split; [exact Hne|]. split; [exact S1|]. split; [exact S2|exact E].
Defined.

(** ** X12 *)

(** X12 ([create_pointer_data]): for a well-shaped sample the header,
    the array of row pointers and the row buffers are pairwise
    different blocks (no two rows share a buffer), none has the NULL
    address, and each is at an address that was free before the call. *)
Theorem create_pointer_data_separate first rest w :
  Forall (λ row, (length first ≤ length row)%nat) rest →
  ∃ a po ptrs w',
    create_pointer_data (first :: rest) w = (Ok a, w') ∧
    heap w' !! a
    = Some (BData (DataRepresentation (len (first :: rest)) (len first) po)) ∧
    heap w' !! po = Some (BPointers ptrs) ∧
    length ptrs = length (first :: rest) ∧
    NoDup (a :: po :: ptrs) ∧
    Forall (λ x, x ≠ 0 ∧ heap w !! x = None) (a :: po :: ptrs).
Proof.
  intros Hrows.
  destruct (create_pointer_data_layout first rest w Hrows)
    as (a & po & ptrs & w' & E & Ha & Hpo & Hptrs & Hnd & Hfresh & _).
  exists a, po, ptrs, w'. repeat (split; [done|]).
  split; [|done]. by eapply Forall2_length.
Qed.

Lemma create_pointer_data_separate_witness :
  ∃ a po ptrs w',
    create_pointer_data example_sample empty_world = (Ok a, w') ∧
    NoDup (a :: po :: ptrs) ∧ length ptrs = 3%nat.
Proof.
  destruct (create_pointer_data_separate [1.0; 2.0]%float
              [[3.0; 4.0]; [5.0; 6.0]]%float empty_world)
    as (a & po & ptrs & w' & E & _ & _ & Hl & Hnd & _).
  - repeat constructor.
  - exists a, po, ptrs, w'. split; [exact E|]. split; [exact Hnd|exact Hl].
Defined.

(** * Properties of the cluster visualizer *)

Lemma py_lookup_Some {A} (l : list A) i c x :
  py_lookup l i = Some (c, x) → l !! c = Some x.
Proof.
  unfold py_lookup. case_decide; [|done].
  destruct (l !! _) eqn:E; [|done]. by intros [= <- <-].
Qed.

Lemma py_lookup_out_of_range {A} (l : list A) i :
  len l ≤ i ∨ i < - len l → py_lookup l i = None.
Proof.
  intros Hi. unfold py_lookup, len in *.
  destruct (decide (i < 0)).
  - case_decide; [|done]. exfalso. lia.
  - case_decide; [|done]. rewrite lookup_ge_None_2; [done|lia].
Qed.

Lemma py_lookup_negative {A} (l : list A) i :
  - len l ≤ i < 0 → py_lookup l i = py_lookup l (i + len l).
Proof.
  intros Hi. unfold py_lookup, len in *.
  destruct (decide (i < 0)); [|lia].
  destruct (decide (i + Z.of_nat (length l) < 0)); [lia|done].
Qed.

Lemma py_lookup_same_length {A B} (l : list A) (l' : list B) i c x :
  py_lookup l i = Some (c, x) → length l' = length l →
  ∃ y, py_lookup l' i = Some (c, y).
Proof.
  unfold py_lookup, len. intros H Hlen. rewrite Hlen.
  case_decide; [|done].
  destruct (l !! _) eqn:E; [|done]. injection H as <- <-.
  destruct (lookup_lt_is_Some_2 l' (Z.to_nat (if decide (i < 0)
              then i + Z.of_nat (length l) else i))) as [y Hy].
  { rewrite Hlen. by eapply lookup_lt_Some. }
  exists y. by rewrite Hy.
Qed.

Lemma alter_last_snoc {A} (f : A → A) (l : list A) x :
  alter f (length (l ++ [x]) - 1)%nat (l ++ [x]) = l ++ [f x].
Proof.
  rewrite length_app. simpl.
  replace (length l + 1 - 1)%nat with (length l + 0)%nat by lia.
  by rewrite alter_app_r.
Qed.

Lemma alter_insert_same {A} (f : A → A) (l : list A) c y :
  (c < length l)%nat → alter f c (<[c := y]> l) = <[c := f y]> l.
Proof.
  revert c. induction l as [|x l IH]; intros [|c] Hc; simpl in *;
    try lia; [done|]. f_equal. apply IH. lia.
Qed.

(** What [append_cluster_end] does: it never raises, and when no size
    was given it gives the last descriptor of canvas [c] its default. *)
Lemma append_cluster_end_run dimension c markersize self l added :
  canvas_clusters self !! c = Some (l ++ [added]) →
  descr_markersize added = markersize →
  append_cluster_end dimension c markersize self
  = (Returned,
     with_canvas_clusters self
       (<[c := l ++ [descriptor_of self (descr_cluster added)
                       (descr_data added) (descr_marker added) markersize
                       dimension]]> (canvas_clusters self))).
Proof.
  intros Hc Hm. unfold append_cluster_end.
  rewrite decide_False by lia.
  assert (Hid : ∀ d, d = added →
            with_canvas_clusters self (<[c := l ++ [d]]> (canvas_clusters self))
            = self).
  { intros d ->. rewrite list_insert_id by done. by destruct self. }
  assert (Hset : ∀ size,
            alter (λ l0, alter (set_markersize size) (length l0 - 1)%nat l0) c
              (canvas_clusters self)
            = <[c := l ++ [set_markersize size added]]> (canvas_clusters self)).
  { intros size. rewrite <- (list_insert_id _ _ _ Hc) at 1.
    rewrite alter_insert_same by by eapply lookup_lt_Some.
    by rewrite alter_last_snoc. }
  unfold descriptor_of. destruct added as [cl da ma ms]. simpl in *. subst ms.
  destruct markersize as [size|].
  - by rewrite Hid.
  - repeat case_decide; rewrite ?Hset; try done. by rewrite Hid.
Qed.

(** [append_cluster] when it returns: the cluster is the last of its
    canvas, and the canvas has the dimension of the cluster. *)
Lemma append_cluster_ok cluster data canvas marker markersize self
    c l k canvas_dimension dimension :
  len cluster ≠ 0 → canvas ≤ number_canvases self →
  py_lookup (canvas_clusters self) canvas = Some (c, l) →
  (length l < 20)%nat →
  dimension_of cluster data = Ok dimension →
  py_lookup (canvas_dimensions self) canvas = Some (k, canvas_dimension) →
  canvas_dimension = None ∨ canvas_dimension = Some dimension →
  append_cluster cluster data canvas marker markersize self
  = (Returned,
     with_canvas_dimensions
       (with_canvas_clusters self
          (<[c := l ++ [descriptor_of self cluster data marker markersize
                          dimension]]> (canvas_clusters self)))
       (<[k := Some dimension]> (canvas_dimensions self))).
Proof.
  intros Hne Hcanvas Hc Hl Hdim Hk Hcd. unfold append_cluster.
  rewrite decide_False by done. rewrite decide_False by lia.
  rewrite Hc, Hdim. cbn [canvas_dimensions with_canvas_clusters]. rewrite Hk.
  rewrite decide_False
    by (unfold len; rewrite length_app; simpl; lia).
  pose proof (py_lookup_Some _ _ _ _ Hc) as Hc'.
  assert (Hlt : (c < length (canvas_clusters self))%nat)
    by by eapply lookup_lt_Some.
  destruct Hcd as [->| ->].
  - rewrite (append_cluster_end_run dimension c markersize _ l
               (CanvasClusterDescr cluster data marker markersize));
      [|by apply list_lookup_insert_eq|done].
    cbn. by rewrite list_insert_insert_eq.
  - rewrite decide_False by (by intros ?).
    rewrite (append_cluster_end_run dimension c markersize _ l
               (CanvasClusterDescr cluster data marker markersize));
      [|by apply list_lookup_insert_eq|done].
    cbn. rewrite list_insert_insert_eq.
    by rewrite (list_insert_id (canvas_dimensions self))
      by by eapply py_lookup_Some.
Qed.

(** ** X14 *)

(** X14 ([append_cluster], [set_canvas_title]). The check of the canvas
    number fails with other exceptions than the NameError it is written
    to raise: a canvas number above the number of canvases gives a
    TypeError (the message cannot be built from an integer), and the
    number of canvases itself, which the check lets through, gives an
    IndexError. In both cases the visualizer is left as it was. *)
Theorem canvas_check_errors cluster data canvas marker markersize text self :
  well_formed self → len cluster ≠ 0 →
  (number_canvases self < canvas →
   append_cluster cluster data canvas marker markersize self
   = (Thrown (Builtin TypeError), self) ∧
   set_canvas_title text canvas self = (Thrown (Builtin TypeError), self)) ∧
  (canvas = number_canvases self →
   append_cluster cluster data canvas marker markersize self
   = (Thrown (Builtin IndexError), self) ∧
   set_canvas_title text canvas self = (Thrown (Builtin IndexError), self)).
Proof.
  intros (Hc & Hd & Ht) Hne. split.
  - intros Hgt. unfold append_cluster, set_canvas_title.
    rewrite decide_False by done. by rewrite !decide_True by lia.
  - intros ->. unfold append_cluster, set_canvas_title.
    rewrite decide_False by done. rewrite !decide_False by lia.
    rewrite !py_lookup_out_of_range; [done| |]; unfold len.
    + rewrite Ht. lia.
    + rewrite Hc. lia.
Qed.

Lemma canvas_check_errors_witness :
  append_cluster plane_cluster None 3 "." None (cluster_visualizer_init 2 2)
  = (Thrown (Builtin TypeError), cluster_visualizer_init 2 2) ∧
  append_cluster plane_cluster None 2 "." None (cluster_visualizer_init 2 2)
  = (Thrown (Builtin IndexError), cluster_visualizer_init 2 2).
Proof.
  split.
  - apply (canvas_check_errors plane_cluster None 3 "." None "title"
             (cluster_visualizer_init 2 2));
      [by repeat split|done|simpl; lia].
  - apply (canvas_check_errors plane_cluster None 2 "." None "title"
             (cluster_visualizer_init 2 2));
      [by repeat split|done|reflexivity].
Defined.

(** ** X15 *)

(** X15 ([append_cluster], [set_canvas_title]). A negative canvas number
    is accepted and counts from the end: with [n] canvases, the number
    [-k] (for [1 ≤ k ≤ n]) does what the number [n - k] does. *)
Theorem negative_canvas_from_the_end cluster data canvas marker markersize
    text self :
  well_formed self →
  - number_canvases self ≤ canvas < 0 →
  append_cluster cluster data canvas marker markersize self
  = append_cluster cluster data (canvas + number_canvases self) marker
      markersize self ∧
  set_canvas_title text canvas self
  = set_canvas_title text (canvas + number_canvases self) self.
Proof.
  intros (Hc & Hd & Ht) Hcanvas.
  assert (Hn : ∀ {A} (l : list A),
            length l = Z.to_nat (number_canvases self) →
            len l = number_canvases self)
    by (intros A l Hl; unfold len; rewrite Hl; lia).
  pose proof (Hn _ _ Hc) as Hc'. pose proof (Hn _ _ Hd) as Hd'.
  pose proof (Hn _ _ Ht) as Ht'.
  unfold append_cluster, set_canvas_title.
  rewrite !(decide_False (P := canvas > _)) by lia.
  rewrite !(decide_False (P := canvas + _ > _)) by lia.
  rewrite (py_lookup_negative (canvas_titles self)),
    (py_lookup_negative (canvas_clusters self)) by lia.
  rewrite Hc', Ht'. split; [|done].
  destruct (py_lookup (canvas_clusters self) _) as [[c l]|]; [|done].
  cbn [canvas_dimensions with_canvas_clusters].
  rewrite (py_lookup_negative (canvas_dimensions self)) by lia.
  by rewrite Hd'.
Qed.

Lemma negative_canvas_from_the_end_witness :
  append_cluster plane_cluster None (-1) "." None (cluster_visualizer_init 2 2)
  = append_cluster plane_cluster None 1 "." None (cluster_visualizer_init 2 2).
Proof.
  destruct (negative_canvas_from_the_end plane_cluster None (-1) "." None
              "title" (cluster_visualizer_init 2 2)) as [H _];
    [by repeat split|simpl; lia|].
  exact H.
Defined.

(** ** X16 *)

(** X16 ([append_cluster]). The limit on the dimension is never
    enforced: no call of [append_cluster] raises the NameError that
    says only objects of dimension 1, 2 or 3 can be displayed, since no
    number is below 1 and above 3. *)
Theorem dimension_limit_never_raised cluster data canvas marker markersize
    self :
  (append_cluster cluster data canvas marker markersize self).1
  ≠ Thrown (NameError "Only objects with size dimension 1 (1D plot), 2 (2D plot) or 3 (3D plot) can be displayed.").
Proof.
  assert (Hend : ∀ dimension c s,
            (append_cluster_end dimension c markersize s).1
            ≠ Thrown (NameError "Only objects with size dimension 1 (1D plot), 2 (2D plot) or 3 (3D plot) can be displayed.")).
  { intros dimension c s. unfold append_cluster_end.
    destruct (decide (dimension < 1 ∧ dimension > 3)); [lia|].
    destruct markersize; [done|]. by repeat case_decide. }
  unfold append_cluster.
  destruct (decide (len cluster = 0)); [done|].
  destruct (decide (canvas > number_canvases self)); [done|].
  destruct (py_lookup (canvas_clusters self) canvas) as [[c l]|]; [|done].
  case_decide; [done|].
  destruct (dimension_of cluster data) as [dimension|]; [|done].
  destruct (py_lookup _ canvas) as [[k [canvas_dimension|]]|];
    [|apply Hend|done].
  case_decide; [done|apply Hend].
Qed.

(** ** X17 *)

(** X17 ([append_cluster]). A cluster that is not empty, given for a
    canvas that exists and has fewer than twenty clusters and either no
    dimension yet or the dimension of the cluster, is appended after
    the clusters of that canvas, and the canvas takes the cluster's
    dimension, whatever it is. When no marker size is given the
    descriptor gets the default of the dimension: 5 for dimension 2,
    30 for dimension 3, and none for any other. *)
Theorem append_cluster_returns cluster data canvas marker markersize self
    c l k canvas_dimension dimension :
  len cluster ≠ 0 → canvas ≤ number_canvases self →
  py_lookup (canvas_clusters self) canvas = Some (c, l) →
  (length l < 20)%nat →
  dimension_of cluster data = Ok dimension →
  py_lookup (canvas_dimensions self) canvas = Some (k, canvas_dimension) →
  canvas_dimension = None ∨ canvas_dimension = Some dimension →
  append_cluster cluster data canvas marker markersize self
  = (Returned,
     with_canvas_dimensions
       (with_canvas_clusters self
          (<[c := l ++ [descriptor_of self cluster data marker markersize
                          dimension]]> (canvas_clusters self)))
       (<[k := Some dimension]> (canvas_dimensions self))).
Proof. apply append_cluster_ok. Qed.

Lemma append_cluster_returns_witness :
  append_cluster plane_cluster None 0 "." None (cluster_visualizer_init 2 2)
  = (Returned,
     ClusterVisualizer 2 2
       [[CanvasClusterDescr plane_cluster None "." (Some 5)]; []]
       [Some 2; None] [None; None] 5 30) ∧
  append_cluster [ItemObject []] None 1 "x" None (cluster_visualizer_init 2 2)
  = (Returned,
     ClusterVisualizer 2 2
       [[]; [CanvasClusterDescr [ItemObject []] None "x" None]]
       [None; Some 0] [None; None] 5 30).
Proof.
  split.
  - rewrite (append_cluster_returns plane_cluster None 0 "." None
               (cluster_visualizer_init 2 2) 0%nat [] 0%nat None 2
               ltac:(done) ltac:(done) ltac:(reflexivity) ltac:(simpl; lia)
               ltac:(reflexivity) ltac:(reflexivity) ltac:(by left)).
    reflexivity.
  - rewrite (append_cluster_returns [ItemObject []] None 1 "x" None
               (cluster_visualizer_init 2 2) 1%nat [] 1%nat None 0
               ltac:(done) ltac:(done) ltac:(reflexivity) ltac:(simpl; lia)
               ltac:(reflexivity) ltac:(reflexivity) ltac:(by left)).
    reflexivity.
Defined.

(** ** X18 *)

Lemma append_cluster_end_returned dimension c markersize self :
  (append_cluster_end dimension c markersize self).1 = Returned.
Proof.
  unfold append_cluster_end. destruct (decide (_ ∧ _)); [lia|].
  destruct markersize; [done|]. by repeat case_decide.
Qed.

(** X18 ([append_cluster]). The descriptor is put on the canvas before
    the cluster is checked. Once the canvas is found, whenever
    [append_cluster] raises, the rejected cluster is on the canvas all
    the same, and the dimensions and titles are as they were. This is
    what happens to the twenty-first cluster of a canvas (NameError:
    not enough colors) and to a cluster whose dimension is not the one
    of the canvas (NameError: only clusters with the same dimension). *)
Theorem append_cluster_rejected_stays cluster data canvas marker markersize
    self c l :
  len cluster ≠ 0 → canvas ≤ number_canvases self →
  py_lookup (canvas_clusters self) canvas = Some (c, l) →
  let left_behind :=
    with_canvas_clusters self
      (<[c := l ++ [CanvasClusterDescr cluster data marker markersize]]>
         (canvas_clusters self)) in
  (∀ e self',
     append_cluster cluster data canvas marker markersize self
     = (Thrown e, self') →
     self' = left_behind) ∧
  ((20 ≤ length l)%nat →
   append_cluster cluster data canvas marker markersize self
   = (Thrown (NameError "Not enough colors to display clusters."),
      left_behind)) ∧
  (∀ k canvas_dimension dimension,
     (length l < 20)%nat →
     dimension_of cluster data = Ok dimension →
     py_lookup (canvas_dimensions self) canvas
     = Some (k, Some canvas_dimension) →
     canvas_dimension ≠ dimension →
     append_cluster cluster data canvas marker markersize self
     = (Thrown (NameError "Only clusters with the same dimension of objects can be displayed on canvas."),
        left_behind)).
Proof.
  intros Hne Hcanvas Hc left_behind. unfold append_cluster.
  rewrite decide_False by done. rewrite decide_False by lia.
  rewrite Hc. fold left_behind.
  change (canvas_dimensions left_behind) with (canvas_dimensions self).
  assert (Hlen : len (l ++ [CanvasClusterDescr cluster data marker markersize])
                 = Z.of_nat (length l) + 1)
    by (unfold len; rewrite length_app; simpl; lia).
  rewrite Hlen. change (len colors) with 20.
  split; [|split].
  - intros e self'. case_decide; [by intros [= _ <-]|].
    destruct (dimension_of cluster data) as [dimension|];
      [|by intros [= _ <-]].
    destruct (py_lookup (canvas_dimensions self) canvas)
      as [[k [canvas_dimension|]]|]; [| |by intros [= _ <-]].
    + case_decide; [by intros [= _ <-]|]. intros E.
      pose proof (append_cluster_end_returned dimension c markersize
                    left_behind) as R.
      by rewrite E in R.
    + intros E.
      pose proof (append_cluster_end_returned dimension c markersize
                    (with_canvas_dimensions left_behind
                       (<[k := Some dimension]> (canvas_dimensions self))))
        as R.
      by rewrite E in R.
  - intros Hl. by rewrite decide_True by lia.
  - intros k canvas_dimension dimension Hl Hdim Hk Hd.
    rewrite decide_False by lia. rewrite Hdim, Hk.
    by rewrite decide_True by done.
Qed.

Lemma append_cluster_rejected_stays_witness :
  append_cluster space_cluster None 0 "." None
    (ClusterVisualizer 1 1
       [[CanvasClusterDescr plane_cluster None "." (Some 5)]] [Some 2]
       [None] 5 30)
  = (Thrown (NameError "Only clusters with the same dimension of objects can be displayed on canvas."),
     ClusterVisualizer 1 1
       [[CanvasClusterDescr plane_cluster None "." (Some 5);
         CanvasClusterDescr space_cluster None "." None]] [Some 2]
       [None] 5 30) ∧
  append_cluster plane_cluster None 0 "." None
    (ClusterVisualizer 1 1 [full_canvas] [Some 2] [None] 5 30)
  = (Thrown (NameError "Not enough colors to display clusters."),
     ClusterVisualizer 1 1
       [full_canvas ++ [CanvasClusterDescr plane_cluster None "." None]]
       [Some 2] [None] 5 30).
Proof.
  split.
  - apply (append_cluster_rejected_stays space_cluster None 0 "." None
             (ClusterVisualizer 1 1
                [[CanvasClusterDescr plane_cluster None "." (Some 5)]]
                [Some 2] [None] 5 30)
             0%nat [CanvasClusterDescr plane_cluster None "." (Some 5)]
             ltac:(done) ltac:(done) ltac:(reflexivity)
          ) with (k := 0%nat) (canvas_dimension := 2) (dimension := 3).
    + simpl. lia.
    + reflexivity.
    + reflexivity.
    + done.
  - apply (append_cluster_rejected_stays plane_cluster None 0 "." None
             (ClusterVisualizer 1 1 [full_canvas] [Some 2] [None] 5 30)
             0%nat full_canvas
             ltac:(done) ltac:(done) ltac:(reflexivity)).
    simpl. lia.
Defined.

(** ** X19 *)

Lemma grows_refl self : grows self self.
Proof.
  repeat split; try done. intros c l Hl. exists []. by rewrite app_nil_r.
Qed.

Lemma grows_trans s1 s2 s3 : grows s1 s2 → grows s2 s3 → grows s1 s3.
Proof.
  intros (N1 & T1 & C1 & D1 & S1 & A1) (N2 & T2 & C2 & D2 & S2 & A2).
  repeat split; try congruence.
  - intros c d Hd. by apply S2, S1.
  - intros c l Hl. destruct (A1 c l Hl) as [l1 Hl1].
    destruct (A2 c _ Hl1) as [l2 Hl2]. exists (l1 ++ l2).
    by rewrite app_assoc.
Qed.

Lemma grows_append self self' c l x :
  number_canvases self' = number_canvases self →
  canvas_titles self' = canvas_titles self →
  canvas_clusters self !! c = Some l →
  canvas_clusters self' = <[c := l ++ [x]]> (canvas_clusters self) →
  (canvas_dimensions self' = canvas_dimensions self ∨
   ∃ k d, canvas_dimensions self !! k = Some None ∧
          canvas_dimensions self'
          = <[k := Some d]> (canvas_dimensions self)) →
  grows self self'.
Proof.
  intros HN HT Hl HC HD. split; [done|]. split; [done|].
  split; [by rewrite HC, length_insert|]. split; [|split].
  - destruct HD as [->|(k & d & _ & ->)]; [done|]. by rewrite length_insert.
  - intros j d Hj. destruct HD as [->|(k & d' & Hk & ->)]; [done|].
    rewrite list_lookup_insert_ne; [done|]. intros <-. congruence.
  - intros j lj Hj. rewrite HC. destruct (decide (j = c)) as [->|].
    + rewrite list_lookup_insert_eq by by eapply lookup_lt_Some.
      exists [x]. congruence.
    + exists []. by rewrite list_lookup_insert_ne, app_nil_r.
Qed.

Lemma append_cluster_grows cluster data canvas marker markersize self :
  grows self (append_cluster cluster data canvas marker markersize self).2.
Proof.
  unfold append_cluster.
  destruct (decide (len cluster = 0)); [apply grows_refl|].
  destruct (decide (canvas > number_canvases self)); [apply grows_refl|].
  destruct (py_lookup (canvas_clusters self) canvas) as [[c l]|] eqn:Hc;
    [|apply grows_refl].
  apply py_lookup_Some in Hc.
  assert (Hlt : (c < length (canvas_clusters self))%nat)
    by by eapply lookup_lt_Some.
  set (added := CanvasClusterDescr cluster data marker markersize).
  assert (Hleft : grows self
            (with_canvas_clusters self
               (<[c := l ++ [added]]> (canvas_clusters self))))
    by (eapply grows_append; try done; by left).
  case_decide; [done|].
  destruct (dimension_of cluster data) as [dimension|]; [|done].
  cbn [canvas_dimensions with_canvas_clusters].
  destruct (py_lookup (canvas_dimensions self) canvas)
    as [[k [canvas_dimension|]]|] eqn:Hk; [| |done].
  - case_decide; [done|].
    rewrite (append_cluster_end_run dimension c markersize _ l added);
      [|by apply list_lookup_insert_eq|done].
    cbn. rewrite list_insert_insert_eq.
    eapply grows_append; try done. by left.
  - rewrite (append_cluster_end_run dimension c markersize _ l added);
      [|by apply list_lookup_insert_eq|done].
    cbn. rewrite list_insert_insert_eq.
    eapply grows_append; try done. right. exists k, dimension.
    split; [by eapply py_lookup_Some|done].
Qed.

(** X19 ([append_clusters], [append_cluster]). Whatever is appended,
    and whether the call returns or raises, the visualizer only grows:
    the number of canvases, the titles and the lengths of the lists are
    kept, a canvas dimension that was set keeps its value, and every
    canvas keeps the descriptors it had, in their places, in front of
    the new ones. A visualizer with one entry per canvas stays so. *)
Theorem append_clusters_grows clusters data canvas marker markersize self :
  grows self (append_clusters clusters data canvas marker markersize self).2 ∧
  (well_formed self →
   well_formed
     (append_clusters clusters data canvas marker markersize self).2).
Proof.
  assert (G : grows self
                (append_clusters clusters data canvas marker markersize
                   self).2).
  { revert self. induction clusters as [|cluster clusters IH]; intros self.
    - apply grows_refl.
    - simpl.
      pose proof (append_cluster_grows cluster data canvas marker markersize
                    self) as G1.
      destruct (append_cluster cluster data canvas marker markersize self)
        as [[|e] self1]; [|done].
      eapply grows_trans; [exact G1|apply IH]. }
  split; [done|].
  destruct G as (N & T & C & D & _). intros (Hc & Hd & Ht).
  unfold well_formed. by rewrite N, T, C, D.
Qed.

Lemma append_clusters_grows_witness :
  well_formed
    (append_clusters [plane_cluster; space_cluster] None 0 "." None
       (cluster_visualizer_init 2 2)).2.
Proof.
  apply (append_clusters_grows [plane_cluster; space_cluster] None 0 "." None
           (cluster_visualizer_init 2 2)).
  by repeat split.
Defined.

(** ** X20 *)

Lemma py_lookup_insert {A} (l : list A) i c x y :
  py_lookup l i = Some (c, x) → py_lookup (<[c := y]> l) i = Some (c, y).
Proof.
  unfold py_lookup, len. rewrite length_insert.
  case_decide; [|done]. destruct (l !! _) eqn:E; [|done].
  intros [= <- <-]. rewrite list_lookup_insert_eq; [done|].
  by eapply lookup_lt_Some.
Qed.

Lemma append_clusters_ok clusters data canvas marker markersize dimension
    c k : ∀ self l canvas_dimension,
  canvas ≤ number_canvases self →
  py_lookup (canvas_clusters self) canvas = Some (c, l) →
  py_lookup (canvas_dimensions self) canvas = Some (k, canvas_dimension) →
  canvas_dimension = None ∨ canvas_dimension = Some dimension →
  Forall (λ cluster, len cluster ≠ 0 →
                     dimension_of cluster data = Ok dimension) clusters →
  (length l + length (filter (λ cluster, len cluster ≠ 0%Z) clusters)
   ≤ 20)%nat →
  append_clusters clusters data canvas marker markersize self
  = (Returned,
     with_canvas_dimensions
       (with_canvas_clusters self
          (<[c := l ++ ((λ cluster, descriptor_of self cluster data marker
                                      markersize dimension)
                        <$> filter (λ cluster, len cluster ≠ 0) clusters)]>
             (canvas_clusters self)))
       match filter (λ cluster, len cluster ≠ 0) clusters with
       | [] => canvas_dimensions self
       | _ => <[k := Some dimension]> (canvas_dimensions self)
       end).
Proof.
  induction clusters as [|cluster clusters IH];
    intros self l canvas_dimension Hcanvas Hc Hk Hcd Hall Hl.
  - simpl. rewrite app_nil_r.
    rewrite list_insert_id by by eapply py_lookup_Some. by destruct self.
  - apply Forall_cons in Hall as [Hdim Hall]. simpl.
    destruct (decide (len cluster = 0)) as [Hempty|Hne].
    + rewrite filter_cons_False in * by (by intros ?).
      unfold append_cluster at 1. rewrite decide_True by done.
      by eapply IH.
    + rewrite filter_cons_True in * by done. simpl in Hl.
      rewrite (append_cluster_ok cluster data canvas marker markersize self
                 c l k canvas_dimension dimension Hne Hcanvas Hc
                 ltac:(lia) (Hdim Hne) Hk Hcd).
      rewrite (IH _ (l ++ [descriptor_of self cluster data marker markersize
                             dimension]) (Some dimension)).
      * cbn. rewrite !list_insert_insert_eq, <- app_assoc. simpl.
        f_equal. f_equal. by destruct (filter _ clusters).
      * done.
      * cbn. by eapply py_lookup_insert.
      * cbn. by eapply py_lookup_insert.
      * by right.
      * done.
      * rewrite length_app. simpl. lia.
Qed.

(** X20 ([append_clusters]). Given clusters whose non-empty ones all
    have the dimension of the canvas (or any one dimension, when the
    canvas has none yet), and room for them among the twenty colors,
    [append_clusters] returns, skips the empty clusters and appends a
    descriptor for each of the others, in the order given, after the
    descriptors the canvas had. *)
Theorem append_clusters_returns clusters data canvas marker markersize self
    c l k canvas_dimension dimension :
  canvas ≤ number_canvases self →
  py_lookup (canvas_clusters self) canvas = Some (c, l) →
  py_lookup (canvas_dimensions self) canvas = Some (k, canvas_dimension) →
  canvas_dimension = None ∨ canvas_dimension = Some dimension →
  Forall (λ cluster, len cluster ≠ 0 →
                     dimension_of cluster data = Ok dimension) clusters →
  (length l + length (filter (λ cluster, len cluster ≠ 0%Z) clusters)
   ≤ 20)%nat →
  append_clusters clusters data canvas marker markersize self
  = (Returned,
     with_canvas_dimensions
       (with_canvas_clusters self
          (<[c := l ++ ((λ cluster, descriptor_of self cluster data marker
                                      markersize dimension)
                        <$> filter (λ cluster, len cluster ≠ 0) clusters)]>
             (canvas_clusters self)))
       match filter (λ cluster, len cluster ≠ 0) clusters with
       | [] => canvas_dimensions self
       | _ => <[k := Some dimension]> (canvas_dimensions self)
       end).
Proof. apply append_clusters_ok. Qed.

Lemma append_clusters_returns_witness :
  append_clusters [cluster_of_indexes; []; [ItemIndex 1]]
    (Some example_sample) 1 "o" None (cluster_visualizer_init 2 2)
  = (Returned,
     ClusterVisualizer 2 2
       [[]; [CanvasClusterDescr cluster_of_indexes (Some example_sample) "o"
               (Some 5);
             CanvasClusterDescr [ItemIndex 1] (Some example_sample) "o"
               (Some 5)]]
       [None; Some 2] [None; None] 5 30).
Proof.
  rewrite (append_clusters_returns [cluster_of_indexes; []; [ItemIndex 1]]
             (Some example_sample) 1 "o" None (cluster_visualizer_init 2 2)
             1%nat [] 1%nat None 2
             ltac:(done) ltac:(reflexivity) ltac:(reflexivity)
             ltac:(by left) ltac:(by repeat constructor)
             ltac:(vm_compute; lia)).
  reflexivity.
Defined.
